(** * elfin / dbgen.py: the transform-database generator

    A shallow embedding of [src/elfinpy/dbgen.py] and of the helpers of
    [src/elfinpy/pdb_utilities.py] it calls.  Python integers are [Z],
    coordinates are exact rationals [Q] (the idealisation of float64 the
    specification calls "exact arithmetic"), dictionaries are [gmap]s and
    Python exceptions are the [Raise] branch of [result].  The object
    [self] of [XDBGenerator] is threaded explicitly through a
    state-and-exception monad that keeps the state on a raise, as Python
    does. *)

From Stdlib Require Import ZArith QArith Qround Qfield Qminmax List String Ascii Lia Bool.
From stdpp Require Import base option list gmap strings fin_maps.

Set Implicit Arguments.
Unset Strict Implicit.

(** ** Python exceptions and fallible expressions *)

Inductive exn : Type :=
| AssertionError | KeyError | IndexError | ValueError | AttributeError
| TypeError | ZeroDivisionError | PDBException | LinAlgError | ParseError.

Inductive result (A : Type) : Type :=
| Ok (a : A)
| Raise (e : exn).
Arguments Ok {A} a.
Arguments Raise {A} e.

Definition rbind {A B} (r : result A) (k : A -> result B) : result B :=
  match r with
  | Ok a => k a
  | Raise e => Raise e
  end.

Declare Scope res_scope.
Delimit Scope res_scope with res.
Notation "x <- c ;; k" := (rbind c (fun x => k))
  (at level 100, c at next level, right associativity) : res_scope.

(** [assert(b)] *)
Definition py_assert (b : bool) : result unit :=
  if b then Ok tt else Raise AssertionError.

(** A [for] loop whose body may raise, accumulating a value. *)
Fixpoint rfold {A B} (f : B -> A -> result B) (l : list A) (acc : B) : result B :=
  match l with
  | [] => Ok acc
  | x :: l' => rbind (f acc x) (rfold f l')
  end.

(** A list comprehension whose element expression may raise. *)
Fixpoint rmap {A B} (f : A -> result B) (l : list A) : result (list B) :=
  match l with
  | [] => Ok []
  | x :: l' => rbind (f x) (fun y => rbind (rmap f l') (fun ys => Ok (y :: ys)))
  end.

(** ** Python list slicing [l[start:stop]] (step 1)

    A negative bound counts from the end; both bounds are then clamped to
    [0 .. len(l)]; the slice is empty when the bounds cross. *)

Definition py_clamp (n i : Z) : Z :=
  if (i <? 0)%Z then Z.max (i + n) 0 else Z.min i n.

Definition py_slice {A} (l : list A) (start stop : Z) : list A :=
  let n := Z.of_nat (length l) in
  let a := py_clamp n start in
  let b := py_clamp n stop in
  firstn (Z.to_nat (b - a)) (skipn (Z.to_nat a) l).

(** [s.lower()] on ASCII letters. *)
Definition lower_ascii (c : ascii) : ascii :=
  let k := nat_of_ascii c in
  if (65 <=? k)%nat && (k <=? 90)%nat then ascii_of_nat (k + 32) else c.

Fixpoint lower (s : string) : string :=
  match s with
  | EmptyString => EmptyString
  | String c s' => String (lower_ascii c) (lower s')
  end.

(** ** Vectors and matrices over exact rationals *)

Record vec3 : Type := V3 { vx : Q; vy : Q; vz : Q }.

(** A 3x3 array, by rows. *)
Record mat3 : Type := M3 { row0 : vec3; row1 : vec3; row2 : vec3 }.

(** A 4x4 array in blocks: [[m_rot, m_col], [m_bot, m_corner]]. *)
Record mat4 : Type := M4 { m_rot : mat3; m_col : vec3; m_bot : vec3; m_corner : Q }.

Definition vzero : vec3 := V3 0 0 0.
Definition vadd (u v : vec3) : vec3 := V3 (vx u + vx v) (vy u + vy v) (vz u + vz v).
Definition vneg (u : vec3) : vec3 := V3 (- vx u) (- vy u) (- vz u).
Definition vscale (k : Q) (u : vec3) : vec3 := V3 (k * vx u) (k * vy u) (k * vz u).
Definition vdot (u v : vec3) : Q := vx u * vx v + vy u * vy v + vz u * vz v.

(** Component-wise equality of rationals as fractions. *)
Definition veq (u v : vec3) : Prop := vx u == vx v /\ vy u == vy v /\ vz u == vz v.

Definition col0 (m : mat3) : vec3 := V3 (vx (row0 m)) (vx (row1 m)) (vx (row2 m)).
Definition col1 (m : mat3) : vec3 := V3 (vy (row0 m)) (vy (row1 m)) (vy (row2 m)).
Definition col2 (m : mat3) : vec3 := V3 (vz (row0 m)) (vz (row1 m)) (vz (row2 m)).

(** [np.transpose(m)] *)
Definition transpose (m : mat3) : mat3 := M3 (col0 m) (col1 m) (col2 m).

(** [np.dot(v, m)]: a row vector times a matrix. *)
Definition vec_mat (v : vec3) (m : mat3) : vec3 :=
  V3 (vdot v (col0 m)) (vdot v (col1 m)) (vdot v (col2 m)).

(** [np.dot(m, v)]: a matrix times a column vector. *)
Definition mat_vec (m : mat3) (v : vec3) : vec3 :=
  V3 (vdot (row0 m) v) (vdot (row1 m) v) (vdot (row2 m) v).

Definition madd (a b : mat3) : mat3 :=
  M3 (vadd (row0 a) (row0 b)) (vadd (row1 a) (row1 b)) (vadd (row2 a) (row2 b)).

Definition mmul (a b : mat3) : mat3 :=
  M3 (vec_mat (row0 a) b) (vec_mat (row1 a) b) (vec_mat (row2 a) b).

(** The outer product of a column and a row. *)
Definition outer (c r : vec3) : mat3 :=
  M3 (vscale (vx c) r) (vscale (vy c) r) (vscale (vz c) r).

(** [np.matmul] on two 4x4 arrays, block by block. *)
Definition matmul (a b : mat4) : mat4 :=
  M4 (madd (mmul (m_rot a) (m_rot b)) (outer (m_col a) (m_bot b)))
     (vadd (mat_vec (m_rot a) (m_col b)) (vscale (m_corner b) (m_col a)))
     (vadd (vec_mat (m_bot a) (m_rot b)) (vscale (m_corner a) (m_bot b)))
     (vdot (m_bot a) (m_col b) + m_corner a * m_corner b).

(** [np.vstack((np.hstack((rot, np.transpose([tran]))), [0,0,0,1]))] *)
Definition homogeneous (rot : mat3) (tran : vec3) : mat4 :=
  M4 rot tran vzero 1.

Definition identity3 : mat3 := M3 (V3 1 0 0) (V3 0 1 0) (V3 0 0 1).

Definition vec_tolist (v : vec3) : list Q := [vx v; vy v; vz v].
Definition mat_tolist (m : mat3) : list (list Q) :=
  [vec_tolist (row0 m); vec_tolist (row1 m); vec_tolist (row2 m)].

(** A float array divided by a Python int.  numpy does not raise on a zero
    divisor: it warns and yields [inf]/[nan] components, which have no
    rational value and are [None] here. *)
Definition vdiv_int (v : vec3) (d : Z) : option vec3 :=
  if (d =? 0)%Z then None else Some (vscale (/ inject_Z d) v).

Definition vsum (l : list vec3) : vec3 := fold_left vadd l vzero.

(** [np.mean(l, axis=0)]; [nan] ([None]) on the empty list. *)
Definition np_mean (l : list vec3) : option vec3 :=
  vdiv_int (vsum l) (Z.of_nat (length l)).

(** ** utilities.py *)

(** Modelled from the spec: [int_floor] of [utilities.py], which is not
    among the source files; the spec's floor convention.  The argument is
    [float(rc) / 2], exact in binary floating point. *)
Definition int_floor (f : Q) : Z := Qfloor f.

(** Modelled from the spec: [int_ceil] of [utilities.py], which is not
    among the source files; the spec writes [fusion_count] as
    [ceil(count / fusion_factor)].  The argument is [float(rc)] divided by
    2, 4 or 8, exact in binary floating point. *)
Definition int_ceil (f : Q) : Z := Qceiling f.

(** [float(rc) / k] *)
Definition fdiv (rc k : Z) : Q := inject_Z rc / inject_Z k.

(** ** Bio.PDB structures (pdb_utilities.py) *)

Record Atom : Type := mkAtom { atom_name : string; element : string; coord : vec3 }.
Record Residue : Type := mkResidue { atoms : list Atom }.
Record Chain : Type := mkChain { chain_id : string; residues : list Residue }.
Record Model : Type := mkModel { chains : list Chain }.

(** [at_origin] is an attribute that [move_to_origin] adds to the object:
    [None] while it has not been set. *)
Record Structure : Type := mkStructure { models : list Model; at_origin : option bool }.

(** [residue['CA']] *)
Definition residue_get (r : Residue) (name : string) : result Atom :=
  match find (fun a => String.eqb (atom_name a) name) (atoms r) with
  | Some a => Ok a
  | None => Raise KeyError
  end.

(** [struct.child_list[0]] *)
Definition first_model (struct : Structure) : result Model :=
  match models struct with
  | m :: _ => Ok m
  | [] => Raise IndexError
  end.

Definition get_chain (struct : Structure) (cid : string) : result Chain :=
  (m <- first_model struct ;;
   match find (fun c => String.eqb (chain_id c) cid) (chains m) with
   | Some c => Ok c
   | None => Raise KeyError
   end)%res.

Definition get_pdb_residue_count (pdb : Structure) : result Z :=
  (m <- first_model pdb ;;
   Ok (fold_left Z.add (map (fun c => Z.of_nat (length (residues c))) (chains m)) 0%Z))%res.

Definition get_chain_residue_count (struct : Structure) (cid : string) : result Z :=
  (c <- get_chain struct cid ;; Ok (Z.of_nat (length (residues c))))%res.

(** [struct.get_chains()], [struct.get_residues()], [struct.get_atoms()]:
    Bio.PDB walks every model. *)
Definition get_chains (struct : Structure) : list Chain :=
  concat (map chains (models struct)).
Definition get_residues (struct : Structure) : list Residue :=
  concat (map residues (get_chains struct)).
Definition get_atoms (struct : Structure) : list Atom :=
  concat (map atoms (get_residues struct)).

(** [struct.transform(rot, tran)]: every atom becomes [coord . rot + tran]. *)
Definition transform_atom (rot : mat3) (tran : vec3) (a : Atom) : Atom :=
  mkAtom (atom_name a) (element a) (vadd (vec_mat (coord a) rot) tran).
Definition transform_residue rot tran (r : Residue) : Residue :=
  mkResidue (map (transform_atom rot tran) (atoms r)).
Definition transform_chain rot tran (c : Chain) : Chain :=
  mkChain (chain_id c) (map (transform_residue rot tran) (residues c)).
Definition transform_model rot tran (m : Model) : Model :=
  mkModel (map (transform_chain rot tran) (chains m)).
Definition transform (rot : mat3) (tran : vec3) (s : Structure) : Structure :=
  mkStructure (map (transform_model rot tran) (models s)) (at_origin s).

(** [[r['CA'].get_coord() for r in rs]] *)
Definition ca_coords (rs : list Residue) : result (list vec3) :=
  rmap (fun r => a <- residue_get r "CA" ;; Ok (coord a))%res rs.

(** ** find_tip *)

Definition find_tip (term : string) (struct : Structure) (cid : string)
  : result (option vec3) :=
  (let term := lower term in
   _ <- py_assert (String.eqb term "c" || String.eqb term "n") ;;
   chain <- get_chain struct cid ;;
   let residues := residues chain in
   let n := Z.of_nat (length residues) in
   let divider := 6%Z in
   _ <- py_assert (0 <? n)%Z ;;
   let '(start_idx, end_idx) :=
     if String.eqb term "n" then (0, n / divider)%Z
     else ((divider - 1) * n / divider, n)%Z in
   sum_coord <- rfold (fun acc r => a <- residue_get r "CA" ;; Ok (vadd acc (coord a)))
                      (py_slice residues start_idx end_idx) vzero ;;
   Ok (vdiv_int sum_coord (end_idx - start_idx - 1)))%res.

(** ** The fusion windows of process_double and process_hub *)

Definition dbl_fusion_factor : Z := 8.
Definition hub_fusion_factor : Z := 4.

(** [int_ceil(float(rc) / fusion_factor)] *)
Definition fusion_count (rc factor : Z) : Z := int_ceil (fdiv rc factor).

(** [rc_a_half = int_floor(float(rc_a)/2)], [rc_b_half = int_ceil(float(rc_b)/2)] *)
Definition rc_a_half (rc_a : Z) : Z := int_floor (fdiv rc_a 2).
Definition rc_b_half (rc_b : Z) : Z := int_ceil (fdiv rc_b 2).

(** ** Transform records and the module table *)

(** ['rot'] and ['tran'] hold [rot.tolist()] and [tran.tolist()]: the same
    numbers as nested lists ([mat_tolist], [vec_tolist]), which
    [process_hub] turns back into arrays. *)
Record tx_entry : Type := mkTx {
  mod_a : string; mod_a_chain : string;
  mod_b : string; mod_b_chain : string;
  rot : mat3; tran : vec3 }.

Definition create_tx (a a_chain b b_chain : string) (r : mat3) (t : vec3) : tx_entry :=
  mkTx a a_chain b b_chain r t.

(** A neighbour map is the two-level [nested_dict]
    [side[unit_name][chain_id] = tx_id], keyed here by the pair. *)
Abbreviation nmap := (gmap (string * string) nat).

Record radii : Type := mkRadii { average_all : Q; max_ca_dist : Q; max_heavy_dist : Q }.

(** A chain entry of a single.  [process_single] makes it with
    ['n_residues']; one that a write auto-vivifies has none. *)
Record single_chain : Type := mkSingleChain {
  sc_n : nmap; sc_c : nmap; sc_n_residues : option Z }.

(** [modules['singles'][name]].  [sm_vivified] marks an entry that came
    from auto-vivification of the [nested_dict] rather than from
    [process_single]: its ['chains'] vivifies missing chains too and it has
    no ['radii']. *)
Record single_module : Type := mkSingleModule {
  sm_chains : gmap string single_chain;
  sm_radii : option radii;
  sm_vivified : bool }.

(** The value of ['n_tip'] / ['c_tip']: the initial [nested_dict()], or
    the list [find_tip] returned ([None]: non-finite components). *)
Inductive tip_attr : Type :=
| TipEmpty
| TipVector (v : option vec3).

Record hub_chain : Type := mkHubChain {
  hc_single_name : string;
  hc_n : nmap; hc_n_tip : tip_attr;
  hc_c : nmap; hc_c_tip : tip_attr;
  hc_n_residues : Z }.

Record hub_module : Type := mkHubModule {
  hm_chains : gmap string hub_chain;
  hm_radii : radii }.

(** One value of [hub_info[name]['component_data']]. *)
Record chain_data : Type := mkChainData {
  single_name : string; c_free : bool; n_free : bool }.

(** [hub_info[name]]: ['component_data'] in key order (a dictionary: the
    keys are distinct), [None] once [process_hub] has deleted the key.
    [process_hub] stores this very object under [modules['hubs']]; the
    fields it adds there are kept in [hub_module]. *)
Abbreviation hub_meta := (option (list (string * chain_data))).

(** A value of the [defaultdict(dict)] cache [single_pdbs]: a structure,
    or the empty [dict] that reading a missing key inserts. *)
Inductive pdb_slot : Type :=
| Loaded (s : Structure)
| EmptyDict.

(** The two top-level values [json.dump] writes. *)
Inductive dumped : Type :=
| DModules (singles : gmap string single_module) (hubs : gmap string hub_module)
| DTransforms (l : list tx_entry).

(** The fields of [self], then the files the generator writes
    ([aligned_files]: path to saved structure; [out_written]: the dumped
    document) and a ghost log [issued] of every [(tx_id, tx)] at the
    statement [tx_id = len(...)], which no function reads. *)
Record XDBGenerator : Type := mkGen {
  aligned_pdb_dir : string;
  hub_info : gmap string hub_meta;
  singles : gmap string single_module;
  hubs : gmap string hub_module;
  n_to_c_tx : list tx_entry;
  hub_tx : list tx_entry;
  single_pdbs : gmap string pdb_slot;
  double_pdbs : gmap (string * string) Structure;
  aligned_files : gmap string Structure;
  out_written : option (list (string * dumped));
  issued : list (nat * tx_entry) }.

(** [__init__] *)
Definition init (dir : string) (info : gmap string hub_meta) : XDBGenerator :=
  mkGen dir info ∅ ∅ [] [] ∅ ∅ ∅ None [].

(** ** The state-and-exception monad of the methods *)

Definition M (A : Type) : Type := XDBGenerator -> result A * XDBGenerator.

Definition ret {A} (a : A) : M A := fun s => (Ok a, s).
Definition bind {A B} (m : M A) (k : A -> M B) : M B :=
  fun s => match m s with
           | (Ok a, s') => k a s'
           | (Raise e, s') => (Raise e, s')
           end.
Definition lift {A} (r : result A) : M A := fun s => (r, s).
Definition gets {A} (f : XDBGenerator -> A) : M A := fun s => (Ok (f s), s).
Definition modify (f : XDBGenerator -> XDBGenerator) : M unit := fun s => (Ok tt, f s).

Declare Scope gen_scope.
Delimit Scope gen_scope with gen.
Notation "x <- c ;; k" := (bind c (fun x => k))
  (at level 100, c at next level, right associativity) : gen_scope.

(** A [for] loop over [l] with a body in [M]. *)
Fixpoint for_each {A} (l : list A) (body : A -> M unit) : M unit :=
  match l with
  | [] => ret tt
  | x :: l' => bind (body x) (fun _ => for_each l' body)
  end.

Definition set_singles f (s : XDBGenerator) : XDBGenerator :=
  mkGen (aligned_pdb_dir s) (hub_info s) (f (singles s)) (hubs s) (n_to_c_tx s)
        (hub_tx s) (single_pdbs s) (double_pdbs s) (aligned_files s) (out_written s) (issued s).
Definition set_hubs f (s : XDBGenerator) : XDBGenerator :=
  mkGen (aligned_pdb_dir s) (hub_info s) (singles s) (f (hubs s)) (n_to_c_tx s)
        (hub_tx s) (single_pdbs s) (double_pdbs s) (aligned_files s) (out_written s) (issued s).
Definition set_hub_info f (s : XDBGenerator) : XDBGenerator :=
  mkGen (aligned_pdb_dir s) (f (hub_info s)) (singles s) (hubs s) (n_to_c_tx s)
        (hub_tx s) (single_pdbs s) (double_pdbs s) (aligned_files s) (out_written s) (issued s).
Definition set_n_to_c_tx f (s : XDBGenerator) : XDBGenerator :=
  mkGen (aligned_pdb_dir s) (hub_info s) (singles s) (hubs s) (f (n_to_c_tx s))
        (hub_tx s) (single_pdbs s) (double_pdbs s) (aligned_files s) (out_written s) (issued s).
Definition set_hub_tx f (s : XDBGenerator) : XDBGenerator :=
  mkGen (aligned_pdb_dir s) (hub_info s) (singles s) (hubs s) (n_to_c_tx s)
        (f (hub_tx s)) (single_pdbs s) (double_pdbs s) (aligned_files s) (out_written s) (issued s).
Definition set_single_pdbs f (s : XDBGenerator) : XDBGenerator :=
  mkGen (aligned_pdb_dir s) (hub_info s) (singles s) (hubs s) (n_to_c_tx s)
        (hub_tx s) (f (single_pdbs s)) (double_pdbs s) (aligned_files s) (out_written s) (issued s).
Definition set_double_pdbs f (s : XDBGenerator) : XDBGenerator :=
  mkGen (aligned_pdb_dir s) (hub_info s) (singles s) (hubs s) (n_to_c_tx s)
        (hub_tx s) (single_pdbs s) (f (double_pdbs s)) (aligned_files s) (out_written s) (issued s).
Definition set_aligned_files f (s : XDBGenerator) : XDBGenerator :=
  mkGen (aligned_pdb_dir s) (hub_info s) (singles s) (hubs s) (n_to_c_tx s)
        (hub_tx s) (single_pdbs s) (double_pdbs s) (f (aligned_files s)) (out_written s) (issued s).
Definition set_out_written f (s : XDBGenerator) : XDBGenerator :=
  mkGen (aligned_pdb_dir s) (hub_info s) (singles s) (hubs s) (n_to_c_tx s)
        (hub_tx s) (single_pdbs s) (double_pdbs s) (aligned_files s) (f (out_written s)) (issued s).
Definition set_issued f (s : XDBGenerator) : XDBGenerator :=
  mkGen (aligned_pdb_dir s) (hub_info s) (singles s) (hubs s) (n_to_c_tx s)
        (hub_tx s) (single_pdbs s) (double_pdbs s) (aligned_files s) (out_written s) (f (issued s)).

(** ** File names *)

(** [s.replace('.pdb', '')] *)
Fixpoint strip_pdb (s : string) : string :=
  match s with
  | String "."%char (String "p"%char (String "d"%char (String "b"%char s'))) => strip_pdb s'
  | String c s' => String c (strip_pdb s')
  | EmptyString => EmptyString
  end.

(** [s.split(sep)]: the pieces between the separators (at least one). *)
Fixpoint split (sep : ascii) (s : string) : list string :=
  match s with
  | EmptyString => [EmptyString]
  | String c s' =>
      if Ascii.eqb c sep then EmptyString :: split sep s'
      else match split sep s' with
           | p :: ps => String c p :: ps
           | [] => [String c EmptyString]
           end
  end.

(** [file_name.split('/')[-1]], also [os.path.basename(file_name)] *)
Definition basename (file_name : string) : string :=
  List.last (split "/" file_name) EmptyString.

(** [file_name.split('/')[-1].replace('.pdb', '')] *)
Definition module_name (file_name : string) : string := strip_pdb (basename file_name).

(** [a, b = double_name.split('-')]: unpacking needs exactly two pieces. *)
Definition split_double_name (double_name : string) : result (string * string) :=
  match split "-" double_name with
  | [a; b] => Ok (a, b)
  | _ => Raise ValueError
  end.

(** [list(struct.get_chains())[0].id] *)
Definition first_chain_id (struct : Structure) : result string :=
  match get_chains struct with
  | c :: _ => Ok (chain_id c)
  | [] => Raise IndexError
  end.

(** A cached value used as a structure: the empty [dict] has none of the
    attributes. *)
Definition slot_structure (p : pdb_slot) : result Structure :=
  match p with
  | Loaded s => Ok s
  | EmptyDict => Raise AttributeError
  end.

Section Generator.

(** The external routines.  [svd_fit fixed moving] is what Bio.PDB's SVD
    superimposer does with two coordinate lists of one length: a rotation
    and a translation, or a raise (the specification requires non-empty
    lists); [linalg_inv] is [np.linalg.inv]; [norm] is [np.linalg.norm];
    [pdb_file] is what the PDB parser reads at a path. *)
Variable svd_fit : list vec3 -> list vec3 -> result (mat3 * vec3).
Variable linalg_inv : mat4 -> result mat4.
Variable norm : vec3 -> Q.
Variable pdb_file : string -> result (list Model).

Definition read_pdb (read_path : string) : result Structure :=
  (ms <- pdb_file read_path ;; Ok (mkStructure ms None))%res.

(** [Superimposer.set_atoms(fixed, moving)] followed by [.rotran]:
    Bio.PDB raises when the two lists differ in size. *)
Definition set_atoms (fa ma : list Atom) : result (mat3 * vec3) :=
  if Nat.eqb (length fa) (length ma)
  then svd_fit (map coord fa) (map coord ma)
  else Raise PDBException.

Definition get_rot_trans (moving : Structure) (moving_chain_id : string)
    (fixed : Structure) (fixed_chain_id : string)
    (moving_resi_offset fixed_resi_offset match_count : Z) : result (mat3 * vec3) :=
  (moving_chain <- get_chain moving moving_chain_id ;;
   let moving_residues :=
     py_slice (residues moving_chain) moving_resi_offset (moving_resi_offset + match_count) in
   ma <- rmap (fun r => residue_get r "CA") moving_residues ;;
   fixed_chain <- get_chain fixed fixed_chain_id ;;
   let fixed_residues :=
     py_slice (residues fixed_chain) fixed_resi_offset (fixed_resi_offset + match_count) in
   fa <- rmap (fun r => residue_get r "CA") fixed_residues ;;
   set_atoms fa ma)%res.

(** [get_centre_of_mass(child, mother, child_resi_offset,
    mother_resi_offset, match_count)]; [None] is [nan]. *)
Definition get_centre_of_mass (child : Structure) (mother : option Structure)
    (child_resi_offset mother_resi_offset match_count : Z) : result (option vec3) :=
  (CAs <- ca_coords (get_residues child) ;;
   let com := np_mean CAs in
   match mother with
   | Some mother =>
       rt <- get_rot_trans child "A" mother "A"
                           child_resi_offset mother_resi_offset match_count ;;
       Ok (option_map (fun c => vadd c (snd rt)) com)
   | None => Ok com
   end)%res.

(** [move_to_origin(pdb)].  With no residue the centre is [nan] and there
    is no atom to move. *)
Definition move_to_origin (pdb : Structure) : result Structure :=
  (com <- get_centre_of_mass pdb None 0 0 (-1) ;;
   let moved := match com with
                | Some c => transform identity3 (vneg c) pdb
                | None => pdb
                end in
   Ok (mkStructure (models moved) (Some true)))%res.

(** [align(moving, fixed, ...)]: the moved [moving]. *)
Definition align (moving fixed : Structure)
    (moving_resi_offset fixed_resi_offset match_count : Z) : result Structure :=
  (rt <- get_rot_trans moving "A" fixed "A"
                       moving_resi_offset fixed_resi_offset match_count ;;
   Ok (transform (fst rt) (snd rt) moving))%res.

(** The loop of [get_radii]: [(natoms, rg_sum, max_ca_dist, max_heavy_dist)]. *)
Definition radii_step (acc : Z * Q * Q * Q) (a : Atom) : Z * Q * Q * Q :=
  let '(natoms, rg_sum, max_ca, max_heavy) := acc in
  let dist := norm (coord a) in
  ((natoms + 1)%Z, (rg_sum + dist)%Q,
   if String.eqb (atom_name a) "CA" then Qmax max_ca dist else max_ca,
   if negb (String.eqb (element a) "H") then Qmax max_heavy dist else max_heavy).

Definition get_radii (pose : Structure) : result radii :=
  match at_origin pose with
  | None => Raise AttributeError
  | Some false => Raise ValueError
  | Some true =>
      let '(natoms, rg_sum, max_ca, max_heavy) :=
        fold_left radii_step (get_atoms pose) (0%Z, 0%Q, 0%Q, 0%Q) in
      if (natoms =? 0)%Z then Raise ZeroDivisionError
      else Ok (mkRadii (rg_sum / inject_Z natoms) max_ca max_heavy)
  end.

(** [save_pdb(struct, path)] *)
Definition save_pdb (struct : Structure) (path : string) : M unit :=
  modify (set_aligned_files (fun fs => <[path := struct]> fs)).

(** [self.single_pdbs[name]]: a missing key is inserted with an empty
    [dict]. *)
Definition single_pdbs_get (name : string) : M pdb_slot :=
  fun s => match single_pdbs s !! name with
           | Some p => (Ok p, s)
           | None => (Ok EmptyDict,
                      set_single_pdbs (fun m => <[name := EmptyDict]> m) s)
           end.

(** *** Reads and writes of the module table *)

Inductive side : Type := SideN | SideC.

Definition single_side (sd : side) (ch : single_chain) : nmap :=
  match sd with SideN => sc_n ch | SideC => sc_c ch end.

Definition single_chain_put (sd : side) (key : string * string) (tx_id : nat)
    (ch : single_chain) : single_chain :=
  match sd with
  | SideN => mkSingleChain (<[key := tx_id]> (sc_n ch)) (sc_c ch) (sc_n_residues ch)
  | SideC => mkSingleChain (sc_n ch) (<[key := tx_id]> (sc_c ch)) (sc_n_residues ch)
  end.

Definition with_chain (cid : string) (ch : single_chain) (m : single_module) : single_module :=
  mkSingleModule (<[cid := ch]> (sm_chains m)) (sm_radii m) (sm_vivified m).

(** [self.modules['singles'][name]['chains'][cid][side][key] = tx_id].
    An entry made by [process_single] is a plain [dict] whose ['chains']
    raises on a missing chain; a missing entry auto-vivifies. *)
Definition single_side_set (name cid : string) (sd : side) (key : string * string)
    (tx_id : nat) : M unit :=
  fun s =>
    let fresh := single_chain_put sd key tx_id (mkSingleChain ∅ ∅ None) in
    match singles s !! name with
    | None =>
        (Ok tt, set_singles (fun t => <[name := mkSingleModule {[cid := fresh]} None true]> t) s)
    | Some m =>
        match sm_chains m !! cid with
        | Some ch =>
            (Ok tt, set_singles
                      (fun t => <[name := with_chain cid (single_chain_put sd key tx_id ch) m]> t) s)
        | None =>
            if sm_vivified m
            then (Ok tt, set_singles (fun t => <[name := with_chain cid fresh m]> t) s)
            else (Raise KeyError, s)
        end
    end.

(** [self.modules['singles'][name]['chains'][cid][side][key]] read as a list
    index.  A missing key reads as an empty [nested_dict], on which the
    indexing [n_to_c_tx[...]] that follows raises; the empty dictionaries
    that such a failed read leaves behind are not kept. *)
Definition single_side_get (name cid : string) (sd : side) (key : string * string)
  : M nat :=
  fun s =>
    match singles s !! name with
    | None => (Raise TypeError, s)
    | Some m =>
        match sm_chains m !! cid with
        | Some ch =>
            match single_side sd ch !! key with
            | Some tx_id => (Ok tx_id, s)
            | None => (Raise TypeError, s)
            end
        | None => if sm_vivified m then (Raise TypeError, s) else (Raise KeyError, s)
        end
    end.

(** An assignment under [self.modules['hubs'][hub_name]['chains'][cid]].
    [process_hub] has stored the entry before its loop, so the first lookup
    finds it; ['chains'] is a plain [dict]. *)
Definition hub_chain_update (hub_name cid : string) (f : hub_chain -> hub_chain) : M unit :=
  fun s =>
    match hubs s !! hub_name with
    | Some m =>
        match hm_chains m !! cid with
        | Some ch =>
            (Ok tt, set_hubs
                      (fun t => <[hub_name := mkHubModule (<[cid := f ch]> (hm_chains m)) (hm_radii m)]> t) s)
        | None => (Raise KeyError, s)
        end
    | None => (Raise KeyError, s)
    end.

Definition hub_put_c (key : string * string) (tx_id : nat) (ch : hub_chain) : hub_chain :=
  mkHubChain (hc_single_name ch) (hc_n ch) (hc_n_tip ch)
             (<[key := tx_id]> (hc_c ch)) (hc_c_tip ch) (hc_n_residues ch).
Definition hub_put_n (key : string * string) (tx_id : nat) (ch : hub_chain) : hub_chain :=
  mkHubChain (hc_single_name ch) (<[key := tx_id]> (hc_n ch)) (hc_n_tip ch)
             (hc_c ch) (hc_c_tip ch) (hc_n_residues ch).
Definition hub_put_c_tip (t : tip_attr) (ch : hub_chain) : hub_chain :=
  mkHubChain (hc_single_name ch) (hc_n ch) (hc_n_tip ch) (hc_c ch) t (hc_n_residues ch).
Definition hub_put_n_tip (t : tip_attr) (ch : hub_chain) : hub_chain :=
  mkHubChain (hc_single_name ch) (hc_n ch) t (hc_c ch) (hc_c_tip ch) (hc_n_residues ch).

(** [d[key]] on a plain [dict] or a list. *)
Definition dict_get {K} `{Countable K} {V} (d : gmap K V) (key : K) : result V :=
  match d !! key with Some v => Ok v | None => Raise KeyError end.
Definition list_get {V} (l : list V) (i : nat) : result V :=
  match l !! i with Some v => Ok v | None => Raise IndexError end.
Fixpoint assoc_get {V} (d : list (string * V)) (key : string) : result V :=
  match d with
  | [] => Raise KeyError
  | (k, v) :: d' => if String.eqb k key then Ok v else assoc_get d' key
  end.

(** *** process_single *)

Definition process_single (file_name : string) : M unit :=
  (let single_name := module_name file_name in
   single <- lift (read_pdb file_name) ;;
   _ <- lift (py_assert (Nat.eqb (length (get_chains single)) 1)) ;;
   let chain_list := get_chains single in
   _ <- lift (if negb (Nat.eqb (length chain_list) 1) then Raise ValueError else Ok tt) ;;
   single <- lift (move_to_origin single) ;;
   dir <- gets aligned_pdb_dir ;;
   _ <- save_pdb single (dir +:+ "/singles/" +:+ single_name +:+ ".pdb") ;;
   chain0 <- lift (list_get chain_list 0) ;;
   r <- lift (get_radii single) ;;
   _ <- modify (set_singles (fun t =>
          <[single_name :=
              mkSingleModule
                {[chain_id chain0 :=
                    mkSingleChain ∅ ∅ (Some (Z.of_nat (length (residues chain0))))]}
                (Some r) false]> t)) ;;
   modify (set_single_pdbs (fun t => <[single_name := Loaded single]> t)))%gen.

(** *** process_double *)

Definition process_double (file_name : string) : M unit :=
  (double <- lift (read_pdb file_name) ;;
   _ <- lift (py_assert (Nat.eqb (length (get_chains double)) 1)) ;;
   let double_name := module_name file_name in
   names <- lift (split_double_name double_name) ;;
   let single_a_name := fst names in
   let single_b_name := snd names in
   slot_a <- single_pdbs_get single_a_name ;;
   slot_b <- single_pdbs_get single_b_name ;;
   single_a <- lift (slot_structure slot_a) ;;
   rc_a <- lift (get_pdb_residue_count single_a) ;;
   single_b <- lift (slot_structure slot_b) ;;
   rc_b <- lift (get_pdb_residue_count single_b) ;;
   rc_double <- lift (get_pdb_residue_count double) ;;
   let rc_a_half := rc_a_half rc_a in
   let rc_b_half := rc_b_half rc_b in
   let fusion_count_a := fusion_count rc_a dbl_fusion_factor in
   let fusion_count_b := fusion_count rc_b dbl_fusion_factor in
   double <- lift (align double single_a
                         (rc_a_half - fusion_count_a) (rc_a_half - fusion_count_a)
                         fusion_count_a) ;;
   com_b <- lift (get_centre_of_mass single_b (Some double)
                         (rc_b_half - fusion_count_b)
                         (rc_a + rc_b_half - fusion_count_b) fusion_count_b) ;;
   rt <- lift (get_rot_trans double "A" single_b "A"
                         (rc_a + rc_b_half - fusion_count_b)
                         (rc_b_half - fusion_count_b) fusion_count_b) ;;
   let rot := transpose (fst rt) in
   let tmp_tx := homogeneous rot (snd rt) in
   inv_tx <- lift (linalg_inv tmp_tx) ;;
   let rot := m_rot inv_tx in
   let tran := m_col inv_tx in
   dir <- gets aligned_pdb_dir ;;
   _ <- save_pdb double (dir +:+ "/doubles/" +:+ double_name +:+ ".pdb") ;;
   single_a_chain_id <- lift (first_chain_id single_a) ;;
   single_b_chain_id <- lift (first_chain_id single_b) ;;
   let tx := create_tx single_a_name single_a_chain_id
                       single_b_name single_b_chain_id rot tran in
   tx_id <- gets (fun s => length (n_to_c_tx s)) ;;
   _ <- modify (set_issued (fun l => l ++ [(tx_id, tx)])) ;; (* ghost log *)
   _ <- single_side_set single_a_name single_a_chain_id SideC
                        (single_b_name, single_b_chain_id) tx_id ;;
   _ <- single_side_set single_b_name single_b_chain_id SideN
                        (single_a_name, single_a_chain_id) tx_id ;;
   _ <- modify (set_n_to_c_tx (fun l => l ++ [tx])) ;;
   modify (set_double_pdbs (fun t => <[(single_a_name, single_b_name) := double]> t)))%gen.

(** *** process_hub *)

(** The body of [for single_b_name in b_name_gen] (the [c_free] branch). *)
Definition hub_c_edge (hub : Structure) (hub_name hub_chain_id comp_name : string)
    (single_b_name : string) : M unit :=
  (rc_hub_a <- lift (get_chain_residue_count hub hub_chain_id) ;;
   slot <- single_pdbs_get comp_name ;;
   comp <- lift (slot_structure slot) ;;
   rc_dbl_a <- lift (get_pdb_residue_count comp) ;;
   let fusion_count := fusion_count rc_dbl_a hub_fusion_factor in
   dbls <- gets double_pdbs ;;
   double <- lift (dict_get dbls (comp_name, single_b_name)) ;;
   hub_single_chain_id <- lift (first_chain_id comp) ;;
   slot_b <- single_pdbs_get single_b_name ;;
   single_b <- lift (slot_structure slot_b) ;;
   single_b_chain_id <- lift (first_chain_id single_b) ;;
   dbl_tx_id <- single_side_get comp_name hub_single_chain_id SideC
                                (single_b_name, single_b_chain_id) ;;
   txs <- gets n_to_c_tx ;;
   dbl_n_to_c <- lift (list_get txs dbl_tx_id) ;;
   let dbl_tx := homogeneous (rot dbl_n_to_c) (tran dbl_n_to_c) in
   rt <- lift (get_rot_trans double "A" hub hub_chain_id
                             (rc_dbl_a - fusion_count) (rc_hub_a - fusion_count)
                             fusion_count) ;;
   let rot := transpose (fst rt) in
   let comp_to_single_tx := homogeneous rot (snd rt) in
   let dbl_raised_tx := matmul comp_to_single_tx dbl_tx in
   let rot := m_rot dbl_raised_tx in
   let tran := m_col dbl_raised_tx in
   let tx := create_tx hub_name hub_chain_id single_b_name single_b_chain_id rot tran in
   tx_id <- gets (fun s => length (n_to_c_tx s) + length (hub_tx s)) ;;
   _ <- modify (set_issued (fun l => l ++ [(tx_id, tx)])) ;; (* ghost log *)
   _ <- hub_chain_update hub_name hub_chain_id
                         (hub_put_c (single_b_name, single_b_chain_id) tx_id) ;;
   tip <- lift (find_tip "c" hub hub_chain_id) ;;
   _ <- hub_chain_update hub_name hub_chain_id (hub_put_c_tip (TipVector tip)) ;;
   _ <- single_side_set single_b_name single_b_chain_id SideN
                        (hub_name, hub_chain_id) tx_id ;;
   modify (set_hub_tx (fun l => l ++ [tx])))%gen.

(** The body of [for single_a_name in a_name_gen] (the [n_free] branch). *)
Definition hub_n_edge (hub : Structure) (hub_name hub_chain_id comp_name : string)
    (single_a_name : string) : M unit :=
  (slot_a <- single_pdbs_get single_a_name ;;
   single_a <- lift (slot_structure slot_a) ;;
   rc_a <- lift (get_pdb_residue_count single_a) ;;
   slot <- single_pdbs_get comp_name ;;
   comp <- lift (slot_structure slot) ;;
   rc_b <- lift (get_pdb_residue_count comp) ;;
   let fusion_count := fusion_count rc_b hub_fusion_factor in
   dbls <- gets double_pdbs ;;
   double <- lift (dict_get dbls (single_a_name, comp_name)) ;;
   rt <- lift (get_rot_trans double "A" hub hub_chain_id rc_a 0 fusion_count) ;;
   let rot := transpose (fst rt) in
   let dbl_to_hub_tx := homogeneous rot (snd rt) in
   let rot := m_rot dbl_to_hub_tx in
   let tran := m_col dbl_to_hub_tx in
   single_a_chain_id <- lift (first_chain_id single_a) ;;
   let tx := create_tx single_a_name single_a_chain_id hub_name hub_chain_id rot tran in
   tx_id <- gets (fun s => length (n_to_c_tx s) + length (hub_tx s)) ;;
   _ <- modify (set_issued (fun l => l ++ [(tx_id, tx)])) ;; (* ghost log *)
   _ <- single_side_set single_a_name single_a_chain_id SideC
                        (hub_name, hub_chain_id) tx_id ;;
   _ <- hub_chain_update hub_name hub_chain_id
                         (hub_put_n (single_a_name, single_a_chain_id) tx_id) ;;
   tip <- lift (find_tip "n" hub hub_chain_id) ;;
   _ <- hub_chain_update hub_name hub_chain_id (hub_put_n_tip (TipVector tip)) ;;
   modify (set_hub_tx (fun l => l ++ [tx])))%gen.

(** [b_name_gen] and [a_name_gen].  The generators walk [n_to_c_tx], which
    the loops they feed do not change. *)
Definition b_names (txs : list tx_entry) (comp_name : string) : list string :=
  map mod_b (List.filter (fun tx => String.eqb (mod_a tx) comp_name) txs).
Definition a_names (txs : list tx_entry) (comp_name : string) : list string :=
  map mod_a (List.filter (fun tx => String.eqb (mod_b tx) comp_name) txs).

(** The body of [for hub_chain_id in comp_data]. *)
Definition hub_chain_body (hub : Structure) (hub_name : string)
    (item : string * chain_data) : M unit :=
  (let hub_chain_id := fst item in
   let chain_data := snd item in
   let comp_name := single_name chain_data in
   _ <- (if c_free chain_data
         then txs <- gets n_to_c_tx ;;
              for_each (b_names txs comp_name)
                       (hub_c_edge hub hub_name hub_chain_id comp_name)
         else ret tt) ;;
   if n_free chain_data
   then txs <- gets n_to_c_tx ;;
        for_each (a_names txs comp_name)
                 (hub_n_edge hub hub_name hub_chain_id comp_name)
   else ret tt)%gen.

(** The comprehension that builds [hub_meta['chains']]. *)
Definition hub_chains_init (comp_data : list (string * chain_data)) (hub : Structure)
  : result (gmap string hub_chain) :=
  rfold (fun acc c =>
           cd <- assoc_get comp_data (chain_id c) ;;
           Ok (<[chain_id c :=
                   mkHubChain (single_name cd) ∅ TipEmpty ∅ TipEmpty
                              (Z.of_nat (length (residues c)))]> acc))%res
        (get_chains hub) ∅.

Definition process_hub (file_name : string) : M unit :=
  (hub <- lift (read_pdb file_name) ;;
   hub <- lift (move_to_origin hub) ;;
   let hub_name := strip_pdb (basename file_name) in
   info <- gets hub_info ;;
   hub_meta <- lift (match info !! hub_name with
                     | Some meta => Ok meta
                     | None => Raise AssertionError
                     end) ;;
   comp_data <- lift (match hub_meta with
                      | Some cd => Ok cd
                      | None => Raise KeyError
                      end) ;;
   _ <- modify (set_hub_info (fun t => <[hub_name := None]> t)) ;;
   chains <- lift (hub_chains_init comp_data hub) ;;
   r <- lift (get_radii hub) ;;
   _ <- modify (set_hubs (fun t => <[hub_name := mkHubModule chains r]> t)) ;;
   _ <- for_each comp_data (hub_chain_body hub hub_name) ;;
   dir <- gets aligned_pdb_dir ;;
   save_pdb hub (dir +:+ "/hubs/" +:+ hub_name +:+ ".pdb"))%gen.

(** *** dump_xdb and run *)

Definition dump_xdb : M unit :=
  fun s =>
    (Ok tt,
     set_out_written
       (fun _ => Some [("modules", DModules (singles s) (hubs s));
                       ("n_to_c_tx", DTransforms (n_to_c_tx s))]) s).

(** [run()]; the three lists are what [glob.glob] returns. *)
Definition run (single_files double_files hub_files : list string) : M unit :=
  (_ <- for_each single_files process_single ;;
   _ <- for_each double_files process_double ;;
   _ <- for_each hub_files process_hub ;;
   _ <- (fun s => modify (set_n_to_c_tx (fun l => l ++ hub_tx s)) s) ;;
   dump_xdb)%gen.

(** The first two stages of [run]. *)
Definition singles_then_doubles (single_files double_files : list string) : M unit :=
  bind (for_each single_files process_single)
       (fun _ => for_each double_files process_double).

End Generator.

(** * Vocabulary of the properties *)

(** ** Windows, tips and centring *)

(** The window [[offset, offset + count)] lies inside [l], and the slice
    the fit takes there has [count] elements. *)
Definition window_ok {A} (l : list A) (offset count : Z) : Prop :=
  (0 <= offset)%Z /\ (offset + count <= Z.of_nat (length l))%Z /\
  length (py_slice l offset (offset + count)) = Z.to_nat count.

(** A residue whose only atom is an alpha carbon at [(x, 0, 0)]. *)
Definition plain_residue (x : Q) : Residue := mkResidue [mkAtom "CA" "C" (V3 x 0 0)].


(** A chain A of [n] residues with alpha carbons at x = 1 .. n. *)
Definition tip_chain (n : nat) : Chain :=
  mkChain "A" (map (fun i => plain_residue (inject_Z (Z.of_nat i))) (seq 1 n)).
Definition tip_struct (n : nat) : Structure :=
  mkStructure [mkModel [tip_chain n]] None.

(** The arithmetic mean of the alpha-carbon coordinates of a window. *)
Definition window_mean (rs : list Residue) : result (option vec3) :=
  (cs <- ca_coords rs ;; Ok (np_mean cs))%res.

(** What [transform] does to one coordinate. *)
Definition shift (rot : mat3) (t : vec3) (c : vec3) : vec3 := vadd (vec_mat c rot) t.

Definition centring_example : Structure :=
  mkStructure [mkModel [mkChain "A" [plain_residue 1; plain_residue 2; plain_residue 6]]] None.

(** The translation a fit returns, or the exception it raises. *)
Definition translation_of (fit : result (mat3 * vec3)) : result vec3 :=
  (rt <- fit ;; Ok (snd rt))%res.

(** A superimposer that always answers with one rotation and the
    translation [(5, 0, 0)]. *)
Definition fit_example (fa ma : list vec3) : result (mat3 * vec3) :=
  Ok (M3 (V3 0 1 0) (V3 1 0 0) (V3 0 0 1), V3 5 0 0).


(** ** Transform ids and neighbour maps *)

(** A list with the index of each element. *)
Definition numbered {A} (l : list A) : list (nat * A) := combine (seq 0 (length l)) l.

(** The ids issued so far are the positions of the edges in the pair list
    followed by the hub list. *)
Definition ids_are_positions (s : XDBGenerator) : Prop :=
  issued s = numbered (n_to_c_tx s ++ hub_tx s).

(** The invariant of the loops of [process_hub]: they leave [n_to_c_tx]
    alone. *)
Definition hub_loop_inv (txs : list tx_entry) (s : XDBGenerator) : Prop :=
  ids_are_positions s /\ n_to_c_tx s = txs.

(** [modules['hubs'][hub_name]['chains'][cid]] *)
Definition hub_chain_lookup (s : XDBGenerator) (hub_name cid : string) : option hub_chain :=
  match hubs s !! hub_name with
  | Some m => hm_chains m !! cid
  | None => None
  end.

(** What a set tip of chain [cid] is owed: a [c_free] ([n_free]) entry of
    the component data for [cid] whose single is the A-side (B-side) of a
    recorded pair edge. *)
Definition tips_owed (txs : list tx_entry) (comp_data : list (string * chain_data))
    (cid : string) (ch : hub_chain) : Prop :=
  (hc_c_tip ch <> TipEmpty ->
   exists cd tx, In (cid, cd) comp_data /\ c_free cd = true /\
                 In tx txs /\ mod_a tx = single_name cd) /\
  (hc_n_tip ch <> TipEmpty ->
   exists cd tx, In (cid, cd) comp_data /\ n_free cd = true /\
                 In tx txs /\ mod_b tx = single_name cd).

(** Every chain of hub [hub_name] has the tips it is owed. *)
Definition tips_inv (txs : list tx_entry) (comp_data : list (string * chain_data))
    (hub_name : string) (s : XDBGenerator) : Prop :=
  (forall cid ch, hub_chain_lookup s hub_name cid = Some ch -> tips_owed txs comp_data cid ch)
  /\ n_to_c_tx s = txs.

(** A hub chain as the comprehension of [process_hub] makes it. *)
Definition hub_chain_blank (ch : hub_chain) : Prop :=
  hc_c_tip ch = TipEmpty /\ hc_n_tip ch = TipEmpty /\ hc_c ch = ∅ /\ hc_n ch = ∅.

#[local] Instance side_eq_dec : EqDecision side.
Proof. solve_decision. Defined.

(** [modules['singles'][name]['chains'][cid][side][key]], when present. *)
Definition single_id (s : XDBGenerator) (name cid : string) (sd : side)
    (key : string * string) : option nat :=
  match singles s !! name with
  | Some m => match sm_chains m !! cid with
              | Some ch => single_side sd ch !! key
              | None => None
              end
  | None => None
  end.

(** ['n'] or ['c'] of a hub chain. *)
Definition hub_side (sd : side) (ch : hub_chain) : nmap :=
  match sd with SideN => hc_n ch | SideC => hc_c ch end.

(** [modules['hubs'][hub_name]['chains'][cid][side][key]], when present. *)
Definition hub_id (s : XDBGenerator) (hub_name cid : string) (sd : side)
    (key : string * string) : option nat :=
  match hub_chain_lookup s hub_name cid with
  | Some ch => hub_side sd ch !! key
  | None => None
  end.

(** Every id stored in a neighbour map is the id of a recorded edge. *)
Definition ids_bounded (s : XDBGenerator) : Prop :=
  (forall name cid sd key tx_id,
      single_id s name cid sd key = Some tx_id ->
      (tx_id < length (n_to_c_tx s) + length (hub_tx s))%nat) /\
  (forall hub_name cid sd key tx_id,
      hub_id s hub_name cid sd key = Some tx_id ->
      (tx_id < length (n_to_c_tx s) + length (hub_tx s))%nat).

(** ** A small database: two singles, one double, one hub *)

(** The superimposer refuses empty lists and otherwise answers with the
    identity and the translation [(1, 0, 0)]. *)
Definition demo_fit (fa ma : list vec3) : result (mat3 * vec3) :=
  match fa with
  | [] => Raise ZeroDivisionError
  | _ => Ok (identity3, V3 1 0 0)
  end.
Definition demo_inv (m : mat4) : result mat4 := Ok m.
Definition demo_norm (v : vec3) : Q := vdot v v.

(** A chain of [n] residues with alpha carbons at x = first .. *)
Definition demo_chain (cid : string) (first n : nat) : Chain :=
  mkChain cid (map (fun i => plain_residue (inject_Z (Z.of_nat i))) (seq first n)).

(** The input files: singles A and B, a single with two chains, the double
    A-B and the hub H with three chains. *)
Definition demo_files (path : string) : result (list Model) :=
  if String.eqb path "in/singles/A.pdb" then Ok [mkModel [demo_chain "A" 1 2]]
  else if String.eqb path "in/singles/B.pdb" then Ok [mkModel [demo_chain "A" 5 2]]
  else if String.eqb path "in/singles/bad.pdb"
       then Ok [mkModel [demo_chain "A" 1 2; demo_chain "B" 1 2]]
  else if String.eqb path "in/doubles/A-B.pdb" then Ok [mkModel [demo_chain "A" 1 4]]
  else if String.eqb path "in/hubs/H.pdb"
       then Ok [mkModel [demo_chain "X" 1 12; demo_chain "Y" 1 2; demo_chain "Z" 1 2]]
  else Raise ParseError.

(** The component data of H: arm X continues single A at its c side, arm
    Y single B at its n side; arm Z is c-free for single B, which no double
    has as its first unit. *)
Definition demo_comp_data : list (string * chain_data) :=
  [("X"%string, mkChainData "A" true false);
   ("Y"%string, mkChainData "B" false true);
   ("Z"%string, mkChainData "B" true false)].

Definition demo_info : gmap string hub_meta := {[ "H"%string := Some demo_comp_data ]}.

Definition demo_init : XDBGenerator := init "out" demo_info.

Definition demo_singles : list string := ["in/singles/A.pdb"; "in/singles/B.pdb"]%string.
Definition demo_doubles : list string := ["in/doubles/A-B.pdb"]%string.
Definition demo_hubs : list string := ["in/hubs/H.pdb"]%string.

Definition demo_run : result unit * XDBGenerator :=
  run demo_fit demo_inv demo_norm demo_files demo_singles demo_doubles demo_hubs demo_init.

(** The states between the stages of the run. *)
Definition demo_s1 : XDBGenerator :=
  snd (for_each demo_singles (process_single demo_fit demo_norm demo_files) demo_init).
Definition demo_s2 : XDBGenerator :=
  snd (process_double demo_fit demo_inv demo_files "in/doubles/A-B.pdb" demo_s1).
Definition demo_s3 : XDBGenerator :=
  snd (process_hub demo_fit demo_norm demo_files "in/hubs/H.pdb" demo_s2).

(** ** Vocabulary of the further properties *)

(** [sep in s] and [s.count(sep)] for a one-character [sep]. *)
Fixpoint count_char (sep : ascii) (s : string) : nat :=
  match s with
  | EmptyString => 0
  | String c s' => (if Ascii.eqb c sep then 1 else 0) + count_char sep s'
  end.

(** [sep.join(pieces)] *)
Fixpoint join_with (sep : ascii) (pieces : list string) : string :=
  match pieces with
  | [] => EmptyString
  | [p] => p
  | p :: ps => p +:+ String sep (join_with sep ps)
  end.

(** Row-wise equality of 3x3 arrays of rationals as fractions. *)
Definition meq (a b : mat3) : Prop :=
  veq (row0 a) (row0 b) /\ veq (row1 a) (row1 b) /\ veq (row2 a) (row2 b).

(** Everything of a structure but its coordinates and its [at_origin]
    attribute: per model and chain, the chain id and the atom names and
    elements of each residue. *)
Definition atom_label (a : Atom) : string * string := (atom_name a, element a).
Definition chain_shape (c : Chain) : string * list (list (string * string)) :=
  (chain_id c, map (fun r => map atom_label (atoms r)) (residues c)).
Definition shape (s : Structure) : list (list (string * list (list (string * string)))) :=
  map (fun m => map chain_shape (chains m)) (models s).

(** The sum of the distances [get_radii] averages. *)
Definition total_dist (norm : vec3 -> Q) (l : list Atom) : Q :=
  fold_right (fun a acc => norm (coord a) + acc)%Q 0%Q l.

(** The residues whose alpha carbons [find_tip] sums: the first sixth of
    the chain for the n terminus, what follows five sixths for the c
    terminus. *)
Definition tip_residues (term : string) (rs : list Residue) : list Residue :=
  let n := Z.of_nat (length rs) in
  if String.eqb (lower term) "n" then py_slice rs 0 (n / 6) else py_slice rs (5 * n / 6) n.

(** [m] leaves the field [f] of [self] as it was, whether it returns or
    raises. *)
Definition keeps {A B} (f : XDBGenerator -> B) (m : M A) : Prop :=
  forall s, f (snd (m s)) = f s.

(** [m] leaves the field [f] of [self] as it was whenever it raises. *)
Definition raise_keeps {A B} (f : XDBGenerator -> B) (m : M A) : Prop :=
  forall s e s', m s = (Raise e, s') -> f s' = f s.

(** The edge lists, the double cache, the hub metadata and the dumped
    document. *)
Definition recorded (s : XDBGenerator) :=
  (n_to_c_tx s, hub_tx s, double_pdbs s, hubs s, hub_info s, out_written s).

(** The superimposer raises when it is given no point to fit on. *)
Definition rejects_empty (svd_fit : list vec3 -> list vec3 -> result (mat3 * vec3)) : Prop :=
  forall ma rt, svd_fit [] ma <> Ok rt.

(** The edges [process_hub] is to record for a hub: for each chain of the
    component data in key order, an edge from the hub chain to every
    partner [b] of the component in a pair edge when the chain is
    [c_free], then an edge to the hub chain from every partner [a] when it
    is [n_free]. *)
Inductive hub_edge_kind : Type :=
| CEdge (cid b : string)
| NEdge (cid a : string).

Definition hub_plan_item (txs : list tx_entry) (item : string * chain_data)
  : list hub_edge_kind :=
  (if c_free (snd item)
   then map (CEdge (fst item)) (b_names txs (single_name (snd item))) else []) ++
  (if n_free (snd item)
   then map (NEdge (fst item)) (a_names txs (single_name (snd item))) else []).

Definition hub_plan (txs : list tx_entry) (comp_data : list (string * chain_data))
  : list hub_edge_kind :=
  flat_map (hub_plan_item txs) comp_data.

Definition edge_matches (hub_name : string) (k : hub_edge_kind) (tx : tx_entry) : Prop :=
  match k with
  | CEdge cid b => mod_a tx = hub_name /\ mod_a_chain tx = cid /\ mod_b tx = b
  | NEdge cid a => mod_b tx = hub_name /\ mod_b_chain tx = cid /\ mod_a tx = a
  end.

(** The two sides of a hub chain. *)
Definition free_at (sd : side) (cd : chain_data) : bool :=
  match sd with SideC => c_free cd | SideN => n_free cd end.
Definition partners (sd : side) (txs : list tx_entry) (comp_name : string) : list string :=
  match sd with SideC => b_names txs comp_name | SideN => a_names txs comp_name end.
Definition tip_at (sd : side) (ch : hub_chain) : tip_attr :=
  match sd with SideC => hc_c_tip ch | SideN => hc_n_tip ch end.
Definition term_of (sd : side) : string :=
  match sd with SideC => "c" | SideN => "n" end.

(** The tip of side [sd] of chain [cid] of hub [hub_name] is set, to what
    [find_tip] gives on [hub]. *)
Definition tip_set (hub : Structure) (hub_name cid : string) (sd : side)
    (s : XDBGenerator) : Prop :=
  exists ch tip,
    hub_chain_lookup s hub_name cid = Some ch /\
    tip_at sd ch = TipVector tip /\
    find_tip (term_of sd) hub cid = Ok tip.

(** [modules['singles'][name]['chains'][cid]] and
    [modules['hubs'][name]['chains'][cid]] exist. *)
Definition has_chain (sg : gmap string single_module) (name cid : string) : Prop :=
  exists m, sg !! name = Some m /\ is_Some (sm_chains m !! cid).
Definition has_hub_chain (hb : gmap string hub_module) (name cid : string) : Prop :=
  exists m, hb !! name = Some m /\ is_Some (hm_chains m !! cid).

(** A pair edge joins two chains of singles; a hub edge joins a chain of a
    hub and a chain of a single. *)
Definition pair_edge_ok (sg : gmap string single_module) (tx : tx_entry) : Prop :=
  has_chain sg (mod_a tx) (mod_a_chain tx) /\ has_chain sg (mod_b tx) (mod_b_chain tx).
Definition hub_edge_ok (sg : gmap string single_module) (hb : gmap string hub_module)
    (tx : tx_entry) : Prop :=
  (has_hub_chain hb (mod_a tx) (mod_a_chain tx) /\ has_chain sg (mod_b tx) (mod_b_chain tx)) \/
  (has_chain sg (mod_a tx) (mod_a_chain tx) /\ has_hub_chain hb (mod_b tx) (mod_b_chain tx)).

(** Every recorded edge joins chains that the module table has, and a hub
    with an entry has had its component data consumed. *)
Definition edges_ok (s : XDBGenerator) : Prop :=
  Forall (pair_edge_ok (singles s)) (n_to_c_tx s) /\
  Forall (hub_edge_ok (singles s) (hubs s)) (hub_tx s) /\
  forall name, is_Some (hubs s !! name) -> hub_info s !! name = Some None.

(** Every cached single is a centred structure of one chain, and that
    chain has an entry in the module table. *)
Definition cache_ok (s : XDBGenerator) : Prop :=
  forall name p,
    single_pdbs s !! name = Some p ->
    exists st c,
      p = Loaded st /\ at_origin st = Some true /\ get_chains st = [c] /\
      has_chain (singles s) name (chain_id c).

(** What the loops of [process_hub] do to the tables: chains are only
    added, no hub entry appears, and the edges appended to [hub_tx] join
    chains that exist. *)
Definition grows (s s' : XDBGenerator) : Prop :=
  (forall n c, has_chain (singles s) n c -> has_chain (singles s') n c) /\
  (forall n c, has_hub_chain (hubs s) n c -> has_hub_chain (hubs s') n c) /\
  (forall n, is_Some (hubs s' !! n) -> is_Some (hubs s !! n)) /\
  hub_info s' = hub_info s /\ single_pdbs s' = single_pdbs s /\
  n_to_c_tx s' = n_to_c_tx s /\
  exists new, hub_tx s' = hub_tx s ++ new /\
              Forall (hub_edge_ok (singles s') (hubs s')) new.

(** [get_residues(pdb, chain_ids)] of [pdb_utilities.py]: the residues of
    the chains whose id is in [chain_ids], of all chains for [None]. *)
Definition pu_get_residues (pdb : Structure) (chain_ids : option (list string))
  : list Residue :=
  flat_map
    (fun model =>
       flat_map
         (fun chain =>
            match chain_ids with
            | None => residues chain
            | Some ids =>
                if existsb (String.eqb (chain_id chain)) ids then residues chain else []
            end)
         (chains model))
    (models pdb).

(** [get_chains(struct)] of [pdb_utilities.py]: the chains of the first
    model. *)
Definition pu_get_chains (struct : Structure) : result (list Chain) :=
  (m <- first_model struct ;; Ok (chains m))%res.

(** The two units a pair edge joins. *)
Definition edge_names (tx : tx_entry) : string * string := (mod_a tx, mod_b tx).

(** What [process_double] needs of the cache for the edge it records: both
    units are cached structures, the chain ids of the edge are the ids of
    their first chains, and the aligned double is cached under the pair of
    names. *)
Definition pair_edge_cached (s : XDBGenerator) (tx : tx_entry) : Prop :=
  (exists sa, single_pdbs s !! mod_a tx = Some (Loaded sa) /\
              first_chain_id sa = Ok (mod_a_chain tx)) /\
  (exists sb, single_pdbs s !! mod_b tx = Some (Loaded sb) /\
              first_chain_id sb = Ok (mod_b_chain tx)) /\
  is_Some (double_pdbs s !! (mod_a tx, mod_b tx)).

(** ** More of the small database *)

(** A single as [process_single] cached it. *)
Definition demo_single (name : string) : Structure :=
  match single_pdbs demo_s1 !! name with
  | Some (Loaded st) => st
  | _ => mkStructure [] None
  end.

Definition demo_hub_models : list Model :=
  [mkModel [demo_chain "X" 1 12; demo_chain "Y" 1 2; demo_chain "Z" 1 2]].

(** The hub H as [process_hub] centres it. *)
Definition demo_hub : Structure :=
  match move_to_origin demo_fit (mkStructure demo_hub_models None) with
  | Ok hub => hub
  | Raise _ => mkStructure [] None
  end.

(** The state in which the loops of [process_hub] start on H, and the
    state after its first c-side edge. *)
Definition demo_h0 : XDBGenerator :=
  match hub_chains_init demo_comp_data demo_hub, get_radii demo_norm demo_hub with
  | Ok chains, Ok r =>
      set_hubs (fun t => <["H"%string := mkHubModule chains r]> t)
        (set_hub_info (fun t => <["H"%string := None]> t) demo_s2)
  | _, _ => demo_s2
  end.
Definition demo_h1 : XDBGenerator :=
  snd (hub_c_edge demo_fit demo_hub "H" "X" "A" "B" demo_h0).

(** The double A-B processed before its singles, and a run over the file
    with two chains. *)
Definition demo_failed : XDBGenerator :=
  snd (process_double demo_fit demo_inv demo_files "in/doubles/A-B.pdb" demo_init).
Definition demo_bad_run : result unit * XDBGenerator :=
  run demo_fit demo_inv demo_norm demo_files ["in/singles/bad.pdb"%string] [] [] demo_init.

(** * Properties *)

(** ** Floor and ceiling of [float(rc) / k] *)

Lemma int_floor_fdiv (rc k : Z) : (0 < k)%Z -> int_floor (fdiv rc k) = (rc / k)%Z.
Proof.
  intros Hk. destruct k as [|p|p]; try lia.
  unfold int_floor, fdiv, Qdiv, Qinv, Qmult, inject_Z, Qfloor. simpl.
  now rewrite Z.mul_1_r.
Qed.

Lemma int_ceil_fdiv (rc k : Z) : (0 < k)%Z -> int_ceil (fdiv rc k) = (- (- rc / k))%Z.
Proof.
  intros Hk. destruct k as [|p|p]; try lia.
  unfold int_ceil, Qceiling, fdiv, Qdiv, Qinv, Qmult, Qopp, inject_Z, Qfloor. simpl.
  now rewrite Z.mul_1_r.
Qed.




(** ** Alignment windows *)

Lemma py_slice_length {A} (l : list A) (a b : Z) :
  (0 <= a <= b)%Z -> (b <= Z.of_nat (length l))%Z ->
  length (py_slice l a b) = Z.to_nat (b - a).
Proof.
  intros Hab Hb. unfold py_slice, py_clamp.
  destruct (Z.ltb_spec a 0); [lia|]. destruct (Z.ltb_spec b 0); [lia|].
  rewrite length_take, length_drop. lia.
Qed.

Lemma window_ok_intro {A} (l : list A) (offset count : Z) :
  (0 <= offset)%Z -> (0 <= count)%Z -> (offset + count <= Z.of_nat (length l))%Z ->
  window_ok l offset count.
Proof.
  intros Ho Hc Hl. repeat split; try assumption.
  rewrite py_slice_length by lia. f_equal. lia.
Qed.

Lemma half_and_fusion (rc : Z) :
  (1 <= rc)%Z ->
  (1 <= fusion_count rc dbl_fusion_factor)%Z /\
  (1 <= fusion_count rc hub_fusion_factor <= rc)%Z /\
  (fusion_count rc dbl_fusion_factor <= rc_b_half rc <= rc)%Z /\
  (0 <= rc_a_half rc)%Z /\
  (2 <= rc -> fusion_count rc dbl_fusion_factor <= rc_a_half rc <= rc)%Z.
Proof.
  intros H. unfold fusion_count, rc_a_half, rc_b_half, dbl_fusion_factor, hub_fusion_factor.
  rewrite !int_ceil_fdiv, int_floor_fdiv by lia.
  repeat split; intros; Z.div_mod_to_equations; lia.
Qed.




(** ** find_tip *)

(** C6, at a chain of 12 residues whose alpha carbons sit at x = 1 .. 12:
    the n-terminal window is residues 0 and 1, whose mean is x = 3/2, but
    [find_tip] divides the sum 3 by [end_idx - start_idx - 1 = 1] and
    returns x = 3. *)
Theorem find_tip_divides_by_count_minus_one :
  exists tip mean,
    find_tip "n" (tip_struct 12) "A" = Ok (Some tip) /\
    window_mean (py_slice (residues (tip_chain 12)) 0 (12 / 6)) = Ok (Some mean) /\
    veq tip (V3 3 0 0) /\ veq mean (V3 (3 # 2) 0 0) /\ ~ veq tip mean.
Proof.
  eexists _, _. split; [vm_compute; reflexivity|]. split; [vm_compute; reflexivity|].
  repeat split; try reflexivity.
  intros (H & _). vm_compute in H. discriminate H.
Qed.

(** With six to eleven residues the n-terminal window has one residue and
    the divisor is zero: the result has no finite components. *)
Lemma find_tip_zero_divisor : find_tip "n" (tip_struct 6) "A" = Ok None.
Proof. reflexivity. Qed.

(** [find_tip] fails on a chain without residues. *)
Lemma find_tip_empty_chain (term : string) (ms : list Chain) (flag : option bool) (cid : string) :
  find_tip term (mkStructure [mkModel (mkChain cid [] :: ms)] flag) cid = Raise AssertionError.
Proof.
  unfold find_tip. destruct (_ || _); [|reflexivity]. simpl.
  unfold get_chain. simpl. rewrite String.eqb_refl. reflexivity.
Qed.

(** ** Centring *)

Lemma veq_intro (u v : vec3) : vx u == vx v -> vy u == vy v -> vz u == vz v -> veq u v.
Proof. intros; repeat split; assumption. Qed.

Lemma residue_get_transform (rot : mat3) (t : vec3) (r : Residue) (name : string) :
  residue_get (transform_residue rot t r) name =
  (a <- residue_get r name ;; Ok (transform_atom rot t a))%res.
Proof.
  unfold residue_get. destruct r as [l]. simpl.
  induction l as [|a l IH]; simpl; [reflexivity|].
  destruct (String.eqb (atom_name a) name); [reflexivity|exact IH].
Qed.

Lemma get_residues_transform (rot : mat3) (t : vec3) (s : Structure) :
  get_residues (transform rot t s) = map (transform_residue rot t) (get_residues s).
Proof.
  unfold get_residues, get_chains, transform. simpl.
  rewrite !concat_map, !map_map. f_equal. f_equal.
  apply map_ext. intros m. simpl. rewrite !map_map. reflexivity.
Qed.

Lemma ca_coords_transform (rot : mat3) (t : vec3) (rs : list Residue) :
  ca_coords (map (transform_residue rot t) rs) =
  (cs <- ca_coords rs ;; Ok (map (shift rot t) cs))%res.
Proof.
  unfold ca_coords. induction rs as [|r rs IH]; simpl; [reflexivity|].
  rewrite residue_get_transform.
  destruct (residue_get r "CA") as [a|e]; simpl; [|reflexivity].
  rewrite IH. destruct (rmap _ rs); reflexivity.
Qed.

Lemma ca_coords_length (rs : list Residue) (cs : list vec3) :
  ca_coords rs = Ok cs -> length cs = length rs.
Proof.
  unfold ca_coords. revert cs. induction rs as [|r rs IH]; simpl; intros cs H.
  - injection H as <-. reflexivity.
  - destruct (residue_get r "CA"); simpl in H; [|discriminate].
    destruct (rmap _ rs) as [cs'|]; simpl in H; [|discriminate].
    injection H as <-. simpl. f_equal. apply IH. reflexivity.
Qed.

Lemma ca_coords_total (rs : list Residue) :
  (forall r, In r rs -> exists a, residue_get r "CA" = Ok a) ->
  exists cs, ca_coords rs = Ok cs.
Proof.
  unfold ca_coords. induction rs as [|r rs IH]; simpl; intros H; [eauto|].
  destruct (H r) as [a Ha]; [now left|]. rewrite Ha. simpl.
  destruct IH as [cs Hcs]; [intros; apply H; now right|]. rewrite Hcs. simpl. eauto.
Qed.

Ltac vsimpl :=
  unfold veq, shift, vec_mat, vdot, col0, col1, col2, identity3, vzero in *;
  cbn [vx vy vz vadd vneg vscale row0 row1 row2 fold_left map length] in *.

(** Shifting every point by [t] without rotating shifts the sum by the
    number of points times [t]. *)
Lemma vsum_shift (t : vec3) (cs : list vec3) :
  forall (k : Q) (acc acc' : vec3),
    veq acc' (vadd acc (vscale k t)) ->
    veq (fold_left vadd (map (shift identity3 t) cs) acc')
        (vadd (fold_left vadd cs acc)
              (vscale (k + inject_Z (Z.of_nat (length cs))) t)).
Proof.
  induction cs as [|c cs IH]; intros k acc acc' H.
  - destruct H as (Hx & Hy & Hz). vsimpl.
    change (inject_Z (Z.of_nat 0)) with 0%Q.
    split; [rewrite Hx|split; [rewrite Hy|rewrite Hz]].
    all: ring.
  - specialize (IH (k + 1)%Q (vadd acc c) (vadd acc' (shift identity3 t c))).
    assert (E : inject_Z (Z.of_nat (S (length cs)))
                == 1 + inject_Z (Z.of_nat (length cs))).
    { change 1%Q with (inject_Z 1). rewrite <- inject_Z_plus.
      rewrite Nat2Z.inj_succ. unfold Z.succ. rewrite Z.add_comm. reflexivity. }
    destruct IH as (Ix & Iy & Iz).
    { destruct H as (Hx & Hy & Hz). vsimpl.
      split; [rewrite Hx|split; [rewrite Hy|rewrite Hz]].
      all: ring. }
    cbn [map fold_left length].
    split; [rewrite Ix|split; [rewrite Iy|rewrite Iz]].
    all: cbn [vx vy vz vadd vscale]; rewrite E.
    all: ring.
Qed.

Lemma mean_after_recentring (cs : list vec3) (com : vec3) :
  cs <> [] -> np_mean cs = Some com ->
  exists c, np_mean (map (shift identity3 (vneg com)) cs) = Some c /\ veq c vzero.
Proof.
  intros Hne Hcom. unfold np_mean, vdiv_int in *. rewrite length_map.
  destruct (Z.eqb_spec (Z.of_nat (length cs)) 0) as [E|E].
  { destruct cs; [congruence|simpl in E; lia]. }
  injection Hcom as <-. eexists. split; [reflexivity|].
  destruct (@vsum_shift (vneg (vscale (/ inject_Z (Z.of_nat (length cs))) (vsum cs)))
              cs 0%Q vzero vzero) as (Hx & Hy & Hz).
  { vsimpl. repeat split; ring. }
  assert (Hn : ~ inject_Z (Z.of_nat (length cs)) == 0).
  { intros H. apply E. apply (inject_Z_injective _ 0%Z). exact H. }
  unfold vsum in *.
  split; [|split]; cbn [vx vy vz vscale]; [rewrite Hx|rewrite Hy|rewrite Hz].
  all: cbn [vx vy vz vadd vneg vscale vzero]; field; exact Hn.
Qed.

Section GeometryProperties.

Variable svd_fit : list vec3 -> list vec3 -> result (mat3 * vec3).

(** C7: for a structure with at least one residue, whenever
    [move_to_origin] returns, the mean of the alpha-carbon coordinates of
    the moved structure is the zero vector (exactly, over the rationals) and
    the centred flag is set; and it does return whenever every residue has
    its alpha carbon. *)
Theorem move_to_origin_centres (pdb : Structure) :
  get_residues pdb <> [] ->
  (forall pdb',
      move_to_origin svd_fit pdb = Ok pdb' ->
      at_origin pdb' = Some true /\
      exists cs c, ca_coords (get_residues pdb') = Ok cs /\
                   np_mean cs = Some c /\ veq c vzero) /\
  ((forall r, In r (get_residues pdb) -> exists a, residue_get r "CA" = Ok a) ->
   exists pdb', move_to_origin svd_fit pdb = Ok pdb').
Proof.
  intros Hne. unfold move_to_origin, get_centre_of_mass. split.
  - intros pdb' H.
    destruct (ca_coords (get_residues pdb)) as [cs|e] eqn:Hcs; simpl in H; [|discriminate].
    assert (Hcs_ne : cs <> []).
    { intros ->. apply ca_coords_length in Hcs. destruct (get_residues pdb); [congruence|discriminate]. }
    destruct (np_mean cs) as [com|] eqn:Hmean.
    + injection H as <-. split; [reflexivity|].
      destruct (mean_after_recentring Hcs_ne Hmean) as (c & Hc & Hz).
      exists (map (shift identity3 (vneg com)) cs), c.
      split; [|split; assumption].
      change (get_residues _) with (get_residues (transform identity3 (vneg com) pdb)).
      rewrite get_residues_transform, ca_coords_transform, Hcs. reflexivity.
    + exfalso. unfold np_mean, vdiv_int in Hmean.
      destruct (Z.eqb_spec (Z.of_nat (length cs)) 0) as [E|E]; [|discriminate].
      destruct cs; [congruence|simpl in E; lia].
  - intros Hca. destruct (ca_coords_total Hca) as [cs ->]. simpl. eauto.
Qed.

(** C10: with a mother structure, [get_centre_of_mass] returns the mean of
    the alpha-carbon coordinates of all residues of the child, to which only
    the translation of the fit of the child's window onto the mother's is
    added; a superimposer that differs in the rotation alone gives the same
    centre. *)
Theorem get_centre_of_mass_adds_translation_only
    (child mother : Structure) (child_resi_offset mother_resi_offset match_count : Z)
    (cas : list vec3) (fit : mat3 * vec3) :
  ca_coords (get_residues child) = Ok cas ->
  get_rot_trans svd_fit child "A" mother "A"
                child_resi_offset mother_resi_offset match_count = Ok fit ->
  get_centre_of_mass svd_fit child (Some mother)
                     child_resi_offset mother_resi_offset match_count
  = Ok (option_map (fun com => vadd com (snd fit)) (np_mean cas)) /\
  forall svd_fit' : list vec3 -> list vec3 -> result (mat3 * vec3),
    (forall fa ma, translation_of (svd_fit' fa ma) = translation_of (svd_fit fa ma)) ->
    get_centre_of_mass svd_fit' child (Some mother)
                       child_resi_offset mother_resi_offset match_count
    = get_centre_of_mass svd_fit child (Some mother)
                         child_resi_offset mother_resi_offset match_count.
Proof.
  intros Hcas Hfit. unfold get_centre_of_mass. rewrite Hcas. simpl. split.
  - rewrite Hfit. reflexivity.
  - intros svd_fit' Hsnd. unfold get_rot_trans, set_atoms.
    destruct (get_chain child "A") as [cc|]; simpl; [|reflexivity].
    destruct (rmap _ (py_slice (residues cc) _ _)) as [ma|]; simpl; [|reflexivity].
    destruct (get_chain mother "A") as [mc|]; simpl; [|reflexivity].
    destruct (rmap _ (py_slice (residues mc) _ _)) as [fa|]; simpl; [|reflexivity].
    destruct (Nat.eqb _ _); simpl; [|reflexivity].
    specialize (Hsnd (map coord fa) (map coord ma)). unfold translation_of in Hsnd.
    destruct (svd_fit' _ _) as [[r' t']|e'], (svd_fit _ _) as [[r t]|e];
      simpl in *; try discriminate Hsnd; injection Hsnd as ->; reflexivity.
Qed.

End GeometryProperties.

Lemma move_to_origin_centres_witness :
  exists pdb', move_to_origin fit_example centring_example = Ok pdb' /\
               at_origin pdb' = Some true /\
               exists cs c, ca_coords (get_residues pdb') = Ok cs /\
                            np_mean cs = Some c /\ veq c vzero.
Proof.
  destruct (@move_to_origin_centres fit_example centring_example ltac:(discriminate)) as [Hpost Htotal].
  destruct Htotal as [pdb' Hrun].
  - intros r Hr. unfold residue_get.
    repeat (destruct Hr as [<-|Hr]; [simpl; eauto|]). destruct Hr.
  - exists pdb'. split; [exact Hrun|]. exact (Hpost pdb' Hrun).
Defined.

Lemma get_centre_of_mass_adds_translation_only_witness :
  get_centre_of_mass fit_example centring_example (Some centring_example) 1 0 2
  = Ok (Some (V3 ((/ 3) * (0 + 1 + 2 + 6) + 5) ((/ 3) * (0 + 0 + 0 + 0) + 0)
                 ((/ 3) * (0 + 0 + 0 + 0) + 0))).
Proof.
  refine (proj1 (@get_centre_of_mass_adds_translation_only fit_example
                   centring_example centring_example 1 0 2
                   [V3 1 0 0; V3 2 0 0; V3 6 0 0]
                   (M3 (V3 0 1 0) (V3 1 0 0) (V3 0 0 1), V3 5 0 0) _ _));
    reflexivity.
Defined.

(** ** Reasoning about the methods *)

Lemma bind_ok {A B} (m : M A) (k : A -> M B) s b s' :
  bind m k s = (Ok b, s') -> exists a s1, m s = (Ok a, s1) /\ k a s1 = (Ok b, s').
Proof.
  unfold bind. destruct (m s) as [[a|e] s1]; intros H; [eauto|discriminate].
Qed.

Lemma lift_ok {A} (r : result A) s a s' : lift r s = (Ok a, s') -> r = Ok a /\ s' = s.
Proof. unfold lift. intros H. injection H as -> ->. split; reflexivity. Qed.

Lemma gets_ok {A} (f : XDBGenerator -> A) s a s' :
  gets f s = (Ok a, s') -> a = f s /\ s' = s.
Proof. unfold gets. intros H. injection H as <- <-. split; reflexivity. Qed.

Lemma modify_ok f s u s' : modify f s = (Ok u, s') -> s' = f s.
Proof. unfold modify. intros H. injection H as _ <-. reflexivity. Qed.

Lemma ret_ok {A} (a : A) s b s' : ret a s = (Ok b, s') -> b = a /\ s' = s.
Proof. unfold ret. intros H. injection H as <- <-. split; reflexivity. Qed.

Lemma rbind_ok {A B} (r : result A) (k : A -> result B) b :
  rbind r k = Ok b -> exists a, r = Ok a /\ k a = Ok b.
Proof. destruct r; simpl; intros H; [eauto|discriminate]. Qed.

(** A loop that completes carries an invariant that each completed
    iteration carries. *)
Lemma for_each_ok {A} (I : XDBGenerator -> Prop) (l : list A) (body : A -> M unit) :
  (forall x s s', In x l -> I s -> body x s = (Ok tt, s') -> I s') ->
  forall s s', I s -> for_each l body s = (Ok tt, s') -> I s'.
Proof.
  induction l as [|x l IH]; intros Hbody s s' Hs H; simpl in H.
  - apply ret_ok in H. destruct H as [_ ->]. exact Hs.
  - apply bind_ok in H. destruct H as ([] & s1 & H1 & H2).
    apply (IH (fun y t t' Hy => Hbody y t t' (or_intror Hy)) s1 s'); [|exact H2].
    apply (Hbody x s s1); [now left|exact Hs|exact H1].
Qed.

Lemma set_single_pdbs_id s : set_single_pdbs (fun t => t) s = s.
Proof. destruct s. reflexivity. Qed.

Lemma single_pdbs_get_ok name s p s' :
  single_pdbs_get name s = (Ok p, s') -> exists f, s' = set_single_pdbs f s.
Proof.
  unfold single_pdbs_get. destruct (single_pdbs s !! name); intros H; injection H as _ <-.
  - exists (fun t => t). symmetry. apply set_single_pdbs_id.
  - eauto.
Qed.

Lemma single_side_set_frame name cid sd key tx_id s u s' :
  single_side_set name cid sd key tx_id s = (Ok u, s') -> exists f, s' = set_singles f s.
Proof.
  unfold single_side_set. destruct (singles s !! name) as [m|].
  - destruct (sm_chains m !! cid); [|destruct (sm_vivified m)];
      intros H; try discriminate; injection H as <-; eauto.
  - intros H; injection H as <-; eauto.
Qed.

Lemma single_side_get_ok name cid sd key s tx_id s' :
  single_side_get name cid sd key s = (Ok tx_id, s') ->
  s' = s /\ exists m ch, singles s !! name = Some m /\ sm_chains m !! cid = Some ch /\
                         single_side sd ch !! key = Some tx_id.
Proof.
  unfold single_side_get. destruct (singles s !! name) as [m|] eqn:Em; [|discriminate].
  destruct (sm_chains m !! cid) as [ch|] eqn:Ec; [|destruct (sm_vivified m); discriminate].
  destruct (single_side sd ch !! key) eqn:E; [|discriminate].
  intros H; injection H as <- <-. split; [reflexivity|].
  exists m, ch. repeat split; assumption.
Qed.

Lemma hub_chain_update_frame hub_name cid f s u s' :
  hub_chain_update hub_name cid f s = (Ok u, s') -> exists g, s' = set_hubs g s.
Proof.
  unfold hub_chain_update. destruct (hubs s !! hub_name) as [m|]; [|discriminate].
  destruct (hm_chains m !! cid); [|discriminate].
  intros H; injection H as <-; eauto.
Qed.

(** Inversion of a completed straight-line run, one statement at a time. *)
Ltac minv_pure :=
  match goal with
  | H : bind _ _ _ = (Ok _, _) |- _ =>
      let a := fresh "v" in let s1 := fresh "s" in let H1 := fresh "E" in
      apply bind_ok in H; destruct H as (a & s1 & H1 & H); cbv beta zeta in H, H1
  | H : lift _ _ = (Ok _, _) |- _ => apply lift_ok in H; destruct H as [H ->]
  | H : gets _ _ = (Ok _, _) |- _ => apply gets_ok in H; destruct H as [-> ->]
  | H : modify _ _ = (Ok _, _) |- _ => apply modify_ok in H; subst
  | H : ret _ _ = (Ok _, _) |- _ => apply ret_ok in H; destruct H as [-> ->]
  | H : save_pdb _ _ _ = (Ok _, _) |- _ => unfold save_pdb in H
  | H : single_pdbs_get _ _ = (Ok _, _) |- _ =>
      let f := fresh "f" in apply single_pdbs_get_ok in H; destruct H as [f ->]
  | H : single_side_get _ _ _ _ _ = (Ok _, _) |- _ =>
      apply single_side_get_ok in H; destruct H as [-> _]
  end.
Ltac minv_frame :=
  match goal with
  | H : single_side_set _ _ _ _ _ _ = (Ok _, _) |- _ =>
      let f := fresh "f" in apply single_side_set_frame in H; destruct H as [f ->]
  | H : hub_chain_update _ _ _ _ = (Ok _, _) |- _ =>
      let f := fresh "g" in apply hub_chain_update_frame in H; destruct H as [f ->]
  end.
Ltac minv := repeat (minv_pure || minv_frame).

Section RunProperties.

Variable svd_fit : list vec3 -> list vec3 -> result (mat3 * vec3).
Variable linalg_inv : mat4 -> result mat4.
Variable norm : vec3 -> Q.
Variable pdb_file : string -> result (list Model).

(** C8: a single whose file does not hold exactly one chain makes
    [process_single] raise at its first check, with [self], the aligned
    output and the caches exactly as they were. *)
Theorem process_single_rejects_chain_count
    (file_name : string) (ms : list Model) (s : XDBGenerator) :
  pdb_file file_name = Ok ms ->
  length (get_chains (mkStructure ms None)) <> 1%nat ->
  process_single svd_fit norm pdb_file file_name s = (Raise AssertionError, s).
Proof.
  intros Hfile Hlen. unfold process_single, bind, lift, read_pdb.
  rewrite Hfile. simpl.
  destruct (Nat.eqb_spec (length (get_chains (mkStructure ms None))) 1) as [E|E];
    [contradiction|reflexivity].
Qed.

(** *** What a completed step records *)

Lemma process_single_frame file_name s s' :
  process_single svd_fit norm pdb_file file_name s = (Ok tt, s') ->
  n_to_c_tx s' = n_to_c_tx s /\ hub_tx s' = hub_tx s /\ issued s' = issued s /\
  hubs s' = hubs s /\ hub_info s' = hub_info s.
Proof.
  intros H. unfold process_single in H. minv. simpl. repeat split.
Qed.

Lemma process_double_frame file_name s s' :
  process_double svd_fit linalg_inv pdb_file file_name s = (Ok tt, s') ->
  exists tx,
    n_to_c_tx s' = n_to_c_tx s ++ [tx] /\ hub_tx s' = hub_tx s /\
    issued s' = issued s ++ [(length (n_to_c_tx s), tx)] /\
    hubs s' = hubs s /\ hub_info s' = hub_info s.
Proof.
  intros H. unfold process_double in H. minv. simpl. eexists. repeat split.
Qed.

Lemma hub_c_edge_frame hub hub_name hub_chain_id comp_name single_b_name s s' :
  hub_c_edge svd_fit hub hub_name hub_chain_id comp_name single_b_name s = (Ok tt, s') ->
  exists tx,
    n_to_c_tx s' = n_to_c_tx s /\ hub_tx s' = hub_tx s ++ [tx] /\
    issued s' = issued s ++ [((length (n_to_c_tx s) + length (hub_tx s))%nat, tx)] /\
    hub_info s' = hub_info s.
Proof.
  intros H. unfold hub_c_edge in H. minv. simpl. eexists. repeat split.
Qed.

Lemma hub_n_edge_frame hub hub_name hub_chain_id comp_name single_a_name s s' :
  hub_n_edge svd_fit hub hub_name hub_chain_id comp_name single_a_name s = (Ok tt, s') ->
  exists tx,
    n_to_c_tx s' = n_to_c_tx s /\ hub_tx s' = hub_tx s ++ [tx] /\
    issued s' = issued s ++ [((length (n_to_c_tx s) + length (hub_tx s))%nat, tx)] /\
    hub_info s' = hub_info s.
Proof.
  intros H. unfold hub_n_edge in H. minv. simpl. eexists. repeat split.
Qed.

(** *** Transform ids *)

Lemma combine_seq_snoc {A} (l : list A) (x : A) (k : nat) :
  combine (seq k (S (length l))) (l ++ [x])
  = combine (seq k (length l)) l ++ [((k + length l)%nat, x)].
Proof.
  revert k. induction l as [|y l IH]; intros k.
  - simpl. now rewrite Nat.add_0_r.
  - change (combine (seq k (S (length (y :: l)))) ((y :: l) ++ [x]))
      with ((k, y) :: combine (seq (S k) (S (length l))) (l ++ [x])).
    rewrite (IH (S k)). simpl. repeat f_equal. lia.
Qed.

Lemma numbered_snoc {A} (l : list A) (x : A) :
  numbered (l ++ [x]) = numbered l ++ [(length l, x)].
Proof.
  unfold numbered. rewrite length_app. simpl length. rewrite Nat.add_1_r.
  apply (combine_seq_snoc l x 0).
Qed.

Lemma numbered_lookup {A} (l : list A) (i : nat) (x : A) :
  In (i, x) (numbered l) <-> l !! i = Some x.
Proof.
  induction l as [|y l IH] using rev_ind.
  - simpl. split; [tauto|]. intros H. discriminate H.
  - rewrite numbered_snoc, in_app_iff, IH. simpl. split.
    + intros [H|[H|[]]].
      * now apply lookup_app_l_Some.
      * injection H as <- <-. now rewrite list_lookup_middle.
    + intros H. apply lookup_app_Some in H. destruct H as [H|[Hle H]]; [now left|].
      right. left. destruct (i - length l)%nat as [|k] eqn:E; simpl in H; [|discriminate].
      injection H as <-. f_equal. lia.
Qed.

Lemma numbered_fst {A} (l : list A) : map fst (numbered l) = seq 0 (length l).
Proof.
  unfold numbered. generalize 0%nat. induction l as [|x l IH]; intros k; simpl; [reflexivity|].
  f_equal. apply IH.
Qed.

Lemma process_single_ids file_name s s' :
  process_single svd_fit norm pdb_file file_name s = (Ok tt, s') ->
  ids_are_positions s /\ hub_tx s = [] -> ids_are_positions s' /\ hub_tx s' = [].
Proof.
  intros H [HJ Hh]. apply process_single_frame in H. destruct H as (Hn & Hh' & Hi & _).
  unfold ids_are_positions in *. rewrite Hn, Hh', Hi. split; [exact HJ|exact Hh].
Qed.

(** In [process_double] the id is [len(n_to_c_tx)], which is the number of
    all recorded edges while no hub edge exists. *)
Lemma process_double_ids file_name s s' :
  process_double svd_fit linalg_inv pdb_file file_name s = (Ok tt, s') ->
  ids_are_positions s /\ hub_tx s = [] -> ids_are_positions s' /\ hub_tx s' = [].
Proof.
  intros H [HJ Hh]. apply process_double_frame in H.
  destruct H as (tx & Hn & Hh' & Hi & _).
  unfold ids_are_positions in *. rewrite Hn, Hh', Hi, HJ, Hh, !app_nil_r.
  split; [|reflexivity]. symmetry. apply numbered_snoc.
Qed.

Lemma hub_edge_ids s s' tx :
  n_to_c_tx s' = n_to_c_tx s -> hub_tx s' = hub_tx s ++ [tx] ->
  issued s' = issued s ++ [((length (n_to_c_tx s) + length (hub_tx s))%nat, tx)] ->
  ids_are_positions s -> ids_are_positions s'.
Proof.
  unfold ids_are_positions. intros Hn Hh Hi HJ.
  rewrite Hn, Hh, Hi, HJ, app_assoc, numbered_snoc, length_app. reflexivity.
Qed.

Lemma hub_chain_body_ids hub hub_name item txs s s' :
  hub_chain_body svd_fit hub hub_name item s = (Ok tt, s') ->
  hub_loop_inv txs s -> hub_loop_inv txs s'.
Proof.
  intros H Hinv. unfold hub_chain_body in H.
  apply bind_ok in H. destruct H as ([] & s1 & H1 & H2). cbv beta zeta in *.
  assert (Hs1 : hub_loop_inv txs s1).
  { destruct (c_free (snd item)).
    - apply bind_ok in H1. destruct H1 as (l & s0 & Hl & H1).
      apply gets_ok in Hl. destruct Hl as [-> ->].
      revert H1. apply for_each_ok; [|exact Hinv].
      intros b t t' _ [HJ Hn] Hb. apply hub_c_edge_frame in Hb.
      destruct Hb as (tx & Hn' & Hh' & Hi' & _).
      split; [eapply hub_edge_ids; eassumption|congruence].
    - apply ret_ok in H1. destruct H1 as [_ ->]. exact Hinv. }
  destruct (n_free (snd item)).
  - apply bind_ok in H2. destruct H2 as (l & s0 & Hl & H2).
    apply gets_ok in Hl. destruct Hl as [-> ->].
    revert H2. apply for_each_ok; [|exact Hs1].
    intros a t t' _ [HJ Hn] Ha. apply hub_n_edge_frame in Ha.
    destruct Ha as (tx & Hn' & Hh' & Hi' & _).
    split; [eapply hub_edge_ids; eassumption|congruence].
  - apply ret_ok in H2. destruct H2 as [_ ->]. exact Hs1.
Qed.

Lemma process_hub_ids file_name s s' :
  process_hub svd_fit norm pdb_file file_name s = (Ok tt, s') ->
  ids_are_positions s -> ids_are_positions s' /\ n_to_c_tx s' = n_to_c_tx s.
Proof.
  intros H HJ. unfold process_hub in H. minv.
  match goal with
  | E : for_each _ _ _ = (Ok ?u, ?t) |- _ =>
      destruct u;
      assert (Hinv : hub_loop_inv (n_to_c_tx s) t)
        by (revert E; apply for_each_ok;
            [intros x t1 t2 _ Hi Hx; exact (hub_chain_body_ids Hx Hi)
            |split; [exact HJ|reflexivity]])
  end.
  exact Hinv.
Qed.

Lemma singles_then_doubles_ids single_files double_files s s2 :
  singles_then_doubles svd_fit linalg_inv norm pdb_file single_files double_files s = (Ok tt, s2) ->
  ids_are_positions s /\ hub_tx s = [] -> ids_are_positions s2 /\ hub_tx s2 = [].
Proof.
  intros H Hs. unfold singles_then_doubles in H.
  apply bind_ok in H. destruct H as ([] & s1 & H1 & H2).
  revert H2. apply (for_each_ok (I := fun t => ids_are_positions t /\ hub_tx t = [])).
  { intros x t t' _ Ht Hx. exact (process_double_ids Hx Ht). }
  revert H1. apply (for_each_ok (I := fun t => ids_are_positions t /\ hub_tx t = [])).
  { intros x t t' _ Ht Hx. exact (process_single_ids Hx Ht). }
  exact Hs.
Qed.

Lemma hubs_stage_ids hub_files s s' :
  for_each hub_files (process_hub svd_fit norm pdb_file) s = (Ok tt, s') ->
  ids_are_positions s -> ids_are_positions s' /\ n_to_c_tx s' = n_to_c_tx s.
Proof.
  intros H Hs.
  apply (for_each_ok (I := fun t => ids_are_positions t /\ n_to_c_tx t = n_to_c_tx s)) in H.
  - exact H.
  - intros x t t' _ [Ht Hn] Hx. destruct (process_hub_ids Hx Ht) as [Ht' Hn'].
    split; [exact Ht'|congruence].
  - split; [exact Hs|reflexivity].
Qed.

(** A completed [run] in its stages. *)
Lemma run_ok single_files double_files hub_files s s' :
  run svd_fit linalg_inv norm pdb_file single_files double_files hub_files s = (Ok tt, s') ->
  exists s2 s3,
    singles_then_doubles svd_fit linalg_inv norm pdb_file single_files double_files s = (Ok tt, s2) /\
    for_each hub_files (process_hub svd_fit norm pdb_file) s2 = (Ok tt, s3) /\
    s' = set_out_written
           (fun _ => Some [("modules"%string, DModules (singles s3) (hubs s3));
                           ("n_to_c_tx"%string, DTransforms (n_to_c_tx s3 ++ hub_tx s3))])
           (set_n_to_c_tx (fun l => l ++ hub_tx s3) s3).
Proof.
  intros H. unfold run in H.
  apply bind_ok in H. destruct H as ([] & s1 & H1 & H).
  apply bind_ok in H. destruct H as ([] & s2 & H2 & H).
  apply bind_ok in H. destruct H as ([] & s3 & H3 & H).
  apply bind_ok in H. destruct H as ([] & s4 & H4 & H).
  apply modify_ok in H4. subst s4. unfold dump_xdb in H. injection H as <-.
  exists s2, s3. split; [|split; [exact H3|reflexivity]].
  unfold singles_then_doubles, bind. rewrite H1. exact H2.
Qed.

(** C1: in a completed [run], which processes every double before any
    hub, the id each edge received when it was created is the position of
    that edge in the final flat list: the ids are pairwise distinct and
    index the list. *)
Theorem transform_ids_are_flat_indices
    (single_files double_files hub_files : list string)
    (dir : string) (info : gmap string hub_meta) (s' : XDBGenerator) :
  run svd_fit linalg_inv norm pdb_file single_files double_files hub_files (init dir info)
  = (Ok tt, s') ->
  issued s' = numbered (n_to_c_tx s') /\
  NoDup (map fst (issued s')) /\
  forall (tx_id : nat) (tx : tx_entry),
    In (tx_id, tx) (issued s') <-> n_to_c_tx s' !! tx_id = Some tx.
Proof.
  intros H. apply run_ok in H. destruct H as (s2 & s3 & H12 & H3 & ->).
  destruct (singles_then_doubles_ids H12) as [J2 Hh2]; [split; reflexivity|].
  destruct (hubs_stage_ids H3 J2) as [J3 _].
  assert (E : issued s3 = numbered (n_to_c_tx s3 ++ hub_tx s3)) by exact J3.
  cbn [issued n_to_c_tx set_out_written set_n_to_c_tx].
  rewrite E. split; [reflexivity|]. split.
  - rewrite numbered_fst. apply NoDup_ListNoDup, seq_NoDup.
  - intros tx_id tx. apply numbered_lookup.
Qed.

(** C3 (as amended): a completed [run] writes a document with exactly two
    top-level keys, named [modules] (the nested module table) and
    [n_to_c_tx] (the flat edge list), and the list is the edges recorded by
    double processing followed by those recorded by hub processing. *)
Theorem dumped_document_shape
    (single_files double_files hub_files : list string)
    (dir : string) (info : gmap string hub_meta) (s' : XDBGenerator) :
  run svd_fit linalg_inv norm pdb_file single_files double_files hub_files (init dir info)
  = (Ok tt, s') ->
  exists s2,
    singles_then_doubles svd_fit linalg_inv norm pdb_file single_files double_files (init dir info) = (Ok tt, s2) /\
    hub_tx s2 = [] /\
    out_written s'
    = Some [("modules"%string, DModules (singles s') (hubs s'));
            ("n_to_c_tx"%string, DTransforms (n_to_c_tx s2 ++ hub_tx s'))].
Proof.
  intros H. apply run_ok in H. destruct H as (s2 & s3 & H12 & H3 & ->).
  destruct (singles_then_doubles_ids H12) as [J2 Hh2]; [split; reflexivity|].
  destruct (hubs_stage_ids H3 J2) as [_ Hn].
  exists s2. split; [exact H12|]. split; [exact Hh2|].
  cbn [out_written singles hubs hub_tx set_out_written set_n_to_c_tx]. rewrite Hn. reflexivity.
Qed.

(** *** Tip vectors of a hub *)

Lemma hub_chain_update_ok hub_name cid f s u s' :
  hub_chain_update hub_name cid f s = (Ok u, s') ->
  exists ch,
    hub_chain_lookup s hub_name cid = Some ch /\
    (exists g, s' = set_hubs g s) /\
    forall hn' cid',
      hub_chain_lookup s' hn' cid'
      = if decide (hn' = hub_name /\ cid' = cid) then Some (f ch)
        else hub_chain_lookup s hn' cid'.
Proof.
  unfold hub_chain_update, hub_chain_lookup.
  destruct (hubs s !! hub_name) as [m|] eqn:Em; [|discriminate].
  destruct (hm_chains m !! cid) as [ch|] eqn:Ec; [|discriminate].
  intros H; inversion H; subst; clear H.
  exists ch. split; [reflexivity|]. split; [eauto|].
  intros hn' cid'. cbn [hubs set_hubs].
  destruct (decide (hn' = hub_name)) as [->|Hn].
  - rewrite lookup_insert_eq. cbn [hm_chains].
    destruct (decide (cid' = cid)) as [->|Hc].
    + rewrite lookup_insert_eq. rewrite decide_True by done. reflexivity.
    + rewrite lookup_insert_ne by done. rewrite decide_False by (intros []; done).
      rewrite Em. reflexivity.
  - rewrite lookup_insert_ne by done. rewrite decide_False by (intros []; done).
    reflexivity.
Qed.

Lemma tips_inv_frame txs comp_data hub_name s s' :
  hubs s' = hubs s -> n_to_c_tx s' = n_to_c_tx s ->
  tips_inv txs comp_data hub_name s -> tips_inv txs comp_data hub_name s'.
Proof.
  intros Hh Hn [Ht Htx]. split; [|congruence].
  intros cid ch. unfold hub_chain_lookup. rewrite Hh. apply Ht.
Qed.

Lemma tips_inv_update txs comp_data hub_name cid f s u s' :
  hub_chain_update hub_name cid f s = (Ok u, s') ->
  (forall ch, tips_owed txs comp_data cid ch -> tips_owed txs comp_data cid (f ch)) ->
  tips_inv txs comp_data hub_name s -> tips_inv txs comp_data hub_name s'.
Proof.
  intros H Hf [Ht Htx]. apply hub_chain_update_ok in H.
  destruct H as (ch & Hch & [g ->] & Hlk). split; [|exact Htx].
  intros cid' ch'. rewrite Hlk. destruct (decide _) as [[_ ->]|_].
  - intros E. injection E as <-. apply Hf, Ht, Hch.
  - apply Ht.
Qed.

Lemma names_have_edges (txs : list tx_entry) (comp_name x : string) :
  (In x (b_names txs comp_name) -> exists tx, In tx txs /\ mod_a tx = comp_name) /\
  (In x (a_names txs comp_name) -> exists tx, In tx txs /\ mod_b tx = comp_name).
Proof.
  unfold b_names, a_names. split; intros H; apply in_map_iff in H;
    destruct H as (tx & _ & H); apply List.filter_In in H; destruct H as [H E];
    apply String.eqb_eq in E; eauto.
Qed.

Lemma tips_owed_put_c txs comp_data cid key tx_id ch :
  tips_owed txs comp_data cid ch -> tips_owed txs comp_data cid (hub_put_c key tx_id ch).
Proof. intros H. exact H. Qed.

Lemma tips_owed_put_n txs comp_data cid key tx_id ch :
  tips_owed txs comp_data cid ch -> tips_owed txs comp_data cid (hub_put_n key tx_id ch).
Proof. intros H. exact H. Qed.

Ltac tips_frames :=
  repeat match goal with
  | H : single_side_set _ _ _ _ _ _ = (Ok _, _) |- _ =>
      let f := fresh "f" in apply single_side_set_frame in H; destruct H as [f ->]
  | |- tips_inv _ _ _ (set_hub_tx _ ?t) => apply (@tips_inv_frame _ _ _ t); [reflexivity..|]
  | |- tips_inv _ _ _ (set_singles _ ?t) => apply (@tips_inv_frame _ _ _ t); [reflexivity..|]
  | |- tips_inv _ _ _ (set_issued _ ?t) => apply (@tips_inv_frame _ _ _ t); [reflexivity..|]
  | |- tips_inv _ _ _ (set_single_pdbs _ ?t) => apply (@tips_inv_frame _ _ _ t); [reflexivity..|]
  end.

Lemma hub_c_edge_tips txs comp_data hub hub_name hub_chain_id comp_name single_b_name s s' :
  hub_c_edge svd_fit hub hub_name hub_chain_id comp_name single_b_name s = (Ok tt, s') ->
  (exists cd tx, In (hub_chain_id, cd) comp_data /\ c_free cd = true /\
                 In tx txs /\ mod_a tx = single_name cd) ->
  tips_inv txs comp_data hub_name s -> tips_inv txs comp_data hub_name s'.
Proof.
  intros H Hex Hinv. unfold hub_c_edge in H. repeat minv_pure. tips_frames.
  match goal with
  | U2 : hub_chain_update _ _ (hub_put_c_tip _) _ = _,
    U1 : hub_chain_update _ _ (hub_put_c _ _) _ = _ |- _ =>
      apply (tips_inv_update U2);
        [intros ch [_ Hn]; split; [intros _; exact Hex|exact Hn]|];
      apply (tips_inv_update U1); [intros ch; apply tips_owed_put_c|]
  end.
  tips_frames. exact Hinv.
Qed.

Lemma hub_n_edge_tips txs comp_data hub hub_name hub_chain_id comp_name single_a_name s s' :
  hub_n_edge svd_fit hub hub_name hub_chain_id comp_name single_a_name s = (Ok tt, s') ->
  (exists cd tx, In (hub_chain_id, cd) comp_data /\ n_free cd = true /\
                 In tx txs /\ mod_b tx = single_name cd) ->
  tips_inv txs comp_data hub_name s -> tips_inv txs comp_data hub_name s'.
Proof.
  intros H Hex Hinv. unfold hub_n_edge in H. repeat minv_pure. tips_frames.
  match goal with
  | U2 : hub_chain_update _ _ (hub_put_n_tip _) _ = _,
    U1 : hub_chain_update _ _ (hub_put_n _ _) _ = _ |- _ =>
      apply (tips_inv_update U2);
        [intros ch [Hc _]; split; [exact Hc|intros _; exact Hex]|];
      apply (tips_inv_update U1); [intros ch; apply tips_owed_put_n|]
  end.
  tips_frames. exact Hinv.
Qed.

Lemma hub_chain_body_tips txs comp_data hub hub_name item s s' :
  In item comp_data ->
  hub_chain_body svd_fit hub hub_name item s = (Ok tt, s') ->
  tips_inv txs comp_data hub_name s -> tips_inv txs comp_data hub_name s'.
Proof.
  intros Hitem H Hinv. destruct item as [cid cd]. unfold hub_chain_body in H.
  apply bind_ok in H. destruct H as ([] & s1 & H1 & H2). cbn [fst snd] in *.
  assert (Hs1 : tips_inv txs comp_data hub_name s1).
  { destruct (c_free cd) eqn:Hfree.
    - apply bind_ok in H1. destruct H1 as (l & s0 & Hl & H1).
      apply gets_ok in Hl. destruct Hl as [-> ->].
      revert H1. apply for_each_ok; [|exact Hinv].
      intros b t t' Hb Ht Hedge. apply (hub_c_edge_tips Hedge); [|exact Ht].
      destruct Ht as [_ <-]. destruct Hinv as [_ Hn]. rewrite Hn in Hb.
      destruct (proj1 (names_have_edges _ _ _) Hb) as (tx & Htx & Ha).
      exists cd, tx. repeat split; assumption.
    - apply ret_ok in H1. destruct H1 as [_ ->]. exact Hinv. }
  destruct (n_free cd) eqn:Hfree.
  - apply bind_ok in H2. destruct H2 as (l & s0 & Hl & H2).
    apply gets_ok in Hl. destruct Hl as [-> ->].
    revert H2. apply for_each_ok; [|exact Hs1].
    intros a t t' Ha Ht Hedge. apply (hub_n_edge_tips Hedge); [|exact Ht].
    destruct Ht as [_ <-]. destruct Hs1 as [_ Hn]. rewrite Hn in Ha.
    destruct (proj2 (names_have_edges _ _ _) Ha) as (tx & Htx & Hb).
    exists cd, tx. repeat split; assumption.
  - apply ret_ok in H2. destruct H2 as [_ ->]. exact Hs1.
Qed.

(** The comprehension gives every chain empty tips and empty maps. *)
Lemma hub_chains_init_blank comp_data hub chains cid ch :
  hub_chains_init comp_data hub = Ok chains -> chains !! cid = Some ch ->
  hub_chain_blank ch.
Proof.
  unfold hub_chains_init.
  assert (G : forall l acc,
             (forall c, acc !! cid = Some c -> hub_chain_blank c) ->
             rfold (fun acc c =>
                      cd <- assoc_get comp_data (chain_id c) ;;
                      Ok (<[chain_id c :=
                              mkHubChain (single_name cd) ∅ TipEmpty ∅ TipEmpty
                                         (Z.of_nat (length (residues c)))]> acc))%res
                   l acc = Ok chains ->
             chains !! cid = Some ch -> hub_chain_blank ch).
  { induction l as [|c l IH]; intros acc Hacc Hr Hl; simpl in Hr.
    - injection Hr as <-. exact (Hacc ch Hl).
    - apply rbind_ok in Hr. destruct Hr as (acc' & Hstep & Hr).
      apply rbind_ok in Hstep. destruct Hstep as (cd & _ & Hstep). injection Hstep as <-.
      refine (IH _ _ Hr Hl). intros c0 Hc0.
      destruct (decide (chain_id c = cid)) as [E|Hne].
      + rewrite E, lookup_insert_eq in Hc0. injection Hc0 as <-.
        repeat split; reflexivity.
      + rewrite lookup_insert_ne in Hc0 by done. exact (Hacc c0 Hc0). }
  intros Hr Hl. refine (G (get_chains hub) ∅ _ Hr Hl).
  intros c Hc. rewrite lookup_empty in Hc. discriminate Hc.
Qed.

Lemma assoc_unique {V} (d : list (string * V)) (k : string) (v1 v2 : V) :
  NoDup (map fst d) -> In (k, v1) d -> In (k, v2) d -> v1 = v2.
Proof.
  induction d as [|[k' v'] d IH]; intros Hnd H1 H2; [destruct H1|].
  simpl in Hnd. apply NoDup_cons in Hnd. destruct Hnd as [Hnotin Hnd].
  assert (Hk : forall v, In (k, v) d -> k' <> k).
  { intros v Hv ->. apply Hnotin, list_elem_of_In, in_map_iff. exists (k, v). auto. }
  destruct H1 as [E1|H1], H2 as [E2|H2].
  - congruence.
  - injection E1 as -> _. destruct (Hk v2 H2 eq_refl).
  - injection E2 as -> _. destruct (Hk v1 H1 eq_refl).
  - exact (IH Hnd H1 H2).
Qed.

Lemma process_hub_tips file_name s s' comp_data :
  process_hub svd_fit norm pdb_file file_name s = (Ok tt, s') ->
  hub_info s !! strip_pdb (basename file_name) = Some (Some comp_data) ->
  tips_inv (n_to_c_tx s) comp_data (strip_pdb (basename file_name)) s'.
Proof.
  intros H Hinfo. unfold process_hub in H. minv.
  rewrite Hinfo in *.
  repeat match goal with E : Ok _ = Ok _ |- _ => injection E as <- end.
  match goal with
  | E : for_each _ _ ?t0 = (Ok ?u, ?t) |- _ =>
      destruct u;
      assert (Hinv : tips_inv (n_to_c_tx s) comp_data (strip_pdb (basename file_name)) t);
      [revert E; apply for_each_ok;
       [intros x t1 t2 Hx Hi Hb; exact (hub_chain_body_tips Hx Hb Hi)|]|]
  end.
  - split; [|reflexivity]. intros cid ch. unfold hub_chain_lookup.
    cbn [hubs set_hubs set_hub_info]. rewrite lookup_insert_eq. cbn [hm_chains]. intros Hc.
    match goal with
    | E : hub_chains_init _ _ = Ok _ |- _ =>
        destruct (hub_chains_init_blank E Hc) as (Ec & En & _)
    end.
    split; intros Hne; congruence.
  - revert Hinv. apply tips_inv_frame; reflexivity.
Qed.

(** C9: after a completed [process_hub], a chain of the hub has a [c_tip]
    other than the initial empty mapping only if it is flagged [c_free] and
    some pair edge recorded before has the chain's component single as its
    A-endpoint; without such an edge [c_tip] is still the empty mapping.
    The same holds for [n_tip], [n_free] and the B-endpoint.  The component
    data is a dictionary: its keys are distinct. *)
Theorem hub_tips_need_pair_edge
    (file_name : string) (s s' : XDBGenerator)
    (comp_data : list (string * chain_data))
    (cid : string) (cd : chain_data) (ch : hub_chain) :
  process_hub svd_fit norm pdb_file file_name s = (Ok tt, s') ->
  hub_info s !! strip_pdb (basename file_name) = Some (Some comp_data) ->
  NoDup (map fst comp_data) ->
  In (cid, cd) comp_data ->
  hub_chain_lookup s' (strip_pdb (basename file_name)) cid = Some ch ->
  (hc_c_tip ch <> TipEmpty ->
   c_free cd = true /\ exists tx, In tx (n_to_c_tx s) /\ mod_a tx = single_name cd) /\
  (hc_n_tip ch <> TipEmpty ->
   n_free cd = true /\ exists tx, In tx (n_to_c_tx s) /\ mod_b tx = single_name cd) /\
  ((forall tx, In tx (n_to_c_tx s) -> mod_a tx <> single_name cd) -> hc_c_tip ch = TipEmpty) /\
  ((forall tx, In tx (n_to_c_tx s) -> mod_b tx <> single_name cd) -> hc_n_tip ch = TipEmpty).
Proof.
  intros H Hinfo Hnd Hin Hch.
  destruct (process_hub_tips H Hinfo) as [Howed _].
  destruct (Howed cid ch Hch) as [Hc Hn].
  assert (Huniq : forall cd', In (cid, cd') comp_data -> cd' = cd).
  { intros cd' Hin'. exact (assoc_unique Hnd Hin' Hin). }
  assert (Pc : hc_c_tip ch <> TipEmpty ->
               c_free cd = true /\ exists tx, In tx (n_to_c_tx s) /\ mod_a tx = single_name cd).
  { intros Hne. destruct (Hc Hne) as (cd' & tx & Hin' & Hfree & Htx & Ha).
    rewrite (Huniq cd' Hin') in *. eauto. }
  assert (Pn : hc_n_tip ch <> TipEmpty ->
               n_free cd = true /\ exists tx, In tx (n_to_c_tx s) /\ mod_b tx = single_name cd).
  { intros Hne. destruct (Hn Hne) as (cd' & tx & Hin' & Hfree & Htx & Hb).
    rewrite (Huniq cd' Hin') in *. eauto. }
  split; [exact Pc|]. split; [exact Pn|]. split.
  - intros Hnone. destruct (hc_c_tip ch) eqn:E; [reflexivity|].
    destruct Pc as (_ & tx & Htx & Ha); [discriminate|]. destruct (Hnone tx Htx Ha).
  - intros Hnone. destruct (hc_n_tip ch) eqn:E; [reflexivity|].
    destruct Pn as (_ & tx & Htx & Hb); [discriminate|]. destruct (Hnone tx Htx Hb).
Qed.

(** *** Neighbour maps *)

Lemma single_chain_put_lookup sd key tx_id ch sd' key' :
  single_side sd' (single_chain_put sd key tx_id ch) !! key'
  = if decide (sd' = sd /\ key' = key) then Some tx_id else single_side sd' ch !! key'.
Proof.
  destruct sd, sd'; cbn [single_side single_chain_put sc_n sc_c];
    destruct (decide (key' = key)) as [->|Hk];
    try (rewrite decide_False by (intros []; done); try reflexivity);
    try (rewrite decide_True by done);
    rewrite ?lookup_insert_eq, ?lookup_insert_ne by done; reflexivity.
Qed.

Lemma single_side_set_ok name cid sd key tx_id s u s' :
  single_side_set name cid sd key tx_id s = (Ok u, s') ->
  (exists f, s' = set_singles f s) /\
  forall name' cid' sd' key',
    single_id s' name' cid' sd' key'
    = if decide (name' = name /\ cid' = cid /\ sd' = sd /\ key' = key)
      then Some tx_id else single_id s name' cid' sd' key'.
Proof.
  intros H. split; [exact (single_side_set_frame H)|].
  intros name' cid' sd' key'. unfold single_side_set in H. unfold single_id.
  assert (G : forall (m0 : single_module) (ch0 : single_chain),
             match singles s !! name with
             | Some m => m0 = m /\
                         match sm_chains m !! cid with
                         | Some ch => ch0 = ch
                         | None => ch0 = mkSingleChain ∅ ∅ None
                         end
             | None => m0 = mkSingleModule ∅ None true /\ ch0 = mkSingleChain ∅ ∅ None
             end ->
             singles s' = <[name := with_chain cid (single_chain_put sd key tx_id ch0) m0]>
                            (singles s) ->
             match singles s' !! name' with
             | Some m => match sm_chains m !! cid' with
                         | Some ch => single_side sd' ch !! key'
                         | None => None
                         end
             | None => None
             end
             = if decide (name' = name /\ cid' = cid /\ sd' = sd /\ key' = key)
               then Some tx_id
               else match singles s !! name' with
                    | Some m => match sm_chains m !! cid' with
                                | Some ch => single_side sd' ch !! key'
                                | None => None
                                end
                    | None => None
                    end).
  { intros m0 ch0 Hold ->.
    destruct (decide (name' = name)) as [->|Hn].
    2:{ rewrite lookup_insert_ne by done. rewrite decide_False by (intros []; done).
        reflexivity. }
    rewrite lookup_insert_eq. cbn [with_chain sm_chains].
    destruct (decide (cid' = cid)) as [->|Hc].
    2:{ rewrite lookup_insert_ne by done. rewrite decide_False by (intros (_ & ? & _); done).
        destruct (singles s !! name) as [m|]; destruct Hold as [-> Hold]; [reflexivity|].
        cbn [sm_chains]. rewrite lookup_empty. reflexivity. }
    rewrite lookup_insert_eq, single_chain_put_lookup.
    destruct (decide (sd' = sd /\ key' = key)) as [[-> ->]|Hsk].
    { rewrite decide_True by done. reflexivity. }
    rewrite decide_False by (intros (_ & _ & ? & ?); apply Hsk; done).
    destruct (singles s !! name) as [m|].
    - destruct Hold as [-> Hold]. destruct (sm_chains m !! cid); subst ch0; [reflexivity|].
      destruct sd'; cbn [single_side sc_n sc_c]; apply lookup_empty.
    - destruct Hold as [_ ->]. destruct sd'; cbn [single_side sc_n sc_c]; apply lookup_empty. }
  destruct (singles s !! name) as [m|] eqn:Em.
  - destruct (sm_chains m !! cid) as [ch|] eqn:Ec.
    + inversion H; subst; clear H. apply (G m ch); [|reflexivity].
      split; [reflexivity|]. rewrite ?Ec. reflexivity.
    + destruct (sm_vivified m); [|discriminate]. inversion H; subst; clear H.
      apply (G m (mkSingleChain ∅ ∅ None)); [|reflexivity].
      split; [reflexivity|]. rewrite ?Ec. reflexivity.
  - inversion H; subst; clear H.
    apply (G (mkSingleModule ∅ None true) (mkSingleChain ∅ ∅ None)); [done|reflexivity].
Qed.

Lemma hub_put_lookup (f : hub_chain -> hub_chain) hub_name cid s u s' :
  hub_chain_update hub_name cid f s = (Ok u, s') ->
  (exists g, s' = set_hubs g s) /\
  exists ch, forall hn' cid' sd' key',
    hub_id s' hn' cid' sd' key'
    = if decide (hn' = hub_name /\ cid' = cid) then hub_side sd' (f ch) !! key'
      else hub_id s hn' cid' sd' key'.
Proof.
  intros H. apply hub_chain_update_ok in H. destruct H as (ch & Hch & Hg & Hlk).
  split; [exact Hg|]. exists ch. intros hn' cid' sd' key'. unfold hub_id.
  rewrite Hlk. destruct (decide _); reflexivity.
Qed.

Lemma hub_chain_update_old hub_name cid f s u s' :
  hub_chain_update hub_name cid f s = (Ok u, s') ->
  forall ch, hub_chain_lookup s hub_name cid = Some ch ->
  forall hn' cid' sd' key',
    hub_id s' hn' cid' sd' key'
    = if decide (hn' = hub_name /\ cid' = cid) then hub_side sd' (f ch) !! key'
      else hub_id s hn' cid' sd' key'.
Proof.
  intros H ch Hch. apply hub_chain_update_ok in H. destruct H as (ch0 & Hch0 & _ & Hlk).
  assert (ch0 = ch) as -> by congruence.
  intros hn' cid' sd' key'. unfold hub_id. rewrite Hlk. destruct (decide _); reflexivity.
Qed.

Lemma single_id_frame s s' name cid sd key :
  singles s' = singles s -> single_id s' name cid sd key = single_id s name cid sd key.
Proof. unfold single_id. intros ->. reflexivity. Qed.

Lemma hub_id_frame s s' hub_name cid sd key :
  hubs s' = hubs s -> hub_id s' hub_name cid sd key = hub_id s hub_name cid sd key.
Proof. unfold hub_id, hub_chain_lookup. intros ->. reflexivity. Qed.

Ltac gsimpl :=
  cbn [aligned_pdb_dir hub_info singles hubs n_to_c_tx hub_tx single_pdbs double_pdbs
       aligned_files out_written issued
       set_singles set_hubs set_hub_info set_n_to_c_tx set_hub_tx set_single_pdbs
       set_double_pdbs set_aligned_files set_out_written set_issued] in *.

Lemma ids_bounded_init dir info : ids_bounded (init dir info).
Proof.
  split; intros ? ? ? ? ?; unfold single_id, hub_id, hub_chain_lookup, init; gsimpl;
    rewrite lookup_empty; discriminate.
Qed.

Lemma process_single_bounded file_name s s' :
  process_single svd_fit norm pdb_file file_name s = (Ok tt, s') ->
  ids_bounded s -> ids_bounded s'.
Proof.
  intros H [Hs Hh]. unfold process_single in H. minv. split.
  - intros name cid sd key tx_id. unfold single_id. gsimpl.
    destruct (decide (name = module_name file_name)) as [->|Hn].
    + rewrite lookup_insert_eq. cbn [sm_chains].
      match goal with
      | |- context [ {[ ?k := _ ]} !! cid ] => destruct (decide (cid = k)) as [->|Hc]
      end.
      * rewrite lookup_singleton_eq. destruct sd; cbn [single_side sc_n sc_c];
          rewrite lookup_empty; discriminate.
      * rewrite lookup_singleton_ne by done. discriminate.
    + rewrite lookup_insert_ne by done. apply Hs.
  - intros hub_name cid sd key tx_id. rewrite (@hub_id_frame s) by reflexivity. apply Hh.
Qed.

Lemma hub_put_side_ok (sd : side) hub_name cid key tx_id s u s' :
  hub_chain_update hub_name cid
    (match sd with SideC => hub_put_c key tx_id | SideN => hub_put_n key tx_id end) s
  = (Ok u, s') ->
  (exists g, s' = set_hubs g s) /\
  forall hn' cid' sd' key',
    hub_id s' hn' cid' sd' key'
    = if decide (hn' = hub_name /\ cid' = cid /\ sd' = sd /\ key' = key)
      then Some tx_id else hub_id s hn' cid' sd' key'.
Proof.
  intros H. apply hub_chain_update_ok in H. destruct H as (ch & Hch & Hg & Hlk).
  split; [exact Hg|]. intros hn' cid' sd' key'. unfold hub_id. rewrite Hlk.
  destruct (decide (hn' = hub_name /\ cid' = cid)) as [[-> ->]|Hne].
  - rewrite Hch.
    destruct sd, sd'; cbn [hub_side hub_put_c hub_put_n hc_n hc_c];
      destruct (decide (key' = key)) as [->|Hk];
      try (rewrite decide_False by (intros (_ & _ & ? & ?); done); try reflexivity);
      try (rewrite decide_True by done);
      rewrite ?lookup_insert_eq, ?lookup_insert_ne by done; reflexivity.
  - rewrite decide_False by (intros (? & ? & _); apply Hne; done). reflexivity.
Qed.

Lemma hub_put_tip_ok (f : hub_chain -> hub_chain) hub_name cid s u s' :
  (forall ch, hc_n (f ch) = hc_n ch /\ hc_c (f ch) = hc_c ch) ->
  hub_chain_update hub_name cid f s = (Ok u, s') ->
  (exists g, s' = set_hubs g s) /\
  forall hn' cid' sd' key', hub_id s' hn' cid' sd' key' = hub_id s hn' cid' sd' key'.
Proof.
  intros Hf H. apply hub_chain_update_ok in H. destruct H as (ch & Hch & Hg & Hlk).
  split; [exact Hg|]. intros hn' cid' sd' key'. unfold hub_id. rewrite Hlk.
  destruct (decide (hn' = hub_name /\ cid' = cid)) as [[-> ->]|Hne]; [|reflexivity].
  rewrite Hch. destruct (Hf ch) as [En Ec].
  destruct sd'; cbn [hub_side]; [rewrite En|rewrite Ec]; reflexivity.
Qed.

(** The two assignments of [process_double] that store a fresh id. *)
Lemma record_pair (a ach b bch : string) (tx_id : nat) s0 s1 s2 u u' :
  single_side_set a ach SideC (b, bch) tx_id s0 = (Ok u, s1) ->
  single_side_set b bch SideN (a, ach) tx_id s1 = (Ok u', s2) ->
  (forall name cid sd key, single_id s0 name cid sd key <> Some tx_id) ->
  (exists f, s2 = set_singles f s0) /\
  (forall cid key,
      single_id s2 a cid SideC key = Some tx_id <-> cid = ach /\ key = (b, bch)) /\
  (forall cid key,
      single_id s2 b cid SideN key = Some tx_id <-> cid = bch /\ key = (a, ach)) /\
  (forall name cid sd key x,
      single_id s2 name cid sd key = Some x ->
      x = tx_id \/ single_id s0 name cid sd key = Some x).
Proof.
  intros S1 S2 Hfresh.
  apply single_side_set_ok in S1. destruct S1 as [[f1 Hf1] L1].
  apply single_side_set_ok in S2. destruct S2 as [[f2 Hf2] L2].
  split; [exists (fun t => f2 (f1 t)); subst s2 s1; destruct s0; reflexivity|].
  split; [|split].
  - intros cid key. rewrite L2, L1.
    repeat destruct (decide _); split; intros G; try tauto; try congruence;
      try (exfalso; eapply Hfresh; eassumption); try (intuition congruence).
  - intros cid key. rewrite L2, L1.
    repeat destruct (decide _); split; intros G; try tauto; try congruence;
      try (exfalso; eapply Hfresh; eassumption); try (intuition congruence).
  - intros name cid sd key x. rewrite L2, L1.
    repeat destruct (decide _); intros G; try (injection G as <-); auto.
Qed.

(** The assignments of the [c_free] branch of [process_hub]. *)
Lemma record_hub_c (hn hcid b bch : string) (tx_id : nat) (t : tip_attr) s0 s1 s2 s3 u u' u'' :
  hub_chain_update hn hcid (hub_put_c (b, bch) tx_id) s0 = (Ok u, s1) ->
  hub_chain_update hn hcid (hub_put_c_tip t) s1 = (Ok u', s2) ->
  single_side_set b bch SideN (hn, hcid) tx_id s2 = (Ok u'', s3) ->
  (forall name cid sd key, single_id s0 name cid sd key <> Some tx_id) ->
  (forall name cid sd key, hub_id s0 name cid sd key <> Some tx_id) ->
  (exists f g, s3 = set_singles f (set_hubs g s0)) /\
  (forall cid key,
      hub_id s3 hn cid SideC key = Some tx_id <-> cid = hcid /\ key = (b, bch)) /\
  (forall cid key,
      single_id s3 b cid SideN key = Some tx_id <-> cid = bch /\ key = (hn, hcid)) /\
  (forall name cid sd key x,
      single_id s3 name cid sd key = Some x ->
      x = tx_id \/ single_id s0 name cid sd key = Some x) /\
  (forall name cid sd key x,
      hub_id s3 name cid sd key = Some x ->
      x = tx_id \/ hub_id s0 name cid sd key = Some x).
Proof.
  intros U1 U2 S3 Hfs Hfh.
  apply (@hub_put_side_ok SideC) in U1. destruct U1 as [[g1 Hg1] L1].
  apply hub_put_tip_ok in U2; [|intros ch; split; reflexivity]. destruct U2 as [[g2 Hg2] L2].
  apply single_side_set_ok in S3. destruct S3 as [[f3 Hf3] L3].
  assert (Hh : forall name cid sd key,
             hub_id s3 name cid sd key
             = if decide (name = hn /\ cid = hcid /\ sd = SideC /\ key = (b, bch))
               then Some tx_id else hub_id s0 name cid sd key).
  { intros. rewrite (@hub_id_frame s2) by (subst s3; reflexivity). rewrite L2, L1. reflexivity. }
  assert (Hsg : forall name cid sd key,
             single_id s3 name cid sd key
             = if decide (name = b /\ cid = bch /\ sd = SideN /\ key = (hn, hcid))
               then Some tx_id else single_id s0 name cid sd key).
  { intros. rewrite L3. rewrite (@single_id_frame s0) by (subst s2 s1; reflexivity).
    reflexivity. }
  split; [exists f3, (fun t => g2 (g1 t)); subst s3 s2 s1; destruct s0; reflexivity|].
  split; [|split; [|split]].
  - intros cid key. rewrite Hh.
    repeat destruct (decide _); split; intros G; try tauto; try congruence;
      try (exfalso; eapply Hfh; eassumption); try (intuition congruence).
  - intros cid key. rewrite Hsg.
    repeat destruct (decide _); split; intros G; try tauto; try congruence;
      try (exfalso; eapply Hfs; eassumption); try (intuition congruence).
  - intros name cid sd key x. rewrite Hsg.
    destruct (decide _); intros G; try (injection G as <-); auto.
  - intros name cid sd key x. rewrite Hh.
    destruct (decide _); intros G; try (injection G as <-); auto.
Qed.

(** The assignments of the [n_free] branch of [process_hub]. *)
Lemma record_hub_n (hn hcid a ach : string) (tx_id : nat) (t : tip_attr) s0 s1 s2 s3 u u' u'' :
  single_side_set a ach SideC (hn, hcid) tx_id s0 = (Ok u, s1) ->
  hub_chain_update hn hcid (hub_put_n (a, ach) tx_id) s1 = (Ok u', s2) ->
  hub_chain_update hn hcid (hub_put_n_tip t) s2 = (Ok u'', s3) ->
  (forall name cid sd key, single_id s0 name cid sd key <> Some tx_id) ->
  (forall name cid sd key, hub_id s0 name cid sd key <> Some tx_id) ->
  (exists f g, s3 = set_singles f (set_hubs g s0)) /\
  (forall cid key,
      single_id s3 a cid SideC key = Some tx_id <-> cid = ach /\ key = (hn, hcid)) /\
  (forall cid key,
      hub_id s3 hn cid SideN key = Some tx_id <-> cid = hcid /\ key = (a, ach)) /\
  (forall name cid sd key x,
      single_id s3 name cid sd key = Some x ->
      x = tx_id \/ single_id s0 name cid sd key = Some x) /\
  (forall name cid sd key x,
      hub_id s3 name cid sd key = Some x ->
      x = tx_id \/ hub_id s0 name cid sd key = Some x).
Proof.
  intros S1 U2 U3 Hfs Hfh.
  apply single_side_set_ok in S1. destruct S1 as [[f1 Hf1] L1].
  apply (@hub_put_side_ok SideN) in U2. destruct U2 as [[g2 Hg2] L2].
  apply hub_put_tip_ok in U3; [|intros ch; split; reflexivity]. destruct U3 as [[g3 Hg3] L3].
  assert (Hh : forall name cid sd key,
             hub_id s3 name cid sd key
             = if decide (name = hn /\ cid = hcid /\ sd = SideN /\ key = (a, ach))
               then Some tx_id else hub_id s0 name cid sd key).
  { intros. rewrite L3, L2. rewrite (@hub_id_frame s0) by (subst s1; reflexivity).
    reflexivity. }
  assert (Hsg : forall name cid sd key,
             single_id s3 name cid sd key
             = if decide (name = a /\ cid = ach /\ sd = SideC /\ key = (hn, hcid))
               then Some tx_id else single_id s0 name cid sd key).
  { intros. rewrite (@single_id_frame s1) by (subst s3 s2; reflexivity). apply L1. }
  split; [exists f1, (fun t => g3 (g2 t)); subst s3 s2 s1; destruct s0; reflexivity|].
  split; [|split; [|split]].
  - intros cid key. rewrite Hsg.
    repeat destruct (decide _); split; intros G; try tauto; try congruence;
      try (exfalso; eapply Hfs; eassumption); try (intuition congruence).
  - intros cid key. rewrite Hh.
    repeat destruct (decide _); split; intros G; try tauto; try congruence;
      try (exfalso; eapply Hfh; eassumption); try (intuition congruence).
  - intros name cid sd key x. rewrite Hsg.
    destruct (decide _); intros G; try (injection G as <-); auto.
  - intros name cid sd key x. rewrite Hh.
    destruct (decide _); intros G; try (injection G as <-); auto.
Qed.

Lemma bounded_fresh s :
  ids_bounded s ->
  (forall name cid sd key,
      single_id s name cid sd key <> Some (length (n_to_c_tx s) + length (hub_tx s))%nat) /\
  (forall name cid sd key,
      hub_id s name cid sd key <> Some (length (n_to_c_tx s) + length (hub_tx s))%nat).
Proof.
  intros [Hs Hh]. split; intros name cid sd key E; [apply Hs in E|apply Hh in E]; lia.
Qed.

Lemma process_double_names file_name s s' :
  process_double svd_fit linalg_inv pdb_file file_name s = (Ok tt, s') ->
  ids_bounded s -> hub_tx s = [] ->
  exists tx,
    n_to_c_tx s' = n_to_c_tx s ++ [tx] /\ hub_tx s' = [] /\
    split_double_name (module_name file_name) = Ok (mod_a tx, mod_b tx) /\
    (forall cid key,
        single_id s' (mod_a tx) cid SideC key = Some (length (n_to_c_tx s))
        <-> cid = mod_a_chain tx /\ key = (mod_b tx, mod_b_chain tx)) /\
    (forall cid key,
        single_id s' (mod_b tx) cid SideN key = Some (length (n_to_c_tx s))
        <-> cid = mod_b_chain tx /\ key = (mod_a tx, mod_a_chain tx)) /\
    ids_bounded s'.
Proof.
  intros H Hb Hh. destruct (bounded_fresh Hb) as [Hfs _]. destruct Hb as [Hs Hhub].
  rewrite Hh, Nat.add_0_r in Hfs.
  unfold process_double in H. repeat minv_pure.
  match goal with
  | E : split_double_name _ = Ok ?names |- _ => destruct names as [a b]
  end.
  cbn [fst snd] in *. gsimpl.
  match goal with
  | S1 : single_side_set _ _ SideC _ _ _ = _, S2 : single_side_set _ _ SideN _ _ _ = _ |- _ =>
      destruct (record_pair S1 S2) as ([fS ->] & Hc & Hn & Hold);
      [intros name cid sd key; rewrite (@single_id_frame s) by reflexivity; apply Hfs|]
  end.
  eexists. split; [gsimpl; reflexivity|]. gsimpl.
  split; [exact Hh|]. cbn [create_tx mod_a mod_b mod_a_chain mod_b_chain].
  split; [assumption|].
  unfold ids_bounded, single_id, hub_id, hub_chain_lookup in *. gsimpl.
  split; [exact Hc|]. split; [exact Hn|]. split.
  - intros name cid sd key x G. rewrite length_app. simpl length.
    destruct (Hold _ _ _ _ _ G) as [->|G']; [lia|]. apply Hs in G'. lia.
  - intros hub_name cid sd key x G. rewrite length_app. apply Hhub in G. lia.
Qed.

Lemma hub_c_edge_names hub hub_name hub_chain_id comp_name single_b_name s s' :
  hub_c_edge svd_fit hub hub_name hub_chain_id comp_name single_b_name s = (Ok tt, s') ->
  ids_bounded s ->
  exists tx,
    hub_tx s' = hub_tx s ++ [tx] /\ n_to_c_tx s' = n_to_c_tx s /\
    mod_a tx = hub_name /\ mod_a_chain tx = hub_chain_id /\ mod_b tx = single_b_name /\
    (forall cid key,
        hub_id s' hub_name cid SideC key
        = Some (length (n_to_c_tx s) + length (hub_tx s))%nat
        <-> cid = hub_chain_id /\ key = (single_b_name, mod_b_chain tx)) /\
    (forall cid key,
        single_id s' single_b_name cid SideN key
        = Some (length (n_to_c_tx s) + length (hub_tx s))%nat
        <-> cid = mod_b_chain tx /\ key = (hub_name, hub_chain_id)) /\
    ids_bounded s'.
Proof.
  intros H Hb. destruct (bounded_fresh Hb) as [Hfs Hfh]. destruct Hb as [Hs Hhub].
  unfold hub_c_edge in H. repeat minv_pure. gsimpl.
  match goal with
  | U1 : hub_chain_update _ _ (hub_put_c _ _) _ = _,
    U2 : hub_chain_update _ _ (hub_put_c_tip _) _ = _,
    S3 : single_side_set _ _ SideN _ _ _ = _ |- _ =>
      destruct (record_hub_c U1 U2 S3) as ((fS & gS & ->) & Hc & Hn & Holds & Holdh)
  end.
  { intros name cid sd key. rewrite (@single_id_frame s) by reflexivity. apply Hfs. }
  { intros name cid sd key. rewrite (@hub_id_frame s) by reflexivity. apply Hfh. }
  eexists. split; [gsimpl; reflexivity|]. gsimpl.
  split; [reflexivity|]. cbn [create_tx mod_a mod_b mod_a_chain mod_b_chain].
  do 3 (split; [reflexivity|]).
  unfold ids_bounded, single_id, hub_id, hub_chain_lookup in *. gsimpl.
  split; [exact Hc|]. split; [exact Hn|]. split.
  - intros name cid sd key x G. rewrite length_app. simpl length.
    destruct (Holds _ _ _ _ _ G) as [->|G']; [lia|]. apply Hs in G'. lia.
  - intros name cid sd key x G. rewrite length_app. simpl length.
    destruct (Holdh _ _ _ _ _ G) as [->|G']; [lia|]. apply Hhub in G'. lia.
Qed.

Lemma hub_n_edge_names hub hub_name hub_chain_id comp_name single_a_name s s' :
  hub_n_edge svd_fit hub hub_name hub_chain_id comp_name single_a_name s = (Ok tt, s') ->
  ids_bounded s ->
  exists tx,
    hub_tx s' = hub_tx s ++ [tx] /\ n_to_c_tx s' = n_to_c_tx s /\
    mod_a tx = single_a_name /\ mod_b tx = hub_name /\ mod_b_chain tx = hub_chain_id /\
    (forall cid key,
        single_id s' single_a_name cid SideC key
        = Some (length (n_to_c_tx s) + length (hub_tx s))%nat
        <-> cid = mod_a_chain tx /\ key = (hub_name, hub_chain_id)) /\
    (forall cid key,
        hub_id s' hub_name cid SideN key
        = Some (length (n_to_c_tx s) + length (hub_tx s))%nat
        <-> cid = hub_chain_id /\ key = (single_a_name, mod_a_chain tx)) /\
    ids_bounded s'.
Proof.
  intros H Hb. destruct (bounded_fresh Hb) as [Hfs Hfh]. destruct Hb as [Hs Hhub].
  unfold hub_n_edge in H. repeat minv_pure. gsimpl.
  match goal with
  | S1 : single_side_set _ _ SideC _ _ _ = _,
    U2 : hub_chain_update _ _ (hub_put_n _ _) _ = _,
    U3 : hub_chain_update _ _ (hub_put_n_tip _) _ = _ |- _ =>
      destruct (record_hub_n S1 U2 U3) as ((fS & gS & ->) & Hc & Hn & Holds & Holdh)
  end.
  { intros name cid sd key. rewrite (@single_id_frame s) by reflexivity. apply Hfs. }
  { intros name cid sd key. rewrite (@hub_id_frame s) by reflexivity. apply Hfh. }
  eexists. split; [gsimpl; reflexivity|]. gsimpl.
  split; [reflexivity|]. cbn [create_tx mod_a mod_b mod_a_chain mod_b_chain].
  do 3 (split; [reflexivity|]).
  unfold ids_bounded, single_id, hub_id, hub_chain_lookup in *. gsimpl.
  split; [exact Hc|]. split; [exact Hn|]. split.
  - intros name cid sd key x G. rewrite length_app. simpl length.
    destruct (Holds _ _ _ _ _ G) as [->|G']; [lia|]. apply Hs in G'. lia.
  - intros name cid sd key x G. rewrite length_app. simpl length.
    destruct (Holdh _ _ _ _ _ G) as [->|G']; [lia|]. apply Hhub in G'. lia.
Qed.


(** *** The bound on stored ids is an invariant of the stages *)

Lemma process_double_bounded file_name s s' :
  process_double svd_fit linalg_inv pdb_file file_name s = (Ok tt, s') ->
  ids_bounded s /\ hub_tx s = [] -> ids_bounded s' /\ hub_tx s' = [].
Proof.
  intros H [Hb Hh]. destruct (process_double_names H Hb Hh) as (tx & _ & Hh' & _ & _ & _ & Hb').
  split; assumption.
Qed.

Lemma hub_chain_body_bounded hub hub_name item s s' :
  hub_chain_body svd_fit hub hub_name item s = (Ok tt, s') ->
  ids_bounded s -> ids_bounded s'.
Proof.
  intros H Hb. unfold hub_chain_body in H.
  apply bind_ok in H. destruct H as ([] & s1 & H1 & H2). cbv beta zeta in *.
  assert (Hs1 : ids_bounded s1).
  { destruct (c_free (snd item)).
    - apply bind_ok in H1. destruct H1 as (l & s0 & Hl & H1).
      apply gets_ok in Hl. destruct Hl as [-> ->].
      revert H1. apply for_each_ok; [|exact Hb].
      intros b t t' _ Ht Hedge.
      destruct (hub_c_edge_names Hedge Ht) as (tx & _ & _ & _ & _ & _ & _ & _ & Ht').
      exact Ht'.
    - apply ret_ok in H1. destruct H1 as [_ ->]. exact Hb. }
  destruct (n_free (snd item)).
  - apply bind_ok in H2. destruct H2 as (l & s0 & Hl & H2).
    apply gets_ok in Hl. destruct Hl as [-> ->].
    revert H2. apply for_each_ok; [|exact Hs1].
    intros a t t' _ Ht Hedge.
    destruct (hub_n_edge_names Hedge Ht) as (tx & _ & _ & _ & _ & _ & _ & _ & Ht').
    exact Ht'.
  - apply ret_ok in H2. destruct H2 as [_ ->]. exact Hs1.
Qed.

Lemma process_hub_bounded file_name s s' :
  process_hub svd_fit norm pdb_file file_name s = (Ok tt, s') ->
  ids_bounded s -> ids_bounded s'.
Proof.
  intros H [Hs Hh]. unfold process_hub in H. minv.
  match goal with
  | E : for_each _ _ ?t0 = (Ok ?u, ?t) |- _ =>
      destruct u;
      assert (Hinv : ids_bounded t);
      [revert E; apply for_each_ok;
       [intros x t1 t2 _ Hi Hx; exact (hub_chain_body_bounded Hx Hi)|]|]
  end.
  - split.
    + intros name cid sd key x. rewrite (@single_id_frame s) by reflexivity. apply Hs.
    + intros name cid sd key x. unfold hub_id, hub_chain_lookup. gsimpl.
      destruct (decide (name = strip_pdb (basename file_name))) as [->|Hne].
      * rewrite lookup_insert_eq. cbn [hm_chains].
        destruct (_ !! cid) as [ch|] eqn:Ec; [|discriminate].
        match goal with
        | E : hub_chains_init _ _ = Ok _ |- _ =>
            destruct (hub_chains_init_blank E Ec) as (_ & _ & Ecm & Enm)
        end.
        destruct sd; cbn [hub_side]; rewrite ?Ecm, ?Enm, lookup_empty; discriminate.
      * rewrite lookup_insert_ne by done. apply Hh.
  - destruct Hinv as [Hs' Hh']. split.
    + intros name cid sd key x. rewrite (single_id_frame (s := _) (s' := set_aligned_files _ _))
        by reflexivity. apply Hs'.
    + intros name cid sd key x. rewrite (hub_id_frame (s := _) (s' := set_aligned_files _ _))
        by reflexivity. apply Hh'.
Qed.

Lemma singles_stage_bounded single_files s s' :
  for_each single_files (process_single svd_fit norm pdb_file) s = (Ok tt, s') ->
  ids_bounded s -> ids_bounded s'.
Proof.
  intros H Hb. revert H. apply (for_each_ok (I := ids_bounded)); [|exact Hb].
  intros x t t' _ Ht Hx. exact (process_single_bounded Hx Ht).
Qed.

(** Every state a completed stage of [run] leaves, from the initial one on,
    stores only ids of recorded edges. *)
Lemma run_stages_bounded single_files double_files hub_files dir info s2 s3 :
  singles_then_doubles svd_fit linalg_inv norm pdb_file single_files double_files
                       (init dir info) = (Ok tt, s2) ->
  for_each hub_files (process_hub svd_fit norm pdb_file) s2 = (Ok tt, s3) ->
  (ids_bounded s2 /\ hub_tx s2 = []) /\ ids_bounded s3.
Proof.
  intros H12 H3. unfold singles_then_doubles in H12.
  apply bind_ok in H12. destruct H12 as ([] & s1 & H1 & H2).
  assert (B1 : ids_bounded s1) by exact (singles_stage_bounded H1 (ids_bounded_init dir info)).
  assert (Hh1 : hub_tx s1 = []).
  { revert H1. apply (for_each_ok (I := fun t => hub_tx t = [])); [|reflexivity].
    intros x t t' _ Ht Hx. apply process_single_frame in Hx.
    destruct Hx as (_ & Hh & _). congruence. }
  assert (B2 : ids_bounded s2 /\ hub_tx s2 = []).
  { revert H2. apply (for_each_ok (I := fun t => ids_bounded t /\ hub_tx t = []));
      [|split; assumption].
    intros x t t' _ Ht Hx. exact (process_double_bounded Hx Ht). }
  split; [exact B2|].
  revert H3. apply (for_each_ok (I := ids_bounded)); [|exact (proj1 B2)].
  intros x t t' _ Ht Hx. exact (process_hub_bounded Hx Ht).
Qed.

End RunProperties.

(** * The properties on the small database *)

Lemma demo_run_ok : demo_run = (Ok tt, snd demo_run).
Proof. vm_compute. reflexivity. Qed.

Lemma transform_ids_are_flat_indices_witness :
  issued (snd demo_run) = numbered (n_to_c_tx (snd demo_run)) /\
  NoDup (map fst (issued (snd demo_run))) /\
  forall (tx_id : nat) (tx : tx_entry),
    In (tx_id, tx) (issued (snd demo_run)) <-> n_to_c_tx (snd demo_run) !! tx_id = Some tx.
Proof.
  apply (@transform_ids_are_flat_indices demo_fit demo_inv demo_norm demo_files
           demo_singles demo_doubles demo_hubs "out" demo_info (snd demo_run)).
  vm_compute. reflexivity.
Defined.

(** C3 as stated fails on the run above: the two keys the document has are
    [modules] and [n_to_c_tx], not [units] and [transforms]. *)
Lemma dumped_keys_are_not_units_and_transforms :
  fst demo_run = Ok tt /\
  option_map (map fst) (out_written (snd demo_run))
  = Some ["modules"; "n_to_c_tx"]%string /\
  option_map (map fst) (out_written (snd demo_run))
  <> Some ["units"; "transforms"]%string.
Proof.
  split; [vm_compute; reflexivity|]. split; [vm_compute; reflexivity|].
  vm_compute. discriminate.
Qed.

Lemma dumped_document_shape_witness :
  exists s2,
    singles_then_doubles demo_fit demo_inv demo_norm demo_files
                         demo_singles demo_doubles demo_init = (Ok tt, s2) /\
    hub_tx s2 = [] /\
    out_written (snd demo_run)
    = Some [("modules"%string, DModules (singles (snd demo_run)) (hubs (snd demo_run)));
            ("n_to_c_tx"%string, DTransforms (n_to_c_tx s2 ++ hub_tx (snd demo_run)))].
Proof.
  apply (@dumped_document_shape demo_fit demo_inv demo_norm demo_files
           demo_singles demo_doubles demo_hubs "out" demo_info (snd demo_run)).
  vm_compute. reflexivity.
Defined.

Lemma process_single_rejects_chain_count_witness :
  process_single demo_fit demo_norm demo_files "in/singles/bad.pdb" demo_s1
  = (Raise AssertionError, demo_s1).
Proof.
  apply (@process_single_rejects_chain_count demo_fit demo_norm demo_files
           "in/singles/bad.pdb" [mkModel [demo_chain "A" 1 2; demo_chain "B" 1 2]] demo_s1).
  - reflexivity.
  - simpl. lia.
Defined.

Lemma hub_tips_need_pair_edge_witness :
  exists ch, hub_chain_lookup demo_s3 "H" "Z" = Some ch /\ hc_c_tip ch = TipEmpty.
Proof.
  destruct (hub_chain_lookup demo_s3 "H" "Z") as [ch|] eqn:E;
    [|vm_compute in E; discriminate E].
  exists ch. split; [reflexivity|].
  refine (proj1 (proj2 (proj2
            (@hub_tips_need_pair_edge demo_fit demo_norm demo_files "in/hubs/H.pdb"
               demo_s2 demo_s3 demo_comp_data "Z" (mkChainData "B" true false) ch
               _ _ _ _ E))) _).
  - vm_compute. reflexivity.
  - vm_compute. reflexivity.
  - apply NoDup_ListNoDup. vm_compute. repeat constructor; simpl; intuition discriminate.
  - simpl. auto.
  - intros tx Htx. vm_compute in Htx. destruct Htx as [<-|[]]. discriminate.
Defined.



(** * Further properties of the generator *)

(** ** File names *)

Lemma split_length (sep : ascii) (s : string) :
  length (split sep s) = S (count_char sep s).
Proof.
  induction s as [|c s IH]; [reflexivity|]. simpl.
  destruct (Ascii.eqb c sep); simpl; [now rewrite IH|].
  destruct (split sep s) as [|p ps]; simpl in *; [discriminate IH|exact IH].
Qed.

Lemma split_no_sep (sep : ascii) (s : string) :
  count_char sep s = 0%nat -> split sep s = [s].
Proof.
  induction s as [|c s IH]; [reflexivity|]. simpl.
  destruct (Ascii.eqb c sep); simpl; [discriminate|].
  intros H. rewrite (IH H). reflexivity.
Qed.

Lemma split_join (sep : ascii) (a b : string) :
  count_char sep a = 0%nat ->
  split sep (a +:+ String sep b) = a :: split sep b.
Proof.
  induction a as [|c a IH]; simpl.
  - intros _. rewrite Ascii.eqb_refl. reflexivity.
  - destruct (Ascii.eqb c sep); simpl; [discriminate|].
    intros H. rewrite (IH H). reflexivity.
Qed.

(** [sep.join(pieces)] *)
Lemma split_pieces (sep : ascii) (s : string) :
  Forall (fun p => count_char sep p = 0%nat) (split sep s) /\
  join_with sep (split sep s) = s.
Proof.
  induction s as [|c s [IHf IHj]]; simpl.
  - split; [repeat constructor|reflexivity].
  - destruct (Ascii.eqb_spec c sep) as [->|Hc].
    + split; [constructor; [reflexivity|exact IHf]|].
      pose proof (split_length sep s) as Hlen.
      destruct (split sep s) as [|p ps]; [discriminate Hlen|].
      cbn [join_with] in *. rewrite IHj. reflexivity.
    + pose proof (split_length sep s) as Hlen.
      destruct (split sep s) as [|p ps]; [discriminate Hlen|].
      apply Forall_cons in IHf as [Hp Hps]. split.
      * constructor; [|exact Hps]. simpl.
        destruct (Ascii.eqb_spec c sep); [contradiction|exact Hp].
      * rewrite <- IHj. destruct ps; reflexivity.
Qed.

(** X1: the name of a double file is taken apart at its dash:
    [split_double_name] returns [(a, b)] exactly for the names [a-b] whose
    parts hold no dash, and raises [ValueError] on every other name. *)
Theorem split_double_name_spec (double_name : string) :
  (forall a b,
      split_double_name double_name = Ok (a, b)
      <-> double_name = a +:+ String "-" b /\
          count_char "-" a = 0%nat /\ count_char "-" b = 0%nat) /\
  match split_double_name double_name with
  | Ok _ => True
  | Raise e => e = ValueError
  end.
Proof.
  split.
  - intros a b. split.
    + unfold split_double_name. intros H.
      destruct (split_pieces "-" double_name) as [Hf Hj].
      destruct (split "-" double_name) as [|p [|q [|r l]]]; try discriminate H.
      injection H as -> ->. cbn [join_with] in Hj.
      apply Forall_cons in Hf as [Ha Hb']. apply Forall_cons in Hb' as [Hb _].
      repeat split; assumption || (symmetry; assumption).
    + intros (-> & Ha & Hb). unfold split_double_name.
      rewrite (split_join _ Ha), (split_no_sep Hb). reflexivity.
  - unfold split_double_name.
    destruct (split "-" double_name) as [|p [|q [|r l]]]; exact I || reflexivity.
Qed.

Lemma strip_pdb_other (c : ascii) (s : string) :
  c <> "."%char -> strip_pdb (String c s) = String c (strip_pdb s).
Proof.
  intros Hc. destruct c as [[] [] [] [] [] [] [] []]; try reflexivity. congruence.
Qed.

Lemma strip_pdb_suffix (name : string) :
  count_char "." name = 0%nat -> strip_pdb (name +:+ ".pdb") = name.
Proof.
  induction name as [|c name IH]; [reflexivity|]. intros H.
  assert (Hc : c <> "."%char).
  { intros ->. simpl in H. discriminate H. }
  assert (Hn : count_char "." name = 0%nat).
  { simpl in H. destruct (Ascii.eqb c "."); [discriminate H|exact H]. }
  change (String c name +:+ ".pdb")%string with (String c (name +:+ ".pdb")).
  rewrite (strip_pdb_other _ Hc), (IH Hn). reflexivity.
Qed.

Lemma last_split_join (sep : ascii) (d f : string) :
  count_char sep f = 0%nat ->
  List.last (split sep (d +:+ String sep f)) EmptyString = f.
Proof.
  intros Hf. induction d as [|c d IH].
  - simpl. rewrite Ascii.eqb_refl, (split_no_sep Hf). reflexivity.
  - change (String c d +:+ String sep f)%string with (String c (d +:+ String sep f)).
    pose proof (split_length sep (d +:+ String sep f)) as Hlen.
    assert (Hcount : (1 <= count_char sep (d +:+ String sep f))%nat).
    { clear. induction d as [|c d IH]; simpl.
      - rewrite Ascii.eqb_refl. lia.
      - lia. }
    cbn [split]. destruct (Ascii.eqb c sep).
    + destruct (split sep (d +:+ String sep f)) as [|p ps]; [discriminate Hlen|].
      exact IH.
    + destruct (split sep (d +:+ String sep f)) as [|p [|q ps]];
        [discriminate Hlen|simpl in Hlen; lia|]. exact IH.
Qed.

Lemma count_char_app (sep : ascii) (a b : string) :
  count_char sep (a +:+ b) = (count_char sep a + count_char sep b)%nat.
Proof. induction a as [|c a IH]; simpl; [reflexivity|]. rewrite IH. lia. Qed.

(** X2: the module name of a file: for a [name] without a slash and without
    a dot, the path [dir/name.pdb] has the module name [name], whatever the
    directory. *)
Theorem module_name_of_path (dir name : string) :
  count_char "/" name = 0%nat -> count_char "." name = 0%nat ->
  module_name (dir +:+ String "/" (name +:+ ".pdb")) = name.
Proof.
  intros Hslash Hdot. unfold module_name, basename.
  rewrite last_split_join.
  - apply strip_pdb_suffix, Hdot.
  - rewrite count_char_app, Hslash. reflexivity.
Qed.

Lemma module_name_of_path_witness :
  module_name "resources/pdb_prepped/doubles/D14-D79.pdb" = "D14-D79"%string.
Proof.
  apply (@module_name_of_path "resources/pdb_prepped/doubles" "D14-D79"); reflexivity.
Defined.

(** ** Structures under a rigid motion *)

Lemma find_map_chain (f : Chain -> Chain) (cid : string) (l : list Chain) :
  (forall c, chain_id (f c) = chain_id c) ->
  find (fun c => String.eqb (chain_id c) cid) (map f l) =
  option_map f (find (fun c => String.eqb (chain_id c) cid) l).
Proof.
  intros Hf. induction l as [|c l IH]; simpl; [reflexivity|].
  rewrite Hf. destruct (String.eqb (chain_id c) cid); [reflexivity|exact IH].
Qed.

Lemma shape_transform (rot : mat3) (t : vec3) (s : Structure) :
  shape (transform rot t s) = shape s.
Proof.
  unfold shape, transform; simpl. rewrite map_map. apply map_ext; intros m.
  simpl. rewrite map_map. apply map_ext; intros c.
  unfold chain_shape; simpl. f_equal. rewrite map_map. apply map_ext; intros r.
  simpl. rewrite map_map. reflexivity.
Qed.

Lemma get_chains_transform (rot : mat3) (t : vec3) (s : Structure) :
  get_chains (transform rot t s) = map (transform_chain rot t) (get_chains s).
Proof.
  unfold get_chains, transform. simpl. rewrite concat_map, !map_map. reflexivity.
Qed.

Lemma get_chain_transform (rot : mat3) (t : vec3) (s : Structure) (cid : string) :
  get_chain (transform rot t s) cid =
  (c <- get_chain s cid ;; Ok (transform_chain rot t c))%res.
Proof.
  unfold get_chain, first_model, transform. simpl.
  destruct (models s) as [|m ms]; simpl; [reflexivity|].
  rewrite find_map_chain by reflexivity.
  destruct (find _ (chains m)); reflexivity.
Qed.

Lemma get_pdb_residue_count_transform (rot : mat3) (t : vec3) (s : Structure) :
  get_pdb_residue_count (transform rot t s) = get_pdb_residue_count s.
Proof.
  unfold get_pdb_residue_count, first_model, transform. simpl.
  destruct (models s) as [|m ms]; simpl; [reflexivity|].
  rewrite map_map. do 2 f_equal. apply map_ext; intros c. simpl.
  rewrite length_map. reflexivity.
Qed.

Lemma get_chain_residue_count_transform (rot : mat3) (t : vec3) (s : Structure) cid :
  get_chain_residue_count (transform rot t s) cid = get_chain_residue_count s cid.
Proof.
  unfold get_chain_residue_count. rewrite get_chain_transform.
  destruct (get_chain s cid); simpl; [|reflexivity]. rewrite length_map. reflexivity.
Qed.

Lemma first_chain_id_transform (rot : mat3) (t : vec3) (s : Structure) :
  first_chain_id (transform rot t s) = first_chain_id s.
Proof.
  unfold first_chain_id. rewrite get_chains_transform.
  destruct (get_chains s); reflexivity.
Qed.

Lemma ca_coords_outcome (rs : list Residue) :
  match ca_coords rs with
  | Ok cs => length cs = length rs /\
             forall r, In r rs -> exists a, residue_get r "CA" = Ok a
  | Raise e => e = KeyError /\ exists r, In r rs /\ residue_get r "CA" = Raise KeyError
  end.
Proof.
  unfold ca_coords. induction rs as [|r rs IH]; simpl.
  - split; [reflexivity|]. intros r [].
  - destruct (residue_get r "CA") as [a|e] eqn:Er; simpl.
    + destruct (rmap _ rs) as [cs|e]; simpl.
      * destruct IH as [Hlen Hall]. split; [simpl; congruence|].
        intros r' [<-|Hin]; [eauto|apply Hall, Hin].
      * destruct IH as [-> (r' & Hin & Hr')]. split; [reflexivity|].
        exists r'. split; [now right|exact Hr'].
    + assert (e = KeyError) as ->.
      { unfold residue_get in Er. destruct (find _ _); congruence. }
      split; [reflexivity|]. exists r. split; [now left|exact Er].
Qed.

Lemma rmap_ca_outcome (rs : list Residue) :
  match rmap (fun r => residue_get r "CA") rs with
  | Ok l => length l = length rs
  | Raise e => e = KeyError /\ exists r, In r rs /\ residue_get r "CA" = Raise KeyError
  end.
Proof.
  induction rs as [|r rs IH]; simpl; [reflexivity|].
  destruct (residue_get r "CA") as [a|e] eqn:Er; simpl.
  - destruct (rmap _ rs) as [l|e]; simpl; [congruence|].
    destruct IH as [-> (r' & Hin & Hr')]. split; [reflexivity|].
    exists r'. split; [now right|exact Hr'].
  - assert (e = KeyError) as ->.
    { unfold residue_get in Er. destruct (find _ _); congruence. }
    split; [reflexivity|]. exists r. split; [now left|exact Er].
Qed.

Section GeometryOutcomes.

Variable svd_fit : list vec3 -> list vec3 -> result (mat3 * vec3).
Variable norm : vec3 -> Q.

(** X4: [move_to_origin] returns exactly when every residue has an alpha
    carbon, and otherwise raises [KeyError]; what it returns is its
    argument with the same chains, residues and atom names, marked
    [at_origin]. *)
Theorem move_to_origin_outcome (pdb : Structure) :
  match move_to_origin svd_fit pdb with
  | Ok pdb' =>
      (forall r, In r (get_residues pdb) -> exists a, residue_get r "CA" = Ok a) /\
      shape pdb' = shape pdb /\ at_origin pdb' = Some true
  | Raise e =>
      e = KeyError /\
      exists r, In r (get_residues pdb) /\ residue_get r "CA" = Raise KeyError
  end.
Proof.
  unfold move_to_origin, get_centre_of_mass.
  pose proof (ca_coords_outcome (get_residues pdb)) as H.
  destruct (ca_coords (get_residues pdb)) as [cs|e]; simpl; [|exact H].
  destruct H as [_ H]. split; [exact H|]. split; [|reflexivity].
  destruct (np_mean cs); [|reflexivity].
  change (shape (transform identity3 (vneg v) pdb) = shape pdb). apply shape_transform.
Qed.

(** *** get_radii *)

Lemma radii_fold (l : list Atom) :
  forall n0 sum0 ca0 h0 n sum ca h,
    fold_left (radii_step norm) l (n0, sum0, ca0, h0) = (n, sum, ca, h) ->
    n = (n0 + Z.of_nat (length l))%Z /\
    (sum == sum0 + total_dist norm l)%Q /\
    (ca0 <= ca)%Q /\ (h0 <= h)%Q /\
    (forall a, In a l -> atom_name a = "CA"%string -> (norm (coord a) <= ca)%Q) /\
    (forall a, In a l -> element a <> "H"%string -> (norm (coord a) <= h)%Q).
Proof.
  induction l as [|a l IH]; intros n0 sum0 ca0 h0 n sum ca h H.
  - simpl in H. injection H as <- <- <- <-.
    split; [simpl; lia|]. split; [simpl; ring|].
    split; [apply Qle_refl|]. split; [apply Qle_refl|]. split; intros a [].
  - cbn [fold_left] in H. unfold radii_step at 2 in H.
    apply IH in H. destruct H as (Hn & Hsum & Hca & Hh & Hcas & Hhs).
    split; [rewrite Hn; simpl length; lia|].
    split; [rewrite Hsum; simpl; ring|].
    assert (Hca0 : (ca0 <= ca)%Q).
    { destruct (String.eqb (atom_name a) "CA"); [|exact Hca].
      eapply Qle_trans; [apply Q.le_max_l|exact Hca]. }
    assert (Hh0 : (h0 <= h)%Q).
    { destruct (negb (String.eqb (element a) "H")); [|exact Hh].
      eapply Qle_trans; [apply Q.le_max_l|exact Hh]. }
    split; [exact Hca0|]. split; [exact Hh0|]. split.
    + intros a' [<-|Hin] Hname; [|apply Hcas; assumption].
      apply String.eqb_eq in Hname. rewrite Hname in Hca.
      eapply Qle_trans; [apply Q.le_max_r|exact Hca].
    + intros a' [<-|Hin] Hel; [|apply Hhs; assumption].
      apply String.eqb_neq in Hel. rewrite Hel in Hh. simpl in Hh.
      eapply Qle_trans; [apply Q.le_max_r|exact Hh].
Qed.

(** X5: [get_radii] raises [AttributeError] on a structure that was never
    centred and [ZeroDivisionError] on one without atoms; otherwise it
    returns the mean distance of all atoms from the origin and two
    non-negative radii, of which the first bounds the distance of every
    alpha carbon and the second that of every atom that is not a
    hydrogen. *)
Theorem get_radii_outcome (pose : Structure) :
  match get_radii norm pose with
  | Ok r =>
      at_origin pose = Some true /\ get_atoms pose <> [] /\
      (average_all r * inject_Z (Z.of_nat (length (get_atoms pose)))
        == total_dist norm (get_atoms pose))%Q /\
      (0 <= max_ca_dist r)%Q /\ (0 <= max_heavy_dist r)%Q /\
      (forall a, In a (get_atoms pose) -> atom_name a = "CA"%string ->
                 (norm (coord a) <= max_ca_dist r)%Q) /\
      (forall a, In a (get_atoms pose) -> element a <> "H"%string ->
                 (norm (coord a) <= max_heavy_dist r)%Q)
  | Raise e =>
      (e = AttributeError /\ at_origin pose = None) \/
      (e = ValueError /\ at_origin pose = Some false) \/
      (e = ZeroDivisionError /\ at_origin pose = Some true /\ get_atoms pose = [])
  end.
Proof.
  unfold get_radii. destruct (at_origin pose) as [[|]|]; [|now right; left|now left].
  destruct (fold_left (radii_step norm) (get_atoms pose) (0%Z, 0%Q, 0%Q, 0%Q))
    as [[[n sum] ca] h] eqn:E.
  apply radii_fold in E. destruct E as (Hn & Hsum & Hca & Hh & Hcas & Hhs).
  destruct (Z.eqb_spec n 0) as [E0|E0].
  - right; right. repeat split.
    destruct (get_atoms pose); [reflexivity|simpl in Hn; lia].
  - split; [reflexivity|]. split; [intros E; rewrite E in Hn; simpl in Hn; lia|].
    cbn [average_all max_ca_dist max_heavy_dist].
    split; [|repeat split; assumption].
    assert (Hne : ~ inject_Z n == 0).
    { intros H. apply E0. apply (inject_Z_injective _ 0%Z). exact H. }
    replace (Z.of_nat (length (get_atoms pose))) with n by lia.
    rewrite Hsum. field. exact Hne.
Qed.

(** *** get_rot_trans *)

(** X6: when both chains exist and every residue of both windows has an
    alpha carbon, [get_rot_trans] hands the superimposer two lists of one
    length or raises [PDBException]: a window that Python's slicing cut
    short on one side only is never fitted. *)
Theorem get_rot_trans_checks_lengths
    (moving : Structure) (moving_chain_id : string)
    (fixed : Structure) (fixed_chain_id : string)
    (moving_resi_offset fixed_resi_offset match_count : Z)
    (moving_chain fixed_chain : Chain) :
  get_chain moving moving_chain_id = Ok moving_chain ->
  get_chain fixed fixed_chain_id = Ok fixed_chain ->
  let moving_residues :=
    py_slice (residues moving_chain) moving_resi_offset (moving_resi_offset + match_count) in
  let fixed_residues :=
    py_slice (residues fixed_chain) fixed_resi_offset (fixed_resi_offset + match_count) in
  (forall r, In r (moving_residues ++ fixed_residues) ->
             exists a, residue_get r "CA" = Ok a) ->
  if Nat.eqb (length moving_residues) (length fixed_residues)
  then exists fc mc,
      ca_coords fixed_residues = Ok fc /\ ca_coords moving_residues = Ok mc /\
      length fc = length mc /\
      get_rot_trans svd_fit moving moving_chain_id fixed fixed_chain_id
                    moving_resi_offset fixed_resi_offset match_count = svd_fit fc mc
  else get_rot_trans svd_fit moving moving_chain_id fixed fixed_chain_id
                     moving_resi_offset fixed_resi_offset match_count
       = Raise PDBException.
Proof.
  intros Hm Hf mres fres Hca. unfold get_rot_trans. rewrite Hm, Hf. simpl.
  fold mres. fold fres.
  assert (Hrm : forall rs, (forall r, In r rs -> exists a, residue_get r "CA" = Ok a) ->
                exists l, rmap (fun r => residue_get r "CA") rs = Ok l /\
                          length l = length rs /\ ca_coords rs = Ok (map coord l)).
  { clear. induction rs as [|r rs IH]; intros H; [exists []; repeat split|].
    destruct (H r (or_introl eq_refl)) as [a Ha].
    destruct IH as (l & Hl & Hlen & Hcs); [intros; apply H; now right|].
    exists (a :: l). unfold ca_coords in *. simpl. rewrite Ha, Hl. simpl.
    rewrite Hcs. simpl. repeat split. congruence. }
  destruct (Hrm mres) as (ma & Hma & Hlm & Hcm).
  { intros r Hr. apply Hca, in_or_app. now left. }
  destruct (Hrm fres) as (fa & Hfa & Hlf & Hcf).
  { intros r Hr. apply Hca, in_or_app. now right. }
  rewrite Hma, Hfa. simpl. unfold set_atoms. rewrite Hlm, Hlf.
  rewrite (Nat.eqb_sym (length fres)).
  destruct (Nat.eqb_spec (length mres) (length fres)) as [E|E]; [|reflexivity].
  exists (map coord fa), (map coord ma). repeat split; try assumption.
  rewrite !length_map. congruence.
Qed.

End GeometryOutcomes.

(** *** find_tip *)

Lemma rfold_ca_sum (rs : list Residue) :
  forall (cs : list vec3) (acc : vec3),
    ca_coords rs = Ok cs ->
    rfold (fun acc r => a <- residue_get r "CA" ;; Ok (vadd acc (coord a)))%res rs acc
    = Ok (fold_left vadd cs acc).
Proof.
  unfold ca_coords. induction rs as [|r rs IH]; simpl; intros cs acc H.
  - injection H as <-. reflexivity.
  - destruct (residue_get r "CA") as [a|]; simpl in *; [|discriminate].
    destruct (rmap _ rs) as [cs'|] eqn:E; simpl in H; [|discriminate].
    injection H as <-. simpl. apply IH. reflexivity.
Qed.

(** X7: on a chain with residues [find_tip] sums the alpha carbons of a
    window of [k] residues ([n / 6] at the n terminus, [n - 5 * n / 6] at
    the c terminus, of [n]) and divides by [k - 1]: the result has no
    finite value when [k = 1], and otherwise [(k - 1) * tip] is the sum, so
    that the tip is the zero vector for an empty window and [k / (k - 1)]
    times the mean of the window for a larger one. *)
Theorem find_tip_scaled_sum
    (term : string) (struct : Structure) (cid : string) (chain : Chain)
    (cs : list vec3) :
  get_chain struct cid = Ok chain ->
  residues chain <> [] ->
  lower term = "n"%string \/ lower term = "c"%string ->
  ca_coords (tip_residues term (residues chain)) = Ok cs ->
  let n := Z.of_nat (length (residues chain)) in
  Z.of_nat (length cs)
    = (if String.eqb (lower term) "n" then n / 6 else n - 5 * n / 6)%Z /\
  match find_tip term struct cid with
  | Ok (Some tip) =>
      length cs <> 1%nat /\
      veq (vscale (inject_Z (Z.of_nat (length cs)) - 1)%Q tip) (vsum cs)
  | Ok None => length cs = 1%nat
  | Raise _ => False
  end.
Proof.
  intros Hchain Hne Hterm Hcs n.
  assert (Hn : (0 < n)%Z).
  { subst n. destruct (residues chain); [congruence|simpl; lia]. }
  pose proof (ca_coords_length Hcs) as Hlen.
  unfold tip_residues in Hcs, Hlen. fold n in Hcs, Hlen.
  unfold find_tip. rewrite Hchain.
  assert (Ht : String.eqb (lower term) "c" || String.eqb (lower term) "n" = true).
  { destruct Hterm as [-> | ->]; reflexivity. }
  rewrite Ht. cbn [py_assert rbind]. fold n.
  destruct (Z.ltb_spec 0 n) as [_|]; [|lia]. cbn [py_assert rbind].
  assert (Hk : Z.of_nat (length cs)
               = (if String.eqb (lower term) "n" then n / 6 else n - 5 * n / 6)%Z).
  { rewrite Hlen. destruct (String.eqb (lower term) "n").
    - rewrite py_slice_length; [|split; [lia|apply Z.div_pos; lia]|].
      + rewrite Z2Nat.id; [lia|]. assert (0 <= n / 6)%Z by (apply Z.div_pos; lia). lia.
      + fold n. assert (n / 6 <= n)%Z by (apply Z.div_le_upper_bound; lia). lia.
    - assert (0 <= 5 * n / 6 <= n)%Z.
      { split; [apply Z.div_pos; lia|apply Z.div_le_upper_bound; lia]. }
      rewrite py_slice_length; [|lia|fold n; lia]. lia. }
  split; [exact Hk|].
  set (d := (if String.eqb (lower term) "n" then n / 6 else n - 5 * n / 6)%Z) in *.
  assert (Hres :
    (let '(start_idx, end_idx) :=
       if String.eqb (lower term) "n" then (0, n / 6)%Z else ((6 - 1) * n / 6, n)%Z in
     sum_coord <- rfold (fun acc r => a <- residue_get r "CA" ;; Ok (vadd acc (coord a)))
                        (py_slice (residues chain) start_idx end_idx) vzero ;;
     Ok (vdiv_int sum_coord (end_idx - start_idx - 1)))%res
    = Ok (vdiv_int (vsum cs) (d - 1))).
  { subst d. destruct (String.eqb (lower term) "n").
    - rewrite (rfold_ca_sum vzero Hcs). simpl. unfold vsum. do 2 f_equal. lia.
    - change ((6 - 1) * n)%Z with (5 * n)%Z.
      rewrite (rfold_ca_sum vzero Hcs). simpl. reflexivity. }
  rewrite Hres. unfold vdiv_int.
  destruct (Z.eqb_spec (d - 1) 0) as [E|E]; [lia|].
  split; [lia|].
  assert (Hq : (inject_Z (Z.of_nat (length cs)) - 1 == inject_Z (d - 1))%Q).
  { rewrite Hk. unfold Qeq, Qminus, Qplus, Qopp, inject_Z. cbn [Qnum Qden]. lia. }
  assert (Hd : ~ inject_Z (d - 1) == 0).
  { intros H. apply E. apply (inject_Z_injective _ 0%Z). exact H. }
  unfold veq. cbn [vx vy vz vscale]. rewrite !Hq.
  repeat split; field; exact Hd.
Qed.

(** *** Homogeneous transforms *)

(** The product of two homogeneous arrays is the homogeneous array of the
    composed motion. *)
Lemma matmul_homogeneous (r1 r2 : mat3) (t1 t2 : vec3) :
  let p := matmul (homogeneous r1 t1) (homogeneous r2 t2) in
  meq (m_rot p) (mmul r1 r2) /\
  veq (m_col p) (vadd (mat_vec r1 t2) t1) /\
  veq (m_bot p) vzero /\ (m_corner p == 1)%Q.
Proof.
  unfold matmul, homogeneous, meq, madd, mmul, outer, mat_vec. cbn [m_rot m_col m_bot m_corner].
  vsimpl. cbn [vx vy vz vadd vscale row0 row1 row2].
  repeat split; ring.
Qed.

(** ** What a statement leaves alone *)

Section Keeps.

Context {B : Type} (f : XDBGenerator -> B).

Lemma keeps_bind {A C} (m : M A) (k : A -> M C) :
  keeps f m -> (forall a, keeps f (k a)) -> keeps f (bind m k).
Proof.
  intros Hm Hk s. unfold bind. specialize (Hm s).
  destruct (m s) as [[a|e] s1]; simpl in *; [|exact Hm].
  rewrite (Hk a s1). exact Hm.
Qed.

Lemma keeps_lift {A} (r : result A) : keeps f (lift r).
Proof. intros s. reflexivity. Qed.

Lemma keeps_gets {A} (g : XDBGenerator -> A) : keeps f (gets g).
Proof. intros s. reflexivity. Qed.

Lemma keeps_ret {A} (a : A) : keeps f (ret a).
Proof. intros s. reflexivity. Qed.

Lemma keeps_modify (g : XDBGenerator -> XDBGenerator) :
  (forall s, f (g s) = f s) -> keeps f (modify g).
Proof. intros H s. apply H. Qed.

Lemma keeps_for_each {A} (l : list A) (body : A -> M unit) :
  (forall x, keeps f (body x)) -> keeps f (for_each l body).
Proof.
  intros H. induction l as [|x l IH]; simpl; [apply keeps_ret|].
  apply keeps_bind; [apply H|intros _; exact IH].
Qed.

Lemma keeps_single_pdbs_get name :
  (forall g s, f (set_single_pdbs g s) = f s) -> keeps f (single_pdbs_get name).
Proof.
  intros H s. unfold single_pdbs_get. destruct (single_pdbs s !! name); simpl; [reflexivity|apply H].
Qed.

Lemma keeps_single_side_set name cid sd key tx_id :
  (forall g s, f (set_singles g s) = f s) ->
  keeps f (single_side_set name cid sd key tx_id).
Proof.
  intros H s. unfold single_side_set. destruct (singles s !! name) as [m|]; [|apply H].
  destruct (sm_chains m !! cid); [apply H|].
  destruct (sm_vivified m); [apply H|reflexivity].
Qed.

Lemma keeps_single_side_get name cid sd key : keeps f (single_side_get name cid sd key).
Proof.
  intros s. unfold single_side_get. destruct (singles s !! name) as [m|]; [|reflexivity].
  destruct (sm_chains m !! cid) as [ch|]; [|destruct (sm_vivified m); reflexivity].
  destruct (single_side sd ch !! key); reflexivity.
Qed.

Lemma keeps_hub_chain_update hub_name cid g :
  (forall h s, f (set_hubs h s) = f s) -> keeps f (hub_chain_update hub_name cid g).
Proof.
  intros H s. unfold hub_chain_update. destruct (hubs s !! hub_name) as [m|]; [|reflexivity].
  destruct (hm_chains m !! cid); [apply H|reflexivity].
Qed.

Lemma keeps_raise {A} (m : M A) : keeps f m -> raise_keeps f m.
Proof. intros H s e s' E. specialize (H s). rewrite E in H. exact H. Qed.

Lemma raise_keeps_bind {A C} (m : M A) (k : A -> M C) :
  keeps f m -> (forall a, raise_keeps f (k a)) -> raise_keeps f (bind m k).
Proof.
  intros Hm Hk s e s' E. unfold bind in E. specialize (Hm s).
  destruct (m s) as [[a|e1] s1]; simpl in *.
  - rewrite (Hk a s1 e s' E). exact Hm.
  - injection E as _ <-. exact Hm.
Qed.

Lemma raise_keeps_modify (g : XDBGenerator -> XDBGenerator) : raise_keeps f (modify g).
Proof. intros s e s' E. discriminate E. Qed.

Lemma raise_keeps_modify_bind {C} (g : XDBGenerator -> XDBGenerator) (k : unit -> M C) :
  (forall s e s', k tt (g s) = (Raise e, s') -> f s' = f s) ->
  raise_keeps f (bind (modify g) k).
Proof. intros H s e s' E. unfold bind, modify in E. apply (H s e s' E). Qed.

End Keeps.

(** One statement of a method at a time. *)
Ltac keeps_step :=
  first
    [ apply keeps_lift | apply keeps_gets | apply keeps_ret
    | apply keeps_single_side_get
    | apply keeps_single_pdbs_get; intros; reflexivity
    | apply keeps_single_side_set; intros; reflexivity
    | apply keeps_hub_chain_update; intros; reflexivity
    | apply keeps_modify; intros; reflexivity
    | unfold save_pdb; apply keeps_modify; intros; reflexivity
    | apply keeps_bind; [|intros; cbv beta zeta] ].
Ltac keeps_all := repeat keeps_step.

Section FailureProperties.

Variable svd_fit : list vec3 -> list vec3 -> result (mat3 * vec3).
Variable linalg_inv : mat4 -> result mat4.
Variable norm : vec3 -> Q.
Variable pdb_file : string -> result (list Model).

(** X8: a [process_double] that raises has recorded nothing: the two edge
    lists, the cache of doubles, the hub entries and the dumped document
    are as they were (module entries, the cache of singles and the aligned
    files may have changed). *)
Theorem process_double_failure_records_nothing
    (file_name : string) (s s' : XDBGenerator) (e : exn) :
  process_double svd_fit linalg_inv pdb_file file_name s = (Raise e, s') ->
  n_to_c_tx s' = n_to_c_tx s /\ hub_tx s' = hub_tx s /\
  double_pdbs s' = double_pdbs s /\ hubs s' = hubs s /\
  hub_info s' = hub_info s /\ out_written s' = out_written s.
Proof.
  intros H.
  assert (E : recorded s' = recorded s).
  { revert s e s' H. change (raise_keeps recorded
      (process_double svd_fit linalg_inv pdb_file file_name)).
    unfold process_double.
    repeat (apply raise_keeps_bind; [solve [keeps_all]|intros; cbv beta zeta]).
    intros s e s' H. unfold bind, modify in H. discriminate H. }
  unfold recorded in E. injection E as -> -> -> -> -> ->. repeat split.
Qed.

End FailureProperties.

Section FailureProperties2.

Variable svd_fit : list vec3 -> list vec3 -> result (mat3 * vec3).
Variable linalg_inv : mat4 -> result mat4.
Variable norm : vec3 -> Q.
Variable pdb_file : string -> result (list Model).

Lemma keeps_out_process_single file_name :
  keeps out_written (process_single svd_fit norm pdb_file file_name).
Proof. unfold process_single. keeps_all. Qed.

Lemma keeps_out_process_double file_name :
  keeps out_written (process_double svd_fit linalg_inv pdb_file file_name).
Proof. unfold process_double. keeps_all. Qed.

Lemma keeps_hub_c_edge {B} (f : XDBGenerator -> B) hub hub_name cid comp_name b :
  (forall g s, f (set_single_pdbs g s) = f s) ->
  (forall g s, f (set_singles g s) = f s) ->
  (forall g s, f (set_hubs g s) = f s) ->
  (forall g s, f (set_issued g s) = f s) ->
  (forall g s, f (set_hub_tx g s) = f s) ->
  keeps f (hub_c_edge svd_fit hub hub_name cid comp_name b).
Proof.
  intros H1 H2 H3 H4 H5. unfold hub_c_edge.
  repeat first
    [ apply keeps_lift | apply keeps_gets | apply keeps_single_side_get
    | apply keeps_single_pdbs_get; exact H1
    | apply keeps_single_side_set; exact H2
    | apply keeps_hub_chain_update; exact H3
    | apply keeps_modify; intros; first [apply H4|apply H5]
    | apply keeps_bind; [|intros; cbv beta zeta] ].
Qed.

Lemma keeps_hub_n_edge {B} (f : XDBGenerator -> B) hub hub_name cid comp_name a :
  (forall g s, f (set_single_pdbs g s) = f s) ->
  (forall g s, f (set_singles g s) = f s) ->
  (forall g s, f (set_hubs g s) = f s) ->
  (forall g s, f (set_issued g s) = f s) ->
  (forall g s, f (set_hub_tx g s) = f s) ->
  keeps f (hub_n_edge svd_fit hub hub_name cid comp_name a).
Proof.
  intros H1 H2 H3 H4 H5. unfold hub_n_edge.
  repeat first
    [ apply keeps_lift | apply keeps_gets | apply keeps_single_side_get
    | apply keeps_single_pdbs_get; exact H1
    | apply keeps_single_side_set; exact H2
    | apply keeps_hub_chain_update; exact H3
    | apply keeps_modify; intros; first [apply H4|apply H5]
    | apply keeps_bind; [|intros; cbv beta zeta] ].
Qed.

Lemma keeps_hub_chain_body {B} (f : XDBGenerator -> B) hub hub_name item :
  (forall g s, f (set_single_pdbs g s) = f s) ->
  (forall g s, f (set_singles g s) = f s) ->
  (forall g s, f (set_hubs g s) = f s) ->
  (forall g s, f (set_issued g s) = f s) ->
  (forall g s, f (set_hub_tx g s) = f s) ->
  keeps f (hub_chain_body svd_fit hub hub_name item).
Proof.
  intros H1 H2 H3 H4 H5. unfold hub_chain_body. apply keeps_bind.
  - destruct (c_free (snd item)); [|apply keeps_ret].
    apply keeps_bind; [apply keeps_gets|intros txs].
    apply keeps_for_each. intros b. apply keeps_hub_c_edge; assumption.
  - intros _. destruct (n_free (snd item)); [|apply keeps_ret].
    apply keeps_bind; [apply keeps_gets|intros txs].
    apply keeps_for_each. intros a. apply keeps_hub_n_edge; assumption.
Qed.

Lemma keeps_out_process_hub file_name :
  keeps out_written (process_hub svd_fit norm pdb_file file_name).
Proof.
  unfold process_hub.
  repeat first
    [ apply keeps_for_each; intros; apply keeps_hub_chain_body; intros; reflexivity
    | keeps_step ].
Qed.

(** X9: a [run] that raises writes no document: [dump_xdb] is its last
    statement, and nothing before it touches the output. *)
Theorem failed_run_writes_nothing
    (single_files double_files hub_files : list string)
    (s s' : XDBGenerator) (e : exn) :
  run svd_fit linalg_inv norm pdb_file single_files double_files hub_files s
    = (Raise e, s') ->
  out_written s' = out_written s.
Proof.
  revert s e s'. change (raise_keeps out_written
    (run svd_fit linalg_inv norm pdb_file single_files double_files hub_files)).
  unfold run.
  apply raise_keeps_bind;
    [apply keeps_for_each; intros; apply keeps_out_process_single|intros _].
  apply raise_keeps_bind;
    [apply keeps_for_each; intros; apply keeps_out_process_double|intros _].
  apply raise_keeps_bind;
    [apply keeps_for_each; intros; apply keeps_out_process_hub|intros _].
  intros s e s' H. unfold bind, modify, dump_xdb in H. discriminate H.
Qed.

(** *** Hub metadata *)

(** X10: [process_hub] reads the component data of its hub from
    [hub_info] and deletes it at once.  A hub without metadata raises
    [AssertionError] and one whose data is gone raises [KeyError], both
    with [self] untouched; a hub with data loses it whether the call
    returns or raises, so that a second call for the same file raises
    [KeyError]. *)
Theorem process_hub_consumes_metadata
    (file_name : string) (ms : list Model) (hub : Structure) (s : XDBGenerator) :
  pdb_file file_name = Ok ms ->
  move_to_origin svd_fit (mkStructure ms None) = Ok hub ->
  let hub_name := strip_pdb (basename file_name) in
  let out := process_hub svd_fit norm pdb_file file_name s in
  match hub_info s !! hub_name with
  | None => out = (Raise AssertionError, s)
  | Some None => out = (Raise KeyError, s)
  | Some (Some comp_data) =>
      hub_info (snd out) = <[hub_name := None]> (hub_info s) /\
      process_hub svd_fit norm pdb_file file_name (snd out) = (Raise KeyError, snd out)
  end.
Proof.
  intros Hfile Hmove hub_name out.
  assert (Hgone : forall t, hub_info t !! hub_name = Some None ->
            process_hub svd_fit norm pdb_file file_name t = (Raise KeyError, t)).
  { intros t Ht. unfold process_hub, bind, lift, gets, read_pdb.
    rewrite Hfile. simpl. rewrite Hmove. fold hub_name. rewrite Ht. reflexivity. }
  destruct (hub_info s !! hub_name) as [[comp_data|]|] eqn:E.
  - assert (Hinfo : hub_info (snd out) = <[hub_name := None]> (hub_info s)).
    { subst out. unfold process_hub, bind at 1, lift at 1, read_pdb.
      rewrite Hfile. cbn [rbind]. unfold bind at 1, lift at 1. rewrite Hmove.
      unfold bind at 1, gets at 1. unfold bind at 1, lift at 1.
      fold hub_name. rewrite E.
      unfold bind at 1, lift at 1. unfold bind at 1, modify at 1.
      match goal with
      | |- hub_info (snd (?m ?t)) = _ =>
          transitivity (hub_info t); [|reflexivity];
          generalize t; change (keeps hub_info m)
      end.
      repeat first
        [ apply keeps_for_each; intros; apply keeps_hub_chain_body; intros; reflexivity
        | keeps_step ]. }
    split; [exact Hinfo|]. apply Hgone. rewrite Hinfo. apply lookup_insert_eq.
  - apply Hgone, E.
  - subst out. unfold process_hub, bind, lift, gets, read_pdb.
    rewrite Hfile. simpl. rewrite Hmove. fold hub_name. rewrite E. reflexivity.
Qed.

(** *** Doubles of unprocessed singles *)

(** X11: a double whose first single is not in the cache of singles makes
    [process_double] raise [AttributeError]: the read of the cache, a
    [defaultdict], answers with an empty dictionary and leaves it in the
    cache; the module table, the edges and the aligned files stay as they
    were. *)
Theorem process_double_unknown_single
    (file_name : string) (ms : list Model) (a b : string) (s : XDBGenerator) :
  pdb_file file_name = Ok ms ->
  length (get_chains (mkStructure ms None)) = 1%nat ->
  split_double_name (module_name file_name) = Ok (a, b) ->
  single_pdbs s !! a = None ->
  exists s',
    process_double svd_fit linalg_inv pdb_file file_name s = (Raise AttributeError, s') /\
    single_pdbs s' !! a = Some EmptyDict /\
    (forall n, n <> a -> n <> b -> single_pdbs s' !! n = single_pdbs s !! n) /\
    singles s' = singles s /\ n_to_c_tx s' = n_to_c_tx s /\
    aligned_files s' = aligned_files s.
Proof.
  intros Hfile Hlen Hnames Ha.
  unfold process_double, bind at 1, lift at 1, read_pdb. rewrite Hfile. cbn [rbind].
  unfold bind at 1, lift at 1. rewrite Hlen. cbn [Nat.eqb py_assert].
  unfold bind at 1, lift at 1. rewrite Hnames. cbn [fst snd].
  unfold bind at 1, single_pdbs_get at 1. rewrite Ha.
  set (s1 := set_single_pdbs (fun m => <[a := EmptyDict]> m) s).
  unfold bind at 1, single_pdbs_get at 1.
  destruct (single_pdbs s1 !! b) as [p|] eqn:Eb.
  - exists s1. split; [reflexivity|]. subst s1. simpl.
    split; [apply lookup_insert_eq|]. split; [|repeat split].
    intros n Hn _. apply lookup_insert_ne. congruence.
  - eexists. split; [reflexivity|]. subst s1. simpl.
    split; [|split; [|repeat split]].
    + destruct (decide (b = a)) as [->|Hne]; [apply lookup_insert_eq|].
      rewrite lookup_insert_ne by exact Hne. apply lookup_insert_eq.
    + intros n Hn Hb. rewrite !lookup_insert_ne by congruence. reflexivity.
Qed.

End FailureProperties2.

(** ** What a completed step has done *)

Lemma single_pdbs_get_loaded name s p s' st :
  single_pdbs_get name s = (Ok p, s') -> slot_structure p = Ok st ->
  s' = s /\ single_pdbs s !! name = Some (Loaded st) /\ p = Loaded st.
Proof.
  unfold single_pdbs_get. destruct (single_pdbs s !! name) as [q|] eqn:E; intros H Hp.
  - injection H as -> <-. destruct p; [|discriminate]. injection Hp as ->. auto.
  - injection H as <- _. discriminate.
Qed.

(** Inversion that keeps what each statement read. *)
Ltac pinv_step :=
  match goal with
  | H : bind _ _ _ = (Ok _, _) |- _ =>
      let a := fresh "v" in let s1 := fresh "s" in let H1 := fresh "E" in
      apply bind_ok in H; destruct H as (a & s1 & H1 & H); cbv beta zeta in H, H1
  | H : lift _ _ = (Ok _, _) |- _ => apply lift_ok in H; destruct H as [H ->]
  | H : gets _ _ = (Ok _, _) |- _ => apply gets_ok in H; destruct H as [-> ->]
  | H : modify _ _ = (Ok _, _) |- _ => apply modify_ok in H; subst
  | H : ret _ _ = (Ok _, _) |- _ => apply ret_ok in H; destruct H as [-> ->]
  | H : save_pdb _ _ _ = (Ok _, _) |- _ => unfold save_pdb in H
  | H : single_pdbs_get ?n ?s = (Ok ?p, ?s'), H2 : slot_structure ?p = Ok ?st |- _ =>
      let Hs := fresh "Hslot" in
      destruct (single_pdbs_get_loaded H H2) as (-> & Hs & ->); clear H H2
  | H : single_side_get _ _ _ _ _ = (Ok _, _) |- _ =>
      let m := fresh "m" in let ch := fresh "ch" in
      let Hm := fresh "Hm" in let Hch := fresh "Hch" in let Hid := fresh "Hid" in
      apply single_side_get_ok in H; destruct H as [-> (m & ch & Hm & Hch & Hid)]
  end.
Ltac pinv := repeat pinv_step.

(** The fields of a state written with the setters. *)
Ltac fsimpl :=
  cbn [aligned_pdb_dir hub_info singles hubs n_to_c_tx hub_tx single_pdbs double_pdbs
       aligned_files out_written issued
       set_singles set_hubs set_hub_info set_n_to_c_tx set_hub_tx set_single_pdbs
       set_double_pdbs set_aligned_files set_out_written set_issued] in *.

Section StepProperties.

Variable svd_fit : list vec3 -> list vec3 -> result (mat3 * vec3).
Variable linalg_inv : mat4 -> result mat4.
Variable norm : vec3 -> Q.
Variable pdb_file : string -> result (list Model).

Lemma get_centre_of_mass_fits child mother o1 o2 c v :
  get_centre_of_mass svd_fit child (Some mother) o1 o2 c = Ok v ->
  exists rt, get_rot_trans svd_fit child "A" mother "A" o1 o2 c = Ok rt.
Proof.
  unfold get_centre_of_mass. intros H. apply rbind_ok in H. destruct H as (cas & _ & H).
  apply rbind_ok in H. destruct H as (rt & H & _). eauto.
Qed.

(** Everything a completed [process_double] read, computed and wrote. *)
Lemma process_double_ok file_name s s' :
  process_double svd_fit linalg_inv pdb_file file_name s = (Ok tt, s') ->
  exists raw a b sa sb rc_a rc_b double rt1 rt inv a_id b_id t1,
    read_pdb pdb_file file_name = Ok raw /\
    length (get_chains raw) = 1%nat /\
    split_double_name (module_name file_name) = Ok (a, b) /\
    single_pdbs s !! a = Some (Loaded sa) /\
    single_pdbs s !! b = Some (Loaded sb) /\
    get_pdb_residue_count sa = Ok rc_a /\
    get_pdb_residue_count sb = Ok rc_b /\
    align svd_fit raw sa (rc_a_half rc_a - fusion_count rc_a dbl_fusion_factor)
          (rc_a_half rc_a - fusion_count rc_a dbl_fusion_factor)
          (fusion_count rc_a dbl_fusion_factor) = Ok double /\
    get_rot_trans svd_fit sb "A" double "A"
          (rc_b_half rc_b - fusion_count rc_b dbl_fusion_factor)
          (rc_a + rc_b_half rc_b - fusion_count rc_b dbl_fusion_factor)
          (fusion_count rc_b dbl_fusion_factor) = Ok rt1 /\
    get_rot_trans svd_fit double "A" sb "A"
          (rc_a + rc_b_half rc_b - fusion_count rc_b dbl_fusion_factor)
          (rc_b_half rc_b - fusion_count rc_b dbl_fusion_factor)
          (fusion_count rc_b dbl_fusion_factor) = Ok rt /\
    linalg_inv (homogeneous (transpose (fst rt)) (snd rt)) = Ok inv /\
    first_chain_id sa = Ok a_id /\
    first_chain_id sb = Ok b_id /\
    (exists t0 t2,
        singles t0 = singles s /\
        single_side_set a a_id SideC (b, b_id) (length (n_to_c_tx s)) t0 = (Ok tt, t1) /\
        single_side_set b b_id SideN (a, a_id) (length (n_to_c_tx s)) t1 = (Ok tt, t2) /\
        singles s' = singles t2) /\
    n_to_c_tx s' = n_to_c_tx s ++ [create_tx a a_id b b_id (m_rot inv) (m_col inv)] /\
    double_pdbs s' = <[(a, b) := double]> (double_pdbs s) /\
    aligned_files s'
      = <[(aligned_pdb_dir s +:+ "/doubles/" +:+ module_name file_name +:+ ".pdb")%string
          := double]> (aligned_files s) /\
    single_pdbs s' = single_pdbs s /\ hub_tx s' = hub_tx s /\ hubs s' = hubs s /\
    hub_info s' = hub_info s /\ aligned_pdb_dir s' = aligned_pdb_dir s /\
    out_written s' = out_written s.
Proof.
  intros H. unfold process_double in H. pinv.
  match goal with
  | E : split_double_name _ = Ok ?names |- _ => destruct names as [a b]
  end.
  cbn [fst snd] in *.
  match goal with
  | E : py_assert (Nat.eqb ?n 1) = Ok _ |- _ =>
      assert (Hone : n = 1%nat)
        by (destruct (Nat.eqb_spec n 1); [assumption|discriminate E])
  end.
  match goal with
  | E : get_centre_of_mass _ _ _ _ _ _ = Ok _ |- _ =>
      destruct (get_centre_of_mass_fits E) as [rt1 Hrt1]
  end.
  fsimpl.
  match goal with
  | S1 : single_side_set _ _ SideC _ _ ?t0 = (Ok ?u1, ?t1),
    S2 : single_side_set _ _ SideN _ _ ?t1 = (Ok ?u2, ?t2) |- _ =>
      destruct u1, u2;
      pose proof (single_side_set_frame S1) as [fS1 HfS1];
      pose proof (single_side_set_frame S2) as [fS2 HfS2]
  end.
  do 14 eexists.
  repeat match goal with |- _ /\ _ => split end.
  all: try eassumption.
  - do 2 eexists. split; [|split; [eassumption|split; [eassumption|reflexivity]]].
    reflexivity.
  - rewrite HfS2, HfS1. reflexivity.
  - rewrite HfS2, HfS1. reflexivity.
  - rewrite HfS2, HfS1. reflexivity.
  - rewrite HfS2, HfS1. reflexivity.
  - rewrite HfS2, HfS1. reflexivity.
  - rewrite HfS2, HfS1. reflexivity.
  - rewrite HfS2, HfS1. reflexivity.
  - rewrite HfS2, HfS1. reflexivity.
  - rewrite HfS2, HfS1. reflexivity.
Qed.


(** *** The windows of a completed process_double *)

Lemma py_slice_no_count {A} (l : list A) (o : Z) : py_slice l o (o + 0) = [].
Proof. unfold py_slice. rewrite Z.add_0_r, Z.sub_diag. reflexivity. Qed.

Lemma py_slice_full {A} (l : list A) (o c : Z) :
  (0 <= o)%Z -> (0 < c)%Z ->
  length (py_slice l o (o + c)) = Z.to_nat c ->
  (o + c <= Z.of_nat (length l))%Z.
Proof.
  intros Ho Hc. unfold py_slice, py_clamp.
  destruct (Z.ltb_spec o 0); [lia|]. destruct (Z.ltb_spec (o + c) 0); [lia|].
  rewrite length_take, length_drop. lia.
Qed.

Lemma get_rot_trans_ok moving mc fixed fc mo fo cnt rt :
  rejects_empty svd_fit ->
  get_rot_trans svd_fit moving mc fixed fc mo fo cnt = Ok rt ->
  exists cm cf,
    get_chain moving mc = Ok cm /\ get_chain fixed fc = Ok cf /\
    length (py_slice (residues cm) mo (mo + cnt))
      = length (py_slice (residues cf) fo (fo + cnt)) /\
    py_slice (residues cf) fo (fo + cnt) <> [].
Proof.
  intros Hrej H. unfold get_rot_trans in H.
  apply rbind_ok in H. destruct H as (cm & Hcm & H).
  apply rbind_ok in H. destruct H as (ma & Hma & H).
  apply rbind_ok in H. destruct H as (cf & Hcf & H).
  apply rbind_ok in H. destruct H as (fa & Hfa & H).
  exists cm, cf. split; [exact Hcm|]. split; [exact Hcf|].
  pose proof (rmap_ca_outcome (py_slice (residues cm) mo (mo + cnt))) as Lm.
  pose proof (rmap_ca_outcome (py_slice (residues cf) fo (fo + cnt))) as Lf.
  rewrite Hma in Lm. rewrite Hfa in Lf.
  unfold set_atoms in H. destruct (Nat.eqb_spec (length fa) (length ma)) as [E|]; [|discriminate].
  split; [congruence|]. intros Hnil. rewrite Hnil in Lf. destruct fa; [|discriminate Lf].
  exact (Hrej _ _ H).
Qed.

Lemma only_chain_count (st : Structure) (cid : string) (c : Chain) :
  length (get_chains st) = 1%nat -> get_chain st cid = Ok c ->
  get_pdb_residue_count st = Ok (Z.of_nat (length (residues c))) /\
  get_chains st = [c].
Proof.
  unfold get_chains, get_chain, get_pdb_residue_count, first_model.
  destruct (models st) as [|m ms]; [discriminate|]. cbn [map concat rbind].
  intros Hlen Hc.
  destruct (find _ (chains m)) as [c'|] eqn:Ef; [|discriminate]. injection Hc as ->.
  apply find_some in Ef. destruct Ef as [Hin _].
  rewrite length_app in Hlen.
  destruct (chains m) as [|c0 [|c1 l]]; [destruct Hin| |simpl in Hlen; lia].
  destruct Hin as [->|[]]. simpl in Hlen.
  destruct (concat (map chains ms)); [|simpl in Hlen; lia].
  split; [simpl; do 2 f_equal; lia|reflexivity].
Qed.

(** X12: when the superimposer rejects empty input and the two cached
    singles hold one chain each, a [process_double] that returns has
    fitted on whole windows only: single A has at least two residues,
    single B at least one, the double at least [rc_a + rc_b_half], and
    each of the four windows lies inside its chain with exactly
    [fusion_count] residues. *)
Theorem completed_double_windows_in_bounds
    (file_name : string) (s s' : XDBGenerator) (a b : string) (sa sb : Structure) :
  rejects_empty svd_fit ->
  process_double svd_fit linalg_inv pdb_file file_name s = (Ok tt, s') ->
  split_double_name (module_name file_name) = Ok (a, b) ->
  single_pdbs s !! a = Some (Loaded sa) ->
  single_pdbs s !! b = Some (Loaded sb) ->
  length (get_chains sa) = 1%nat ->
  length (get_chains sb) = 1%nat ->
  exists raw ca cb cd,
    read_pdb pdb_file file_name = Ok raw /\
    get_chain sa "A" = Ok ca /\ get_chain sb "A" = Ok cb /\ get_chain raw "A" = Ok cd /\
    let rc_a := Z.of_nat (length (residues ca)) in
    let rc_b := Z.of_nat (length (residues cb)) in
    let fusion_count_a := fusion_count rc_a dbl_fusion_factor in
    let fusion_count_b := fusion_count rc_b dbl_fusion_factor in
    (2 <= rc_a)%Z /\ (1 <= rc_b)%Z /\
    (rc_a + rc_b_half rc_b <= Z.of_nat (length (residues cd)))%Z /\
    window_ok (residues cd) (rc_a_half rc_a - fusion_count_a) fusion_count_a /\
    window_ok (residues ca) (rc_a_half rc_a - fusion_count_a) fusion_count_a /\
    window_ok (residues cb) (rc_b_half rc_b - fusion_count_b) fusion_count_b /\
    window_ok (residues cd) (rc_a + rc_b_half rc_b - fusion_count_b) fusion_count_b.
Proof.
  intros Hrej H Hnames Ha Hb Hone_a Hone_b.
  apply process_double_ok in H.
  destruct H as (raw & a' & b' & sa' & sb' & rc_a & rc_b & double & rt1 & rt & inv & a_id
                 & b_id & t1 & Hraw & _ & Hn' & Ha' & Hb' & Hrca & Hrcb & Hal & Hf1 & _).
  assert (a' = a /\ b' = b) as [-> ->] by (split; congruence).
  assert (sa' = sa) as -> by congruence. assert (sb' = sb) as -> by congruence.
  unfold align in Hal. apply rbind_ok in Hal. destruct Hal as (rt0 & Hf0 & Hdbl).
  injection Hdbl as <-.
  destruct (get_rot_trans_ok Hrej Hf0) as (cd & ca & Hcd & Hca & Hlen0 & Hne0).
  destruct (get_rot_trans_ok Hrej Hf1) as (cb & cd' & Hcb & Hcd' & Hlen1 & Hne1).
  rewrite get_chain_transform, Hcd in Hcd'. simpl in Hcd'. injection Hcd' as <-.
  cbn [transform_chain residues] in Hlen1, Hne1.
  destruct (only_chain_count Hone_a Hca) as [Hca_n _].
  destruct (only_chain_count Hone_b Hcb) as [Hcb_n _].
  assert (rc_a = Z.of_nat (length (residues ca))) as -> by congruence.
  assert (rc_b = Z.of_nat (length (residues cb))) as -> by congruence.
  exists raw, ca, cb, cd.
  split; [exact Hraw|]. split; [exact Hca|]. split; [exact Hcb|]. split; [exact Hcd|].
  intros rc_a rc_b fa fb. subst fa fb.
  assert (Ha2 : (2 <= rc_a)%Z).
  { subst rc_a. destruct (residues ca) as [|r [|r' l]].
    - exfalso. apply Hne0. vm_compute. reflexivity.
    - exfalso. apply Hne0. vm_compute. reflexivity.
    - simpl length. lia. }
  assert (Hb1 : (1 <= rc_b)%Z).
  { subst rc_b. destruct (residues cb) as [|r l]; [exfalso|simpl length; lia].
    apply Hne1.
    change (fusion_count (Z.of_nat (length (@nil Residue))) dbl_fusion_factor) with 0%Z.
    apply py_slice_no_count. }
  fold rc_a in Hlen0, Hne0, Hlen1, Hne1. fold rc_b in Hlen1, Hne1.
  destruct (@half_and_fusion rc_a ltac:(lia)) as (Ha8 & _ & _ & Hah0 & Hah2).
  specialize (Hah2 Ha2).
  destruct (@half_and_fusion rc_b Hb1) as (Hb8 & _ & Hbh & _ & _).
  assert (Wca : window_ok (residues ca)
                  (rc_a_half rc_a - fusion_count rc_a dbl_fusion_factor)
                  (fusion_count rc_a dbl_fusion_factor)).
  { apply window_ok_intro; fold rc_a; lia. }
  assert (Wcb : window_ok (residues cb)
                  (rc_b_half rc_b - fusion_count rc_b dbl_fusion_factor)
                  (fusion_count rc_b dbl_fusion_factor)).
  { apply window_ok_intro; fold rc_b; lia. }
  destruct Wca as (Wa1 & Wa2 & Wa3). destruct Wcb as (Wb1 & Wb2 & Wb3).
  rewrite Wa3 in Hlen0. rewrite Wb3 in Hlen1. symmetry in Hlen1.
  apply py_slice_full in Hlen0; [|lia|lia].
  apply py_slice_full in Hlen1; [|lia|lia]. rewrite length_map in Hlen1.
  split; [exact Ha2|]. split; [exact Hb1|]. split; [lia|].
  split; [apply window_ok_intro; lia|].
  split; [split; [|split]; assumption|].
  split; [split; [|split]; assumption|].
  apply window_ok_intro; lia.
Qed.


End StepProperties.

(** ** The edges of a hub *)

Section HubProperties.

Variable svd_fit : list vec3 -> list vec3 -> result (mat3 * vec3).
Variable linalg_inv : mat4 -> result mat4.
Variable norm : vec3 -> Q.
Variable pdb_file : string -> result (list Model).

Lemma hub_chain_lookup_frame s s' hub_name cid :
  hubs s' = hubs s -> hub_chain_lookup s' hub_name cid = hub_chain_lookup s hub_name cid.
Proof. unfold hub_chain_lookup. intros ->. reflexivity. Qed.

(** Everything a completed c-side hub edge read, computed and wrote. *)
Lemma hub_c_edge_ok hub hub_name cid comp_name b s s' :
  hub_c_edge svd_fit hub hub_name cid comp_name b s = (Ok tt, s') ->
  exists comp sb double comp_id b_id dbl_id pair rc_hub rc_a rt tip ch,
    single_pdbs s !! comp_name = Some (Loaded comp) /\
    single_pdbs s !! b = Some (Loaded sb) /\
    double_pdbs s !! (comp_name, b) = Some double /\
    first_chain_id comp = Ok comp_id /\
    first_chain_id sb = Ok b_id /\
    single_id s comp_name comp_id SideC (b, b_id) = Some dbl_id /\
    n_to_c_tx s !! dbl_id = Some pair /\
    get_chain_residue_count hub cid = Ok rc_hub /\
    get_pdb_residue_count comp = Ok rc_a /\
    get_rot_trans svd_fit double "A" hub cid
      (rc_a - fusion_count rc_a hub_fusion_factor)
      (rc_hub - fusion_count rc_a hub_fusion_factor)
      (fusion_count rc_a hub_fusion_factor) = Ok rt /\
    find_tip "c" hub cid = Ok tip /\
    hub_chain_lookup s hub_name cid = Some ch /\
    (forall hn c,
        hub_chain_lookup s' hn c
        = if decide (hn = hub_name /\ c = cid)
          then Some (hub_put_c_tip (TipVector tip)
                       (hub_put_c (b, b_id) (length (n_to_c_tx s) + length (hub_tx s)) ch))
          else hub_chain_lookup s hn c) /\
    (exists t0 t1,
        singles t0 = singles s /\
        single_side_set b b_id SideN (hub_name, cid)
                        (length (n_to_c_tx s) + length (hub_tx s)) t0 = (Ok tt, t1) /\
        singles s' = singles t1) /\
    hub_tx s'
      = hub_tx s ++
        [create_tx hub_name cid b b_id
           (m_rot (matmul (homogeneous (transpose (fst rt)) (snd rt))
                          (homogeneous (rot pair) (tran pair))))
           (m_col (matmul (homogeneous (transpose (fst rt)) (snd rt))
                          (homogeneous (rot pair) (tran pair))))] /\
    n_to_c_tx s' = n_to_c_tx s /\ single_pdbs s' = single_pdbs s /\
    double_pdbs s' = double_pdbs s /\ hub_info s' = hub_info s /\
    aligned_files s' = aligned_files s /\ aligned_pdb_dir s' = aligned_pdb_dir s.
Proof.
  intros H. unfold hub_c_edge in H. pinv. fsimpl.
  match goal with
  | U1 : hub_chain_update _ _ (hub_put_c _ _) ?t0 = (Ok ?u1, ?ta),
    U2 : hub_chain_update _ _ (hub_put_c_tip _) ?ta = (Ok ?u2, ?tb),
    S1 : single_side_set _ _ SideN _ _ ?tb = (Ok ?u3, ?tc) |- _ =>
      destruct u3;
      destruct (hub_chain_update_ok U1) as (hch & Hhch & [g1 Hg1] & Hlk1);
      destruct (hub_chain_update_ok U2) as (hch1 & Hhch1 & [g2 Hg2] & Hlk2);
      pose proof (single_side_set_frame S1) as [fS HfS];
      assert (Hfr : forall hn c, hub_chain_lookup tc hn c = hub_chain_lookup tb hn c)
        by (intros; apply hub_chain_lookup_frame; rewrite HfS; reflexivity)
  end.
  rewrite Hlk1, decide_True in Hhch1 by done. injection Hhch1 as <-.
  match goal with
  | E : dict_get _ _ = Ok _ |- _ =>
      unfold dict_get in E;
      match type of E with
      | match ?d !! ?k with _ => _ end = _ =>
          destruct (d !! k) as [dbl|] eqn:Edbl; [injection E as ->|discriminate E]
      end
  end.
  match goal with
  | E : list_get _ _ = Ok _ |- _ =>
      unfold list_get in E;
      match type of E with
      | match ?l !! ?i with _ => _ end = _ =>
          destruct (l !! i) as [pr|] eqn:Epair; [injection E as ->|discriminate E]
      end
  end.
  do 12 eexists.
  repeat match goal with |- _ /\ _ => split end.
  all: try eassumption.
  - reflexivity.
  - unfold single_id.
    match goal with
    | Hm : singles _ !! comp_name = Some _ |- _ => rewrite Hm
    end.
    match goal with
    | Hc : sm_chains _ !! _ = Some _ |- _ => rewrite Hc
    end. eassumption.
  - intros hn c.
    match goal with
    | |- hub_chain_lookup (set_hub_tx _ ?t) _ _ = ?rhs =>
        change (hub_chain_lookup t hn c = rhs)
    end.
    rewrite Hfr, Hlk2, Hlk1. destruct (decide _); reflexivity.
  - do 2 eexists. split; [|split; [eassumption|reflexivity]].
    rewrite Hg2, Hg1. reflexivity.
  - rewrite HfS, Hg2, Hg1. reflexivity.
  - rewrite HfS, Hg2, Hg1. reflexivity.
  - rewrite HfS, Hg2, Hg1. reflexivity.
  - rewrite HfS, Hg2, Hg1. reflexivity.
  - rewrite HfS, Hg2, Hg1. reflexivity.
  - rewrite HfS, Hg2, Hg1. reflexivity.
  - rewrite HfS, Hg2, Hg1. reflexivity.
Qed.

(** Everything a completed n-side hub edge read, computed and wrote. *)
Lemma hub_n_edge_ok hub hub_name cid comp_name a s s' :
  hub_n_edge svd_fit hub hub_name cid comp_name a s = (Ok tt, s') ->
  exists sa comp double a_id rc_a rc_b rt tip ch,
    single_pdbs s !! a = Some (Loaded sa) /\
    single_pdbs s !! comp_name = Some (Loaded comp) /\
    double_pdbs s !! (a, comp_name) = Some double /\
    first_chain_id sa = Ok a_id /\
    get_pdb_residue_count sa = Ok rc_a /\
    get_pdb_residue_count comp = Ok rc_b /\
    get_rot_trans svd_fit double "A" hub cid rc_a 0
      (fusion_count rc_b hub_fusion_factor) = Ok rt /\
    find_tip "n" hub cid = Ok tip /\
    hub_chain_lookup s hub_name cid = Some ch /\
    (forall hn c,
        hub_chain_lookup s' hn c
        = if decide (hn = hub_name /\ c = cid)
          then Some (hub_put_n_tip (TipVector tip)
                       (hub_put_n (a, a_id) (length (n_to_c_tx s) + length (hub_tx s)) ch))
          else hub_chain_lookup s hn c) /\
    (exists t0 t1,
        singles t0 = singles s /\
        single_side_set a a_id SideC (hub_name, cid)
                        (length (n_to_c_tx s) + length (hub_tx s)) t0 = (Ok tt, t1) /\
        singles s' = singles t1) /\
    hub_tx s' = hub_tx s ++ [create_tx a a_id hub_name cid (transpose (fst rt)) (snd rt)] /\
    n_to_c_tx s' = n_to_c_tx s /\ single_pdbs s' = single_pdbs s /\
    double_pdbs s' = double_pdbs s /\ hub_info s' = hub_info s /\
    aligned_files s' = aligned_files s /\ aligned_pdb_dir s' = aligned_pdb_dir s.
Proof.
  intros H. unfold hub_n_edge in H. pinv. fsimpl.
  match goal with
  | S1 : single_side_set _ _ SideC _ _ ?t0 = (Ok ?u3, ?ta),
    U1 : hub_chain_update _ _ (hub_put_n _ _) ?ta = (Ok ?u1, ?tb),
    U2 : hub_chain_update _ _ (hub_put_n_tip _) ?tb = (Ok ?u2, ?tc) |- _ =>
      destruct u3;
      pose proof (single_side_set_frame S1) as [fS HfS];
      destruct (hub_chain_update_ok U1) as (hch & Hhch & [g1 Hg1] & Hlk1);
      destruct (hub_chain_update_ok U2) as (hch1 & Hhch1 & [g2 Hg2] & Hlk2);
      assert (Hfr : forall hn c, hub_chain_lookup ta hn c = hub_chain_lookup s hn c)
        by (intros; apply hub_chain_lookup_frame; rewrite HfS; reflexivity)
  end.
  rewrite Hlk1, decide_True in Hhch1 by done. injection Hhch1 as <-.
  rewrite Hfr in Hhch.
  match goal with
  | E : dict_get _ _ = Ok _ |- _ =>
      unfold dict_get in E;
      match type of E with
      | match ?d !! ?k with _ => _ end = _ =>
          destruct (d !! k) as [dbl|] eqn:Edbl; [injection E as ->|discriminate E]
      end
  end.
  do 9 eexists.
  repeat match goal with |- _ /\ _ => split end.
  all: try eassumption.
  - reflexivity.
  - intros hn c.
    match goal with
    | |- hub_chain_lookup (set_hub_tx _ ?t) _ _ = ?rhs =>
        change (hub_chain_lookup t hn c = rhs)
    end.
    rewrite Hlk2, Hlk1, Hfr. destruct (decide _); reflexivity.
  - do 2 eexists. split; [|split; [eassumption|]]; [reflexivity|].
    rewrite Hg2, Hg1. reflexivity.
  - rewrite Hg2, Hg1, HfS. reflexivity.
  - rewrite Hg2, Hg1, HfS. reflexivity.
  - rewrite Hg2, Hg1, HfS. reflexivity.
  - rewrite Hg2, Hg1, HfS. reflexivity.
  - rewrite Hg2, Hg1, HfS. reflexivity.
  - rewrite Hg2, Hg1, HfS. reflexivity.
  - rewrite Hg2, Hg1, HfS. reflexivity.
Qed.

(** X13: the transform of a c-side hub edge is the composition of the
    stored pair transform with the fit of the double onto the hub: with
    [pair] the edge whose id the component holds for the partner, and
    [(r, t)] the fit, the recorded rotation is [r^T . rot pair] and the
    recorded translation [r^T . tran pair + t]. *)
Theorem hub_c_edge_composes hub hub_name cid comp_name b s s' :
  hub_c_edge svd_fit hub hub_name cid comp_name b s = (Ok tt, s') ->
  exists tx pair dbl_id comp_id b_id double rc_a rc_hub rt,
    hub_tx s' = hub_tx s ++ [tx] /\
    single_id s comp_name comp_id SideC (b, b_id) = Some dbl_id /\
    n_to_c_tx s !! dbl_id = Some pair /\
    double_pdbs s !! (comp_name, b) = Some double /\
    get_rot_trans svd_fit double "A" hub cid
      (rc_a - fusion_count rc_a hub_fusion_factor)
      (rc_hub - fusion_count rc_a hub_fusion_factor)
      (fusion_count rc_a hub_fusion_factor) = Ok rt /\
    meq (rot tx) (mmul (transpose (fst rt)) (rot pair)) /\
    veq (tran tx) (vadd (mat_vec (transpose (fst rt)) (tran pair)) (snd rt)).
Proof.
  intros H. apply hub_c_edge_ok in H.
  destruct H as (comp & sb & double & comp_id & b_id & dbl_id & pair & rc_hub & rc_a & rt
                 & tip & ch & _ & _ & Hd & _ & _ & Hid & Hpair & _ & _ & Hrt & _ & _ & _ & _
                 & Htx & _).
  destruct (matmul_homogeneous (transpose (fst rt)) (rot pair) (snd rt) (tran pair))
    as (Hr & Ht & _).
  eexists _, pair, dbl_id, comp_id, b_id, double, rc_a, rc_hub, rt.
  split; [exact Htx|]. split; [exact Hid|]. split; [exact Hpair|]. split; [exact Hd|].
  split; [exact Hrt|]. split; [exact Hr|exact Ht].
Qed.

(** *** The edges and tips a completed process_hub leaves *)

Lemma process_hub_ok file_name s s' :
  process_hub svd_fit norm pdb_file file_name s = (Ok tt, s') ->
  let hub_name := strip_pdb (basename file_name) in
  exists raw hub comp_data chains r s1,
    read_pdb pdb_file file_name = Ok raw /\
    move_to_origin svd_fit raw = Ok hub /\
    hub_info s !! hub_name = Some (Some comp_data) /\
    hub_chains_init comp_data hub = Ok chains /\
    get_radii norm hub = Ok r /\
    for_each comp_data (hub_chain_body svd_fit hub hub_name)
      (set_hubs (fun t => <[hub_name := mkHubModule chains r]> t)
         (set_hub_info (fun t => <[hub_name := None]> t) s)) = (Ok tt, s1) /\
    s' = set_aligned_files
           (fun fs => <[(aligned_pdb_dir s1 +:+ "/hubs/" +:+ hub_name +:+ ".pdb")%string
                        := hub]> fs) s1.
Proof.
  intros H hub_name. unfold process_hub in H. fold hub_name in H. pinv.
  match goal with
  | E : match hub_info s !! hub_name with _ => _ end = Ok ?m |- _ =>
      destruct (hub_info s !! hub_name) as [meta|] eqn:Einfo; [|discriminate E];
      injection E as ->
  end.
  match goal with
  | E : match ?m with Some _ => _ | None => _ end = Ok _ |- _ =>
      destruct m as [cd|]; [injection E as ->|discriminate E]
  end.
  match goal with
  | E : for_each _ _ _ = (Ok ?u, _) |- _ => destruct u
  end.
  do 6 eexists. repeat match goal with |- _ /\ _ => split end; try eassumption; reflexivity.
Qed.

Lemma for_each_appends {A K} (R : K -> tx_entry -> Prop) (plan : A -> list K)
    (txs : list tx_entry) (l : list A) (body : A -> M unit) :
  (forall x t t', n_to_c_tx t = txs -> body x t = (Ok tt, t') ->
     exists new, hub_tx t' = hub_tx t ++ new /\ n_to_c_tx t' = txs /\
                 Forall2 R (plan x) new) ->
  forall s s', n_to_c_tx s = txs -> for_each l body s = (Ok tt, s') ->
    exists new, hub_tx s' = hub_tx s ++ new /\ n_to_c_tx s' = txs /\
                Forall2 R (flat_map plan l) new.
Proof.
  intros Hbody. induction l as [|x l IH]; intros s s' Hs H; simpl in H.
  - apply ret_ok in H. destruct H as [_ ->]. exists []. rewrite app_nil_r.
    split; [reflexivity|]. split; [exact Hs|constructor].
  - apply bind_ok in H. destruct H as ([] & s1 & H1 & H2).
    destruct (Hbody x s s1 Hs H1) as (new1 & Ht1 & Hn1 & Hf1).
    destruct (IH s1 s' Hn1 H2) as (new2 & Ht2 & Hn2 & Hf2).
    exists (new1 ++ new2). rewrite Ht2, Ht1, <- app_assoc.
    split; [reflexivity|]. split; [exact Hn2|].
    simpl. apply Forall2_app; assumption.
Qed.

Lemma flat_map_singletons {A B} (f : A -> B) (l : list A) :
  flat_map (fun x => [f x]) l = map f l.
Proof. induction l as [|x l IH]; simpl; [reflexivity|rewrite IH; reflexivity]. Qed.

Lemma hub_chain_body_plan hub hub_name item txs s s' :
  n_to_c_tx s = txs ->
  hub_chain_body svd_fit hub hub_name item s = (Ok tt, s') ->
  exists new, hub_tx s' = hub_tx s ++ new /\ n_to_c_tx s' = txs /\
              Forall2 (edge_matches hub_name) (hub_plan_item txs item) new.
Proof.
  intros Hs H. unfold hub_chain_body in H.
  apply bind_ok in H. destruct H as ([] & s1 & Hc & Hn).
  assert (Gc : exists new, hub_tx s1 = hub_tx s ++ new /\ n_to_c_tx s1 = txs /\
                 Forall2 (edge_matches hub_name)
                   (if c_free (snd item)
                    then map (CEdge (fst item)) (b_names txs (single_name (snd item)))
                    else []) new).
  { destruct (c_free (snd item)).
    - apply bind_ok in Hc. destruct Hc as (txs' & s0 & Hg & Hc).
      apply gets_ok in Hg. destruct Hg as [-> ->]. rewrite Hs in Hc.
      rewrite <- flat_map_singletons.
      refine (for_each_appends (R := edge_matches hub_name) _ Hs Hc).
      intros b t t' Ht Hb. apply hub_c_edge_ok in Hb.
      destruct Hb as (? & ? & ? & ? & b_id & ? & ? & ? & ? & ? & ? & ? & _ & _ & _ & _ & _
                      & _ & _ & _ & _ & _ & _ & _ & _ & _ & Htx & Hn' & _).
      eexists. split; [exact Htx|]. split; [congruence|].
      constructor; [|constructor]. simpl. auto.
    - apply ret_ok in Hc. destruct Hc as [_ ->]. exists []. rewrite app_nil_r.
      split; [reflexivity|]. split; [exact Hs|constructor]. }
  destruct Gc as (new1 & Ht1 & Hn1 & Hf1).
  assert (Gn : exists new, hub_tx s' = hub_tx s1 ++ new /\ n_to_c_tx s' = txs /\
                 Forall2 (edge_matches hub_name)
                   (if n_free (snd item)
                    then map (NEdge (fst item)) (a_names txs (single_name (snd item)))
                    else []) new).
  { destruct (n_free (snd item)).
    - apply bind_ok in Hn. destruct Hn as (txs' & s0 & Hg & Hn).
      apply gets_ok in Hg. destruct Hg as [-> ->]. rewrite Hn1 in Hn.
      rewrite <- flat_map_singletons.
      refine (for_each_appends (R := edge_matches hub_name) _ Hn1 Hn).
      intros a t t' Ht Ha. apply hub_n_edge_ok in Ha.
      destruct Ha as (? & ? & ? & a_id & ? & ? & ? & ? & ? & _ & _ & _ & _ & _
                      & _ & _ & _ & _ & _ & _ & Htx & Hn' & _).
      eexists. split; [exact Htx|]. split; [congruence|].
      constructor; [|constructor]. simpl. auto.
    - apply ret_ok in Hn. destruct Hn as [_ ->]. exists []. rewrite app_nil_r.
      split; [reflexivity|]. split; [exact Hn1|constructor]. }
  destruct Gn as (new2 & Ht2 & Hn2 & Hf2).
  exists (new1 ++ new2). rewrite Ht2, Ht1, <- app_assoc.
  split; [reflexivity|]. split; [exact Hn2|].
  unfold hub_plan_item. apply Forall2_app; assumption.
Qed.

(** X14: a [process_hub] that returns has appended to [hub_tx] exactly the
    planned edges, in order: for each chain of the component data, one
    edge from the hub chain to each partner of its single in a pair edge
    if the chain is [c_free], then one edge to the hub chain from each
    partner if it is [n_free]; the pair list is left as it was.  Every hub
    edge therefore has the hub at one end and, at the other, a unit named
    in a pair edge. *)
Theorem process_hub_records_plan file_name s s' comp_data :
  process_hub svd_fit norm pdb_file file_name s = (Ok tt, s') ->
  hub_info s !! strip_pdb (basename file_name) = Some (Some comp_data) ->
  exists new,
    hub_tx s' = hub_tx s ++ new /\ n_to_c_tx s' = n_to_c_tx s /\
    Forall2 (edge_matches (strip_pdb (basename file_name)))
            (hub_plan (n_to_c_tx s) comp_data) new.
Proof.
  intros H Hinfo. apply process_hub_ok in H. cbv zeta in H.
  destruct H as (raw & hub & cd' & chains & r & s1 & _ & _ & Hinfo' & _ & _ & Hloop & ->).
  assert (cd' = comp_data) as -> by congruence.
  assert (Hbody : forall item t t',
             n_to_c_tx t = n_to_c_tx s ->
             hub_chain_body svd_fit hub (strip_pdb (basename file_name)) item t = (Ok tt, t') ->
             exists new, hub_tx t' = hub_tx t ++ new /\ n_to_c_tx t' = n_to_c_tx s /\
                         Forall2 (edge_matches (strip_pdb (basename file_name)))
                                 (hub_plan_item (n_to_c_tx s) item) new).
  { intros item t t' Ht Hb. exact (hub_chain_body_plan Ht Hb). }
  pose proof (fun Hs => for_each_appends Hbody (l := comp_data) Hs Hloop) as G.
  destruct (G eq_refl) as (new & Ht & Hn & Hf).
  exists new. split; [exact Ht|]. split; [exact Hn|exact Hf].
Qed.

Lemma for_each_last {A} (Q : XDBGenerator -> Prop) (l : list A) (body : A -> M unit) :
  l <> [] ->
  (forall x t t', body x t = (Ok tt, t') -> Q t') ->
  forall s s', for_each l body s = (Ok tt, s') -> Q s'.
Proof.
  intros Hne Hbody. induction l as [|x l IH]; [congruence|]. intros s s' H. simpl in H.
  apply bind_ok in H. destruct H as ([] & s1 & H1 & H2).
  destruct l as [|y l].
  - simpl in H2. apply ret_ok in H2. destruct H2 as [_ ->]. exact (Hbody x s s1 H1).
  - apply (IH ltac:(discriminate) s1 s' H2).
Qed.

Lemma for_each_reach {A} (I Q : XDBGenerator -> Prop) (x : A) (l : list A)
    (body : A -> M unit) :
  In x l ->
  (forall y t t', I t -> body y t = (Ok tt, t') -> I t') ->
  (forall t t', I t -> body x t = (Ok tt, t') -> Q t') ->
  (forall y t t', Q t -> body y t = (Ok tt, t') -> Q t') ->
  forall s s', I s -> for_each l body s = (Ok tt, s') -> Q s'.
Proof.
  intros Hin HI Hx HQ. induction l as [|y l IH]; [destruct Hin|].
  intros s s' Hs H. simpl in H.
  apply bind_ok in H. destruct H as ([] & s1 & H1 & H2).
  destruct Hin as [->|Hin].
  - apply (for_each_ok (I := Q) (l := l) (body := body)) with (s := s1); [|eauto|exact H2].
    intros z t t' _ Ht Hz. exact (HQ z t t' Ht Hz).
  - apply (IH Hin s1 s'); [exact (HI y s s1 Hs H1)|exact H2].
Qed.

(** The body of the loop over the component data is two loops. *)
Lemma hub_chain_body_split hub hub_name item s s' :
  hub_chain_body svd_fit hub hub_name item s = (Ok tt, s') ->
  exists s1,
    for_each (if c_free (snd item)
              then b_names (n_to_c_tx s) (single_name (snd item)) else [])
             (hub_c_edge svd_fit hub hub_name (fst item) (single_name (snd item))) s
      = (Ok tt, s1) /\
    for_each (if n_free (snd item)
              then a_names (n_to_c_tx s1) (single_name (snd item)) else [])
             (hub_n_edge svd_fit hub hub_name (fst item) (single_name (snd item))) s1
      = (Ok tt, s').
Proof.
  intros H. unfold hub_chain_body in H.
  apply bind_ok in H. destruct H as ([] & s1 & Hc & Hn). exists s1. split.
  - destruct (c_free (snd item)).
    + apply bind_ok in Hc. destruct Hc as (txs' & s0 & Hg & Hc).
      apply gets_ok in Hg. destruct Hg as [-> ->]. exact Hc.
    + apply ret_ok in Hc. destruct Hc as [_ ->]. reflexivity.
  - destruct (n_free (snd item)).
    + apply bind_ok in Hn. destruct Hn as (txs' & s0 & Hg & Hn).
      apply gets_ok in Hg. destruct Hg as [-> ->]. exact Hn.
    + apply ret_ok in Hn. destruct Hn as [_ ->]. reflexivity.
Qed.

Lemma hub_c_edge_tip hub hub_name cid comp_name b s s' :
  hub_c_edge svd_fit hub hub_name cid comp_name b s = (Ok tt, s') ->
  n_to_c_tx s' = n_to_c_tx s /\
  tip_set hub hub_name cid SideC s' /\
  forall cid' sd, tip_set hub hub_name cid' sd s -> tip_set hub hub_name cid' sd s'.
Proof.
  intros H. apply hub_c_edge_ok in H.
  destruct H as (? & ? & ? & ? & b_id & ? & ? & ? & ? & ? & tip & ch & _ & _ & _ & _ & _
                 & _ & _ & _ & _ & _ & Htip & Hch & Hlk & _ & _ & Hn & _).
  split; [exact Hn|]. split.
  - eexists _, tip. rewrite Hlk, decide_True by done.
    split; [reflexivity|]. split; [reflexivity|exact Htip].
  - intros cid' sd (ch' & tip' & Hch' & Ht' & Hf'). unfold tip_set. rewrite Hlk.
    destruct (decide (hub_name = hub_name /\ cid' = cid)) as [[_ ->]|_].
    + assert (ch' = ch) as -> by congruence.
      destruct sd.
      * eexists _, tip'. split; [reflexivity|]. split; [exact Ht'|exact Hf'].
      * eexists _, tip. split; [reflexivity|]. split; [reflexivity|exact Htip].
    + exists ch', tip'. auto.
Qed.

Lemma hub_n_edge_tip hub hub_name cid comp_name a s s' :
  hub_n_edge svd_fit hub hub_name cid comp_name a s = (Ok tt, s') ->
  n_to_c_tx s' = n_to_c_tx s /\
  tip_set hub hub_name cid SideN s' /\
  forall cid' sd, tip_set hub hub_name cid' sd s -> tip_set hub hub_name cid' sd s'.
Proof.
  intros H. apply hub_n_edge_ok in H.
  destruct H as (? & ? & ? & a_id & ? & ? & ? & tip & ch & _ & _ & _ & _ & _
                 & _ & _ & Htip & Hch & Hlk & _ & _ & Hn & _).
  split; [exact Hn|]. split.
  - eexists _, tip. rewrite Hlk, decide_True by done.
    split; [reflexivity|]. split; [reflexivity|exact Htip].
  - intros cid' sd (ch' & tip' & Hch' & Ht' & Hf'). unfold tip_set. rewrite Hlk.
    destruct (decide (hub_name = hub_name /\ cid' = cid)) as [[_ ->]|_].
    + assert (ch' = ch) as -> by congruence.
      destruct sd.
      * eexists _, tip. split; [reflexivity|]. split; [reflexivity|exact Htip].
      * eexists _, tip'. split; [reflexivity|]. split; [exact Ht'|exact Hf'].
    + exists ch', tip'. auto.
Qed.

Lemma hub_loops_keep hub hub_name cid comp_name (I : XDBGenerator -> Prop) :
  (forall b t t', hub_c_edge svd_fit hub hub_name cid comp_name b t = (Ok tt, t') ->
                  I t -> I t') ->
  (forall a t t', hub_n_edge svd_fit hub hub_name cid comp_name a t = (Ok tt, t') ->
                  I t -> I t') ->
  forall lc ln s s1 s',
    for_each lc (hub_c_edge svd_fit hub hub_name cid comp_name) s = (Ok tt, s1) ->
    for_each ln (hub_n_edge svd_fit hub hub_name cid comp_name) s1 = (Ok tt, s') ->
    I s -> I s1 /\ I s'.
Proof.
  intros Hc Hn lc ln s s1 s' H1 H2 Hs.
  assert (I1 : I s1).
  { apply (for_each_ok (I := I) (l := lc)
             (body := hub_c_edge svd_fit hub hub_name cid comp_name)) with (s := s);
      [|exact Hs|exact H1]. intros b t t' _ Ht Hb. exact (Hc b t t' Hb Ht). }
  split; [exact I1|].
  apply (for_each_ok (I := I) (l := ln)
           (body := hub_n_edge svd_fit hub hub_name cid comp_name)) with (s := s1);
    [|exact I1|exact H2]. intros a t t' _ Ht Ha. exact (Hn a t t' Ha Ht).
Qed.

(** X15: a [process_hub] that returns has set the tip of every side it
    owes one: for a chain of the component data that is free at a side and
    whose single has a partner in a pair edge there, the tip of that side
    is the vector [find_tip] gives on the centred hub. *)
Theorem hub_tip_set_when_owed file_name s s' comp_data cid cd sd :
  process_hub svd_fit norm pdb_file file_name s = (Ok tt, s') ->
  hub_info s !! strip_pdb (basename file_name) = Some (Some comp_data) ->
  In (cid, cd) comp_data ->
  free_at sd cd = true ->
  partners sd (n_to_c_tx s) (single_name cd) <> [] ->
  exists raw hub,
    read_pdb pdb_file file_name = Ok raw /\
    move_to_origin svd_fit raw = Ok hub /\
    tip_set hub (strip_pdb (basename file_name)) cid sd s'.
Proof.
  intros H Hinfo Hin Hfree Hne. apply process_hub_ok in H. cbv zeta in H.
  destruct H as (raw & hub & cd' & chains & r & s1 & Hraw & Hhub & Hinfo' & _ & _ & Hloop & ->).
  assert (cd' = comp_data) as -> by congruence.
  exists raw, hub. split; [exact Hraw|]. split; [exact Hhub|].
  set (hub_name := strip_pdb (basename file_name)) in *.
  assert (Q : tip_set hub hub_name cid sd s1).
  { refine (for_each_reach (I := fun t => n_to_c_tx t = n_to_c_tx s)
              (Q := tip_set hub hub_name cid sd) Hin _ _ _ _ Hloop).
    - intros y t t' Ht Hy. apply hub_chain_body_split in Hy. destruct Hy as (t1 & Hc & Hn).
      apply (hub_loops_keep (I := fun u => n_to_c_tx u = n_to_c_tx s)) with (3 := Hc) (4 := Hn).
      + intros b u u' Hb Hu. apply hub_c_edge_tip in Hb. destruct Hb as [E _]. congruence.
      + intros a u u' Ha Hu. apply hub_n_edge_tip in Ha. destruct Ha as [E _]. congruence.
      + exact Ht.
    - intros t t' Ht Hx. apply hub_chain_body_split in Hx. destruct Hx as (t1 & Hc & Hn).
      cbn [fst snd] in Hc, Hn.
      assert (Ht1 : n_to_c_tx t1 = n_to_c_tx s).
      { apply (for_each_ok (I := fun u => n_to_c_tx u = n_to_c_tx s)) with (3 := Hc);
          [|exact Ht]. intros b u u' _ Hu Hb. apply hub_c_edge_tip in Hb.
        destruct Hb as [E _]. congruence. }
      destruct sd; cbn [free_at partners] in Hfree, Hne.
      + rewrite Hfree, Ht1 in Hn.
        refine (for_each_last (Q := tip_set hub hub_name cid SideN) Hne _ Hn).
        intros a u u' Ha. apply hub_n_edge_tip in Ha. tauto.
      + rewrite Hfree, Ht in Hc.
        assert (Q1 : tip_set hub hub_name cid SideC t1).
        { refine (for_each_last (Q := tip_set hub hub_name cid SideC) Hne _ Hc).
          intros b u u' Hb. apply hub_c_edge_tip in Hb. tauto. }
        apply (for_each_ok (I := tip_set hub hub_name cid SideC)) with (3 := Hn);
          [|exact Q1]. intros a u u' _ Hu Ha. apply hub_n_edge_tip in Ha.
        destruct Ha as (_ & _ & Hk). apply Hk, Hu.
    - intros y t t' Ht Hy. apply hub_chain_body_split in Hy. destruct Hy as (t1 & Hc & Hn).
      apply (hub_loops_keep (I := tip_set hub hub_name cid sd)) with (3 := Hc) (4 := Hn).
      + intros b u u' Hb Hu. apply hub_c_edge_tip in Hb. destruct Hb as (_ & _ & Hk).
        apply Hk, Hu.
      + intros a u u' Ha Hu. apply hub_n_edge_tip in Ha. destruct Ha as (_ & _ & Hk).
        apply Hk, Hu.
      + exact Ht.
    - reflexivity. }
  destruct Q as (ch & tip & Hch & Ht & Hf). exists ch, tip.
  split; [exact Hch|]. split; [exact Ht|exact Hf].
Qed.

End HubProperties.

(** ** The module table and the cache across a run *)

Lemma single_side_set_chains name cid sd key tx_id s u s' :
  single_side_set name cid sd key tx_id s = (Ok u, s') ->
  has_chain (singles s') name cid /\
  forall n c, has_chain (singles s) n c -> has_chain (singles s') n c.
Proof.
  unfold single_side_set, has_chain.
  destruct (singles s !! name) as [m|] eqn:Em.
  - assert (G : forall ch',
               has_chain (<[name := with_chain cid ch' m]> (singles s)) name cid /\
               forall n c, has_chain (singles s) n c ->
                           has_chain (<[name := with_chain cid ch' m]> (singles s)) n c).
    { intros ch'. unfold has_chain. split.
      - eexists. rewrite lookup_insert_eq. split; [reflexivity|].
        cbn [with_chain sm_chains]. rewrite lookup_insert_eq. eauto.
      - intros n c (m0 & Hm0 & Hc). destruct (decide (n = name)) as [->|Hn].
        + eexists. rewrite lookup_insert_eq. split; [reflexivity|].
          assert (m0 = m) as -> by congruence.
          cbn [with_chain sm_chains]. apply lookup_insert_is_Some.
          destruct (decide (cid = c)); [now left|right; split; assumption].
        + exists m0. rewrite lookup_insert_ne by done. split; assumption. }
    destruct (sm_chains m !! cid) as [ch|]; [|destruct (sm_vivified m)];
      intros H; try discriminate; inversion H; subst; clear H;
      cbn [singles set_singles]; apply G.
  - intros H. inversion H; subst; clear H. cbn [singles set_singles]. split.
    + eexists. rewrite lookup_insert_eq. split; [reflexivity|].
      cbn [sm_chains]. rewrite lookup_singleton_eq. eauto.
    + intros n c (m0 & Hm0 & Hc). exists m0. split; [|exact Hc].
      rewrite lookup_insert_ne; [exact Hm0|]. intros ->. congruence.
Qed.

Lemma has_hub_chain_lookup s name cid :
  has_hub_chain (hubs s) name cid <-> is_Some (hub_chain_lookup s name cid).
Proof.
  unfold has_hub_chain, hub_chain_lookup. split.
  - intros (m & -> & H). exact H.
  - destruct (hubs s !! name) as [m|]; [eauto|]. intros [? H]. discriminate H.
Qed.

Section TableProperties.

Variable svd_fit : list vec3 -> list vec3 -> result (mat3 * vec3).
Variable linalg_inv : mat4 -> result mat4.
Variable norm : vec3 -> Q.
Variable pdb_file : string -> result (list Model).

(** *** process_single *)

Lemma move_to_origin_chains raw single :
  move_to_origin svd_fit raw = Ok single ->
  at_origin single = Some true /\
  map chain_id (get_chains single) = map chain_id (get_chains raw).
Proof.
  unfold move_to_origin. intros H. apply rbind_ok in H. destruct H as (com & _ & H).
  injection H as <-. split; [reflexivity|].
  destruct com as [c|]; [|reflexivity].
  change (map chain_id (get_chains (transform identity3 (vneg c) raw))
          = map chain_id (get_chains raw)).
  rewrite get_chains_transform, map_map. reflexivity.
Qed.

Lemma process_single_ok file_name s s' :
  process_single svd_fit norm pdb_file file_name s = (Ok tt, s') ->
  exists raw single chain0 r,
    read_pdb pdb_file file_name = Ok raw /\
    get_chains raw = [chain0] /\
    move_to_origin svd_fit raw = Ok single /\
    get_radii norm single = Ok r /\
    s' = set_single_pdbs (fun t => <[module_name file_name := Loaded single]> t)
           (set_singles
              (fun t => <[module_name file_name :=
                            mkSingleModule
                              {[chain_id chain0 :=
                                  mkSingleChain ∅ ∅
                                    (Some (Z.of_nat (length (residues chain0))))]}
                              (Some r) false]> t)
              (set_aligned_files
                 (fun fs => <[(aligned_pdb_dir s +:+ "/singles/" +:+
                               module_name file_name +:+ ".pdb")%string := single]> fs)
                 s)).
Proof.
  intros H. unfold process_single in H. pinv.
  match goal with
  | E : py_assert (Nat.eqb ?n 1) = Ok _ |- _ =>
      assert (Hone : n = 1%nat)
        by (destruct (Nat.eqb_spec n 1); [assumption|discriminate E])
  end.
  match goal with
  | E : list_get (get_chains ?raw) 0 = Ok ?c |- _ =>
      assert (Hc : get_chains raw = [c])
        by (unfold list_get in E; destruct (get_chains raw) as [|c0 [|c1 l]];
            simpl in *; try discriminate; congruence)
  end.
  do 4 eexists. repeat match goal with |- _ /\ _ => split end; try eassumption.
  reflexivity.
Qed.

Lemma process_single_cache file_name s s' :
  process_single svd_fit norm pdb_file file_name s = (Ok tt, s') ->
  cache_ok s -> cache_ok s'.
Proof.
  intros H Hs. apply process_single_ok in H.
  destruct H as (raw & single & chain0 & r & _ & Hraw & Hmove & _ & ->).
  apply move_to_origin_chains in Hmove. destruct Hmove as [Horigin Hids].
  rewrite Hraw in Hids. simpl in Hids.
  intros name p. cbn [single_pdbs singles set_single_pdbs set_singles set_aligned_files].
  destruct (decide (name = module_name file_name)) as [->|Hn].
  - rewrite lookup_insert_eq. intros E. injection E as <-.
    destruct (get_chains single) as [|c [|c' l]] eqn:Ec; try discriminate Hids.
    injection Hids as Hid.
    exists single, c. split; [reflexivity|]. split; [exact Horigin|]. split; [exact Ec|].
    eexists. rewrite lookup_insert_eq. split; [reflexivity|].
    cbn [sm_chains]. rewrite Hid, lookup_singleton_eq. eauto.
  - rewrite lookup_insert_ne by done. intros E.
    destruct (Hs name p E) as (st & c & -> & Ho & Hc & (m & Hm & Hch)).
    exists st, c. split; [reflexivity|]. split; [exact Ho|]. split; [exact Hc|].
    exists m. rewrite lookup_insert_ne by done. split; assumption.
Qed.

(** *** process_double *)

Lemma process_double_chains file_name s s' :
  process_double svd_fit linalg_inv pdb_file file_name s = (Ok tt, s') ->
  exists tx,
    n_to_c_tx s' = n_to_c_tx s ++ [tx] /\ pair_edge_ok (singles s') tx /\
    (forall n c, has_chain (singles s) n c -> has_chain (singles s') n c) /\
    single_pdbs s' = single_pdbs s /\ hub_tx s' = hub_tx s /\
    hubs s' = hubs s /\ hub_info s' = hub_info s.
Proof.
  intros H. apply process_double_ok in H.
  destruct H as (raw & a & b & sa & sb & rc_a & rc_b & double & rt1 & rt & inv & a_id
                 & b_id & t1 & _ & _ & _ & _ & _ & _ & _ & _ & _ & _ & _ & _ & _
                 & (t0 & t2 & Ht0 & S1 & S2 & Hs') & Htx & _ & _ & Hp & Hh & Hhubs & Hinfo & _).
  apply single_side_set_chains in S1. destruct S1 as [Ha Hmono1].
  apply single_side_set_chains in S2. destruct S2 as [Hb Hmono2].
  rewrite Ht0 in Hmono1. rewrite <- Hs' in Hb, Hmono2.
  eexists. split; [exact Htx|]. split.
  - split; cbn [create_tx mod_a mod_a_chain mod_b mod_b_chain]; [apply Hmono2, Ha|exact Hb].
  - split; [intros n c Hc; apply Hmono2, Hmono1, Hc|]. repeat split; assumption.
Qed.

Lemma Forall_mono_edges {A} (P Q : A -> Prop) (l : list A) :
  (forall x, P x -> Q x) -> Forall P l -> Forall Q l.
Proof. intros H. induction 1; constructor; auto. Qed.

Lemma pair_edge_ok_mono sg sg' tx :
  (forall n c, has_chain sg n c -> has_chain sg' n c) ->
  pair_edge_ok sg tx -> pair_edge_ok sg' tx.
Proof. intros H [Ha Hb]. split; apply H; assumption. Qed.

Lemma hub_edge_ok_mono sg sg' hb hb' tx :
  (forall n c, has_chain sg n c -> has_chain sg' n c) ->
  (forall n c, has_hub_chain hb n c -> has_hub_chain hb' n c) ->
  hub_edge_ok sg hb tx -> hub_edge_ok sg' hb' tx.
Proof. intros H H' [[Ha Hb]|[Ha Hb]]; [left|right]; split; auto. Qed.

Lemma process_double_edges file_name s s' :
  process_double svd_fit linalg_inv pdb_file file_name s = (Ok tt, s') ->
  edges_ok s -> edges_ok s'.
Proof.
  intros H (Hp & Hh & Hc). apply process_double_chains in H.
  destruct H as (tx & Htx & Hok & Hmono & _ & Hhub & Hhubs & Hinfo).
  split; [|split].
  - rewrite Htx. apply Forall_app. split; [|constructor; [exact Hok|constructor]].
    revert Hp. apply Forall_mono_edges. intros x. apply pair_edge_ok_mono, Hmono.
  - rewrite Hhub, Hhubs. revert Hh. apply Forall_mono_edges. intros x.
    apply hub_edge_ok_mono; [exact Hmono|auto].
  - rewrite Hhubs, Hinfo. exact Hc.
Qed.

Lemma process_double_cache file_name s s' :
  process_double svd_fit linalg_inv pdb_file file_name s = (Ok tt, s') ->
  cache_ok s -> cache_ok s'.
Proof.
  intros H Hs. apply process_double_chains in H.
  destruct H as (tx & _ & _ & Hmono & Hp & _).
  intros name p. rewrite Hp. intros E.
  destruct (Hs name p E) as (st & c & -> & Ho & Hc & Hch).
  exists st, c. repeat split; try assumption. apply Hmono, Hch.
Qed.

(** *** process_hub *)

Lemma grows_refl s : grows s s.
Proof.
  repeat split; auto. exists []. rewrite app_nil_r. split; [reflexivity|constructor].
Qed.

Lemma grows_trans s1 s2 s3 : grows s1 s2 -> grows s2 s3 -> grows s1 s3.
Proof.
  intros (Hc1 & Hh1 & Hk1 & Hi1 & Hp1 & Hn1 & new1 & Ht1 & Hf1)
         (Hc2 & Hh2 & Hk2 & Hi2 & Hp2 & Hn2 & new2 & Ht2 & Hf2).
  split; [auto|]. split; [auto|]. split; [auto|].
  split; [congruence|]. split; [congruence|]. split; [congruence|].
  exists (new1 ++ new2). rewrite Ht2, Ht1, <- app_assoc. split; [reflexivity|].
  apply Forall_app. split; [|exact Hf2].
  revert Hf1. apply Forall_mono_edges. intros tx. apply hub_edge_ok_mono; assumption.
Qed.

Lemma hub_chain_update_keys hub_name cid f s u s' :
  hub_chain_update hub_name cid f s = (Ok u, s') ->
  forall n, is_Some (hubs s' !! n) -> is_Some (hubs s !! n).
Proof.
  unfold hub_chain_update. destruct (hubs s !! hub_name) as [m|] eqn:Em; [|discriminate].
  destruct (hm_chains m !! cid); [|discriminate].
  intros H; inversion H; subst; clear H. intros n. cbn [hubs set_hubs].
  destruct (decide (n = hub_name)) as [->|Hn].
  - intros _. rewrite Em. eauto.
  - rewrite lookup_insert_ne by done. auto.
Qed.

Lemma hub_c_edge_keys hub hub_name cid comp_name b s s' :
  hub_c_edge svd_fit hub hub_name cid comp_name b s = (Ok tt, s') ->
  forall n, is_Some (hubs s' !! n) -> is_Some (hubs s !! n).
Proof.
  intros H. unfold hub_c_edge in H. pinv. fsimpl.
  match goal with
  | U1 : hub_chain_update _ _ (hub_put_c _ _) ?t0 = (Ok ?u1, ?ta),
    U2 : hub_chain_update _ _ (hub_put_c_tip _) ?ta = (Ok ?u2, ?tb),
    S1 : single_side_set _ _ SideN _ _ ?tb = (Ok ?u3, ?tc) |- _ =>
      pose proof (hub_chain_update_keys U1) as K1;
      pose proof (hub_chain_update_keys U2) as K2;
      pose proof (single_side_set_frame S1) as [fS HfS]
  end.
  intros n Hn. rewrite HfS in Hn. fsimpl. apply K2, K1 in Hn. exact Hn.
Qed.

Lemma hub_n_edge_keys hub hub_name cid comp_name a s s' :
  hub_n_edge svd_fit hub hub_name cid comp_name a s = (Ok tt, s') ->
  forall n, is_Some (hubs s' !! n) -> is_Some (hubs s !! n).
Proof.
  intros H. unfold hub_n_edge in H. pinv. fsimpl.
  match goal with
  | S1 : single_side_set _ _ SideC _ _ ?t0 = (Ok ?u3, ?ta),
    U1 : hub_chain_update _ _ (hub_put_n _ _) ?ta = (Ok ?u1, ?tb),
    U2 : hub_chain_update _ _ (hub_put_n_tip _) ?tb = (Ok ?u2, ?tc) |- _ =>
      pose proof (hub_chain_update_keys U1) as K1;
      pose proof (hub_chain_update_keys U2) as K2;
      pose proof (single_side_set_frame S1) as [fS HfS]
  end.
  intros n Hn. apply K2, K1 in Hn. rewrite HfS in Hn. exact Hn.
Qed.

Lemma hub_lookup_grows s s' hub_name cid ch' :
  (forall hn c, hub_chain_lookup s' hn c
                = if decide (hn = hub_name /\ c = cid) then Some ch'
                  else hub_chain_lookup s hn c) ->
  has_hub_chain (hubs s') hub_name cid /\
  forall n c, has_hub_chain (hubs s) n c -> has_hub_chain (hubs s') n c.
Proof.
  intros Hlk. split.
  - apply has_hub_chain_lookup. rewrite Hlk, decide_True by done. eauto.
  - intros n c Hc. apply has_hub_chain_lookup. apply has_hub_chain_lookup in Hc.
    rewrite Hlk. destruct (decide _); [eauto|exact Hc].
Qed.

Lemma hub_c_edge_grows hub hub_name cid comp_name b s s' :
  hub_c_edge svd_fit hub hub_name cid comp_name b s = (Ok tt, s') -> grows s s'.
Proof.
  intros H. pose proof (hub_c_edge_keys H) as Hk. apply hub_c_edge_ok in H.
  destruct H as (? & ? & ? & ? & b_id & ? & ? & ? & ? & ? & tip & ch & _ & _ & _ & _ & _
                 & _ & _ & _ & _ & _ & _ & _ & Hlk & (t0 & t1 & Ht0 & S1 & Hs') & Htx & Hn
                 & Hp & _ & Hi & _).
  apply hub_lookup_grows in Hlk. destruct Hlk as [Hhub Hhmono].
  apply single_side_set_chains in S1. destruct S1 as [Hb Hmono].
  rewrite Ht0 in Hmono. rewrite <- Hs' in Hb, Hmono.
  split; [exact Hmono|]. split; [exact Hhmono|]. split; [exact Hk|].
  split; [exact Hi|]. split; [exact Hp|]. split; [exact Hn|].
  eexists. split; [exact Htx|]. constructor; [|constructor].
  left. split; assumption.
Qed.

Lemma hub_n_edge_grows hub hub_name cid comp_name a s s' :
  hub_n_edge svd_fit hub hub_name cid comp_name a s = (Ok tt, s') -> grows s s'.
Proof.
  intros H. pose proof (hub_n_edge_keys H) as Hk. apply hub_n_edge_ok in H.
  destruct H as (? & ? & ? & a_id & ? & ? & ? & tip & ch & _ & _ & _ & _ & _
                 & _ & _ & _ & _ & Hlk & (t0 & t1 & Ht0 & S1 & Hs') & Htx & Hn
                 & Hp & _ & Hi & _).
  apply hub_lookup_grows in Hlk. destruct Hlk as [Hhub Hhmono].
  apply single_side_set_chains in S1. destruct S1 as [Ha Hmono].
  rewrite Ht0 in Hmono. rewrite <- Hs' in Ha, Hmono.
  split; [exact Hmono|]. split; [exact Hhmono|]. split; [exact Hk|].
  split; [exact Hi|]. split; [exact Hp|]. split; [exact Hn|].
  eexists. split; [exact Htx|]. constructor; [|constructor].
  right. split; assumption.
Qed.

Lemma hub_chain_body_grows hub hub_name item s s' :
  hub_chain_body svd_fit hub hub_name item s = (Ok tt, s') -> grows s s'.
Proof.
  intros H. apply hub_chain_body_split in H. destruct H as (s1 & Hc & Hn).
  apply (hub_loops_keep (I := grows s)) with (3 := Hc) (4 := Hn).
  - intros b t t' Hb Ht. exact (grows_trans Ht (hub_c_edge_grows Hb)).
  - intros a t t' Ha Ht. exact (grows_trans Ht (hub_n_edge_grows Ha)).
  - apply grows_refl.
Qed.

Lemma process_hub_grows file_name s s' :
  process_hub svd_fit norm pdb_file file_name s = (Ok tt, s') ->
  exists chains r,
    hub_info s !! strip_pdb (basename file_name) <> Some None /\
    grows (set_hubs (fun t => <[strip_pdb (basename file_name) := mkHubModule chains r]> t)
             (set_hub_info (fun t => <[strip_pdb (basename file_name) := None]> t) s)) s'.
Proof.
  intros H. apply process_hub_ok in H. cbv zeta in H.
  destruct H as (raw & hub & cd & chains & r & s1 & _ & _ & Hinfo & _ & _ & Hloop & ->).
  exists chains, r. split; [congruence|].
  match type of Hloop with
  | for_each _ _ ?t0 = _ => apply (for_each_ok (I := grows t0)) in Hloop
  end.
  - destruct Hloop as (Hc & Hh & Hk & Hi & Hp & Hn & new & Ht & Hf).
    repeat split; try assumption. exists new. split; assumption.
  - intros item t t' _ Ht Hb. exact (grows_trans Ht (hub_chain_body_grows Hb)).
  - apply grows_refl.
Qed.

Lemma process_hub_edges file_name s s' :
  process_hub svd_fit norm pdb_file file_name s = (Ok tt, s') ->
  edges_ok s -> edges_ok s'.
Proof.
  intros H (Hp & Hh & Hc). apply process_hub_grows in H.
  destruct H as (chains & r & Hinfo & Hg).
  destruct Hg as (Hcm & Hhm & Hk & Hi & _ & Hn & new & Ht & Hf).
  cbn [singles hubs hub_info n_to_c_tx hub_tx set_hubs set_hub_info] in *.
  set (hub_name := strip_pdb (basename file_name)) in *.
  assert (Hfresh : hubs s !! hub_name = None).
  { destruct (hubs s !! hub_name) eqn:E; [|reflexivity].
    exfalso. apply Hinfo, Hc. rewrite E. eauto. }
  assert (Hins : forall n c, has_hub_chain (hubs s) n c ->
                   has_hub_chain (<[hub_name := mkHubModule chains r]> (hubs s)) n c).
  { intros n c (m & Hm & Hch). exists m. split; [|exact Hch].
    rewrite lookup_insert_ne; [exact Hm|]. intros <-. congruence. }
  split; [|split].
  - rewrite Hn. revert Hp. apply Forall_mono_edges. intros tx.
    apply pair_edge_ok_mono, Hcm.
  - rewrite Ht. apply Forall_app. split; [|exact Hf].
    revert Hh. apply Forall_mono_edges. intros tx. apply hub_edge_ok_mono; [exact Hcm|].
    intros n c Hx. apply Hhm, Hins, Hx.
  - intros n Hsome. apply Hk in Hsome. rewrite Hi.
    destruct (decide (n = hub_name)) as [->|Hne]; [apply lookup_insert_eq|].
    rewrite lookup_insert_ne by done. rewrite lookup_insert_ne in Hsome by done.
    apply Hc, Hsome.
Qed.

Lemma process_hub_cache file_name s s' :
  process_hub svd_fit norm pdb_file file_name s = (Ok tt, s') ->
  cache_ok s -> cache_ok s'.
Proof.
  intros H Hs. apply process_hub_grows in H.
  destruct H as (chains & r & _ & (Hcm & _ & _ & _ & Hp & _)).
  cbn [singles single_pdbs set_hubs set_hub_info] in *.
  intros name p. rewrite Hp. intros E.
  destruct (Hs name p E) as (st & c & -> & Ho & Hc & Hch).
  exists st, c. repeat split; try assumption. apply Hcm, Hch.
Qed.

(** *** The stages of a run *)

(** X16: in the document a completed [run] writes, every transform joins
    chains that the module table of the same document has: an edge
    recorded by double processing joins two chains of singles, an edge
    recorded by hub processing joins a chain of a hub and a chain of a
    single. *)
Theorem dumped_edges_join_table
    (single_files double_files hub_files : list string)
    (dir : string) (info : gmap string hub_meta) (s' : XDBGenerator) :
  run svd_fit linalg_inv norm pdb_file single_files double_files hub_files (init dir info)
  = (Ok tt, s') ->
  exists sg hb pairs hub_edges,
    out_written s'
    = Some [("modules"%string, DModules sg hb);
            ("n_to_c_tx"%string, DTransforms (pairs ++ hub_edges))] /\
    Forall (pair_edge_ok sg) pairs /\
    Forall (hub_edge_ok sg hb) hub_edges.
Proof.
  intros H. apply run_ok in H. destruct H as (s2 & s3 & H12 & H3 & ->).
  unfold singles_then_doubles in H12.
  apply bind_ok in H12. destruct H12 as ([] & s1 & H1 & H2).
  assert (I1 : edges_ok s1).
  { apply (for_each_ok
             (I := fun t => n_to_c_tx t = [] /\ hub_tx t = [] /\ hubs t = ∅)) in H1.
    - destruct H1 as (Hn & Hh & He). split; [rewrite Hn; constructor|].
      split; [rewrite Hh; constructor|].
      intros n [m Hm]. rewrite He, lookup_empty in Hm. discriminate Hm.
    - intros f t t' _ (Hn & Hh & He) Hf. apply process_single_frame in Hf.
      destruct Hf as (Hn' & Hh' & _ & He' & _). repeat split; congruence.
    - repeat split. }
  assert (I2 : edges_ok s2).
  { revert H2. apply (for_each_ok (I := edges_ok)); [|exact I1].
    intros f t t' _ Ht Hf. exact (process_double_edges Hf Ht). }
  assert (I3 : edges_ok s3).
  { revert H3. apply (for_each_ok (I := edges_ok)); [|exact I2].
    intros f t t' _ Ht Hf. exact (process_hub_edges Hf Ht). }
  destruct I3 as (Hp & Hh & _).
  exists (singles s3), (hubs s3), (n_to_c_tx s3), (hub_tx s3).
  split; [reflexivity|]. split; assumption.
Qed.

(** X17: the cache of singles stays well formed through the stages of a
    run: after each completed stage every cached value is a centred
    structure of exactly one chain, and that chain has an entry in the
    module table under the name of the single. *)
Theorem stages_keep_cache_ok
    (single_files double_files hub_files : list string) (s s1 s2 s3 : XDBGenerator) :
  cache_ok s ->
  for_each single_files (process_single svd_fit norm pdb_file) s = (Ok tt, s1) ->
  for_each double_files (process_double svd_fit linalg_inv pdb_file) s1 = (Ok tt, s2) ->
  for_each hub_files (process_hub svd_fit norm pdb_file) s2 = (Ok tt, s3) ->
  cache_ok s1 /\ cache_ok s2 /\ cache_ok s3.
Proof.
  intros Hs H1 H2 H3.
  assert (I1 : cache_ok s1).
  { revert H1. apply (for_each_ok (I := cache_ok)); [|exact Hs].
    intros f t t' _ Ht Hf. exact (process_single_cache Hf Ht). }
  assert (I2 : cache_ok s2).
  { revert H2. apply (for_each_ok (I := cache_ok)); [|exact I1].
    intros f t t' _ Ht Hf. exact (process_double_cache Hf Ht). }
  split; [exact I1|]. split; [exact I2|].
  revert H3. apply (for_each_ok (I := cache_ok)); [|exact I2].
  intros f t t' _ Ht Hf. exact (process_hub_cache Hf Ht).
Qed.

End TableProperties.

(** ** The doubles stage *)

Section DoublesStage.

Variable svd_fit : list vec3 -> list vec3 -> result (mat3 * vec3).
Variable linalg_inv : mat4 -> result mat4.
Variable pdb_file : string -> result (list Model).

Lemma doubles_stage_edges (double_files : list string) :
  forall s s',
    for_each double_files (process_double svd_fit linalg_inv pdb_file) s = (Ok tt, s') ->
    single_pdbs s' = single_pdbs s /\ hub_tx s' = hub_tx s /\
    (forall k, is_Some (double_pdbs s !! k) -> is_Some (double_pdbs s' !! k)) /\
    exists txs,
      n_to_c_tx s' = n_to_c_tx s ++ txs /\
      rmap (fun f => split_double_name (module_name f)) double_files
        = Ok (map edge_names txs) /\
      Forall (pair_edge_cached s') txs.
Proof.
  induction double_files as [|f fs IH]; intros s s' H; simpl in H.
  - apply ret_ok in H. destruct H as [_ ->].
    split; [reflexivity|]. split; [reflexivity|]. split; [auto|].
    exists []. rewrite app_nil_r. split; [reflexivity|]. split; [reflexivity|constructor].
  - apply bind_ok in H. destruct H as ([] & s1 & H1 & H2).
    apply IH in H2. destruct H2 as (Hp2 & Hh2 & Hk2 & txs & Hn2 & Hnames & Hall).
    apply process_double_ok in H1.
    destruct H1 as (raw & a & b & sa & sb & rc_a & rc_b & double & rt1 & rt & inv & a_id
                    & b_id & t1 & _ & _ & Hn & Ha & Hb & _ & _ & _ & _ & _ & _ & Haid & Hbid
                    & _ & Htx & Hd & _ & Hp1 & Hh1 & _).
    split; [congruence|]. split; [congruence|]. split.
    { intros k Hk. apply Hk2. rewrite Hd. apply lookup_insert_is_Some.
      destruct (decide ((a, b) = k)); [now left|right; split; assumption]. }
    eexists (_ :: txs). split; [rewrite Hn2, Htx, <- app_assoc; reflexivity|].
    split.
    + cbn [rmap]. rewrite Hn. cbn [rbind]. rewrite Hnames. reflexivity.
    + constructor; [|exact Hall].
      unfold pair_edge_cached. cbn [create_tx mod_a mod_a_chain mod_b mod_b_chain].
      rewrite Hp2, Hp1. split; [eauto|]. split; [eauto|].
      apply Hk2. rewrite Hd, lookup_insert_eq. eauto.
Qed.

(** X18: a completed doubles stage has appended to [n_to_c_tx] one edge
    per double file, in the order of the files: the edge of file [a-b.pdb]
    joins [a] and [b], which are cached singles, by the ids of their first
    chains, and the aligned double is cached under [(a, b)]; the cache of
    singles and the hub edges are left as they were. *)
Theorem doubles_stage_records_files (double_files : list string) (s s' : XDBGenerator) :
  for_each double_files (process_double svd_fit linalg_inv pdb_file) s = (Ok tt, s') ->
  exists txs,
    n_to_c_tx s' = n_to_c_tx s ++ txs /\
    rmap (fun f => split_double_name (module_name f)) double_files
      = Ok (map edge_names txs) /\
    Forall (pair_edge_cached s') txs /\
    single_pdbs s' = single_pdbs s /\ hub_tx s' = hub_tx s.
Proof.
  intros H. apply doubles_stage_edges in H.
  destruct H as (Hp & Hh & _ & txs & Hn & Hnames & Hall).
  exists txs. repeat split; assumption.
Qed.

End DoublesStage.

(** ** pdb_utilities.py *)

Lemma flat_map_residues (cs : list Chain) :
  flat_map (fun chain => residues chain) cs = concat (map residues cs).
Proof. induction cs as [|c cs IH]; simpl; [reflexivity|rewrite IH; reflexivity]. Qed.

Lemma fold_add_lengths (cs : list Chain) (acc : Z) :
  fold_left Z.add (map (fun c => Z.of_nat (length (residues c))) cs) acc
  = (acc + Z.of_nat (length (concat (map residues cs))))%Z.
Proof.
  revert acc. induction cs as [|c cs IH]; intros acc; simpl; [lia|].
  rewrite IH, length_app. lia.
Qed.

(** X19: [get_residues(pdb, chain_ids)] returns, in the order Bio.PDB
    walks the chains, the residues of the chains whose id is listed, and
    without a list what Bio.PDB's own [get_residues] walks;
    [get_pdb_residue_count] and [get_chains] look at the first model only:
    the count is the number of residues [get_residues] finds there. *)
Theorem pu_get_residues_spec (pdb : Structure) :
  pu_get_residues pdb None = get_residues pdb /\
  (forall ids,
      pu_get_residues pdb (Some ids)
      = concat (map residues
                  (List.filter (fun c => existsb (String.eqb (chain_id c)) ids)
                               (get_chains pdb)))) /\
  match models pdb with
  | [] => get_pdb_residue_count pdb = Raise IndexError /\
          pu_get_chains pdb = Raise IndexError
  | m :: _ =>
      get_pdb_residue_count pdb
      = Ok (Z.of_nat (length (pu_get_residues (mkStructure [m] None) None))) /\
      pu_get_chains pdb = Ok (chains m)
  end.
Proof.
  split; [|split].
  - unfold pu_get_residues, get_residues, get_chains.
    induction (models pdb) as [|m ms IH]; simpl; [reflexivity|].
    rewrite IH, map_app, concat_app, flat_map_residues. reflexivity.
  - intros ids. unfold pu_get_residues, get_chains.
    induction (models pdb) as [|m ms IH]; simpl; [reflexivity|].
    rewrite IH, List.filter_app, map_app, concat_app. f_equal.
    induction (chains m) as [|c cs IHc]; simpl; [reflexivity|].
    rewrite IHc. destruct (existsb _ ids); reflexivity.
  - unfold get_pdb_residue_count, pu_get_chains, first_model, pu_get_residues.
    destruct (models pdb) as [|m ms]; simpl; [split; reflexivity|].
    split; [|reflexivity]. rewrite app_nil_r, fold_add_lengths, flat_map_residues.
    reflexivity.
Qed.

(** ** Completion of the steps on their own *)

Lemma get_atoms_transform (rot : mat3) (t : vec3) (s : Structure) :
  get_atoms (transform rot t s) = map (transform_atom rot t) (get_atoms s).
Proof.
  unfold get_atoms. rewrite get_residues_transform, concat_map, !map_map. reflexivity.
Qed.

Lemma assoc_get_raise {V} (d : list (string * V)) (k : string) (e : exn) :
  assoc_get d k = Raise e -> e = KeyError.
Proof.
  induction d as [|[k' v] d IH]; simpl; [congruence|].
  destruct (String.eqb k' k); [discriminate|exact IH].
Qed.

Section Completion.

Variable svd_fit : list vec3 -> list vec3 -> result (mat3 * vec3).
Variable norm : vec3 -> Q.
Variable pdb_file : string -> result (list Model).

(** X3: [align] moves its first argument by the fit of the two windows
    and changes nothing else: chain ids, residues, atom names and the
    [at_origin] attribute stay, and every alpha carbon [c] goes to
    [c . rot + tran]. *)
Theorem align_moves_rigidly
    (moving fixed : Structure) (moving_resi_offset fixed_resi_offset match_count : Z)
    (moved : Structure) :
  align svd_fit moving fixed moving_resi_offset fixed_resi_offset match_count = Ok moved ->
  exists rt,
    get_rot_trans svd_fit moving "A" fixed "A"
                  moving_resi_offset fixed_resi_offset match_count = Ok rt /\
    shape moved = shape moving /\
    at_origin moved = at_origin moving /\
    get_pdb_residue_count moved = get_pdb_residue_count moving /\
    first_chain_id moved = first_chain_id moving /\
    ca_coords (get_residues moved)
    = (cs <- ca_coords (get_residues moving) ;; Ok (map (shift (fst rt) (snd rt)) cs))%res.
Proof.
  unfold align. intros H. apply rbind_ok in H. destruct H as (rt & Hrt & H).
  injection H as <-. exists rt. split; [exact Hrt|].
  split; [apply shape_transform|]. split; [reflexivity|].
  split; [apply get_pdb_residue_count_transform|].
  split; [apply first_chain_id_transform|].
  rewrite get_residues_transform. apply ca_coords_transform.
Qed.

Lemma moved_atoms_nil raw single :
  move_to_origin svd_fit raw = Ok single ->
  (get_atoms single = [] <-> get_atoms raw = []).
Proof.
  unfold move_to_origin. intros H. apply rbind_ok in H. destruct H as (com & _ & H).
  injection H as <-. destruct com as [c|]; [|reflexivity].
  change (get_atoms (transform identity3 (vneg c) raw) = [] <-> get_atoms raw = []).
  rewrite get_atoms_transform. destruct (get_atoms raw); simpl; split; congruence.
Qed.

Lemma move_to_origin_needs_ca raw single :
  move_to_origin svd_fit raw = Ok single ->
  forall r, In r (get_residues raw) -> exists a, residue_get r "CA" = Ok a.
Proof.
  unfold move_to_origin, get_centre_of_mass. intros H.
  pose proof (ca_coords_outcome (get_residues raw)) as Hall.
  destruct (ca_coords (get_residues raw)); [exact (proj2 Hall)|discriminate H].
Qed.

Lemma move_to_origin_total raw :
  (forall r, In r (get_residues raw) -> exists a, residue_get r "CA" = Ok a) ->
  exists single, move_to_origin svd_fit raw = Ok single /\ at_origin single = Some true.
Proof.
  intros H. apply ca_coords_total in H. destruct H as [cs Hcs].
  unfold move_to_origin, get_centre_of_mass. rewrite Hcs. simpl. eauto.
Qed.

Lemma get_radii_total pose :
  at_origin pose = Some true -> get_atoms pose <> [] ->
  exists r, get_radii norm pose = Ok r.
Proof.
  intros Ho Hne. unfold get_radii. rewrite Ho.
  destruct (fold_left (radii_step norm) (get_atoms pose) (0%Z, 0%Q, 0%Q, 0%Q))
    as [[[n sum] ca] h] eqn:E.
  apply radii_fold in E. destruct E as (Hn & _).
  destruct (Z.eqb_spec n 0) as [E0|_]; [|eauto].
  destruct (get_atoms pose); [congruence|simpl in Hn; lia].
Qed.

Lemma get_radii_needs_atoms pose r :
  get_radii norm pose = Ok r -> get_atoms pose <> [].
Proof.
  unfold get_radii. destruct (at_origin pose) as [[|]|]; try discriminate.
  intros H E. rewrite E in H. discriminate H.
Qed.

Lemma atoms_of_ca (st : Structure) (r : Residue) (a : Atom) :
  In r (get_residues st) -> residue_get r "CA" = Ok a -> get_atoms st <> [].
Proof.
  intros Hr Ha E. unfold residue_get in Ha.
  destruct (find _ (atoms r)) as [a'|] eqn:Ef; [|discriminate].
  apply find_some in Ef. destruct Ef as [Hin _].
  assert (In a' (get_atoms st)).
  { unfold get_atoms. apply in_concat. exists (atoms r). split; [apply in_map, Hr|exact Hin]. }
  rewrite E in H. destruct H.
Qed.

(** X20: whether [process_single] returns depends on the file alone, not
    on [self]: it returns exactly when the file parses into one chain that
    has at least one residue and an alpha carbon in every residue. *)
Theorem process_single_completes_iff (file_name : string) (s : XDBGenerator) :
  (exists s', process_single svd_fit norm pdb_file file_name s = (Ok tt, s'))
  <-> exists ms c,
        pdb_file file_name = Ok ms /\
        get_chains (mkStructure ms None) = [c] /\
        residues c <> [] /\
        forall r, In r (residues c) -> exists a, residue_get r "CA" = Ok a.
Proof.
  split.
  - intros [s' H]. apply process_single_ok in H.
    destruct H as (raw & single & c & r & Hraw & Hc & Hmove & Hrad & _).
    unfold read_pdb in Hraw. apply rbind_ok in Hraw. destruct Hraw as (ms & Hms & Hraw).
    injection Hraw as <-. exists ms, c. split; [exact Hms|]. split; [exact Hc|].
    assert (Hres : get_residues (mkStructure ms None) = residues c).
    { unfold get_residues. rewrite Hc. simpl. apply app_nil_r. }
    pose proof (move_to_origin_needs_ca Hmove) as Hall. rewrite Hres in Hall.
    split; [|exact Hall].
    intros E. apply get_radii_needs_atoms in Hrad. apply Hrad.
    apply (moved_atoms_nil Hmove). unfold get_atoms. rewrite Hres, E. reflexivity.
  - intros (ms & c & Hms & Hc & Hne & Hall).
    assert (Hres : get_residues (mkStructure ms None) = residues c).
    { unfold get_residues. rewrite Hc. simpl. apply app_nil_r. }
    destruct (@move_to_origin_total (mkStructure ms None)) as (single & Hmove & Ho).
    { rewrite Hres. exact Hall. }
    destruct (@get_radii_total single Ho) as [r Hr].
    { intros E. apply (moved_atoms_nil Hmove) in E.
      destruct (residues c) as [|r0 rs] eqn:Er; [congruence|].
      destruct (Hall r0 (or_introl eq_refl)) as [a Ha].
      refine (atoms_of_ca (st := mkStructure ms None) (r := r0) _ Ha E).
      rewrite Hres. now left. }
    unfold process_single, bind, lift, gets, modify, save_pdb, read_pdb.
    rewrite Hms. cbn [rbind]. rewrite Hc. cbn [length Nat.eqb py_assert negb].
    rewrite Hmove. cbn [list_get lookup]. rewrite Hr. eexists. reflexivity.
Qed.

(** X21: the chain table of a hub is made from the chains of the hub file
    and the component data: the comprehension raises [KeyError] exactly
    when some chain of the file is not named in the component data, and
    otherwise holds one entry per chain id of the file, with empty
    neighbour maps and tips, the single name the component data gives and
    the residue count of a chain with that id. *)
Theorem hub_chains_init_outcome (comp_data : list (string * chain_data)) (hub : Structure) :
  match hub_chains_init comp_data hub with
  | Ok chains =>
      (forall c, In c (get_chains hub) -> exists cd, assoc_get comp_data (chain_id c) = Ok cd) /\
      forall cid,
        match chains !! cid with
        | Some ch =>
            exists c cd,
              In c (get_chains hub) /\ chain_id c = cid /\
              assoc_get comp_data cid = Ok cd /\
              ch = mkHubChain (single_name cd) ∅ TipEmpty ∅ TipEmpty
                              (Z.of_nat (length (residues c)))
        | None => forall c, In c (get_chains hub) -> chain_id c <> cid
        end
  | Raise e =>
      e = KeyError /\
      exists c, In c (get_chains hub) /\ assoc_get comp_data (chain_id c) = Raise KeyError
  end.
Proof.
  unfold hub_chains_init.
  set (made := fun (c : Chain) (cd : chain_data) =>
                 mkHubChain (single_name cd) ∅ TipEmpty ∅ TipEmpty
                            (Z.of_nat (length (residues c)))).
  set (step := fun (acc : gmap string hub_chain) (c : Chain) =>
                 (cd <- assoc_get comp_data (chain_id c) ;;
                  Ok (<[chain_id c := made c cd]> acc))%res).
  assert (G : forall l acc,
    match rfold step l acc with
    | Ok chains =>
        (forall c, In c l -> exists cd, assoc_get comp_data (chain_id c) = Ok cd) /\
        forall cid,
          match chains !! cid with
          | Some ch =>
              (exists c cd, In c l /\ chain_id c = cid /\
                            assoc_get comp_data cid = Ok cd /\ ch = made c cd) \/
              (acc !! cid = Some ch /\ forall c, In c l -> chain_id c <> cid)
          | None => acc !! cid = None /\ forall c, In c l -> chain_id c <> cid
          end
    | Raise e =>
        e = KeyError /\
        exists c, In c l /\ assoc_get comp_data (chain_id c) = Raise KeyError
    end).
  { induction l as [|c l IH]; intros acc; simpl rfold.
    - split; [intros c Hc; destruct Hc|]. intros cid.
      destruct (acc !! cid) eqn:E; [right|]; (split; [reflexivity|intros c Hc; destruct Hc]).
    - change (step acc c)
        with (cd <- assoc_get comp_data (chain_id c) ;;
              Ok (<[chain_id c := made c cd]> acc))%res.
      destruct (assoc_get comp_data (chain_id c)) as [cd|e] eqn:Ecd; cbn [rbind].
      + specialize (IH (<[chain_id c := made c cd]> acc)).
        destruct (rfold step l _) as [chains|e].
        * destruct IH as [Hall Hlk]. split.
          { intros c' [<-|Hin]; [eauto|apply Hall, Hin]. }
          intros cid. specialize (Hlk cid).
          destruct (chains !! cid) as [ch|].
          -- destruct Hlk as [(c' & cd' & Hin & Hid & Hcd & ->)|[Hacc Hno]].
             ++ left. exists c', cd'. repeat split; try assumption. now right.
             ++ destruct (decide (chain_id c = cid)) as [E|Hne].
                ** left. rewrite E, lookup_insert_eq in Hacc. injection Hacc as <-.
                   exists c, cd. rewrite <- E. repeat split; try assumption. now left.
                ** right. rewrite lookup_insert_ne in Hacc by done.
                   split; [exact Hacc|]. intros c' [<-|Hin]; [exact Hne|apply Hno, Hin].
          -- destruct Hlk as [Hacc Hno].
             destruct (decide (chain_id c = cid)) as [E|Hne].
             ++ rewrite E, lookup_insert_eq in Hacc. discriminate Hacc.
             ++ rewrite lookup_insert_ne in Hacc by done.
                split; [exact Hacc|]. intros c' [<-|Hin]; [exact Hne|apply Hno, Hin].
        * destruct IH as [-> (c' & Hin & Hc')]. split; [reflexivity|].
          exists c'. split; [now right|exact Hc'].
      + pose proof (assoc_get_raise Ecd) as ->. split; [reflexivity|].
        exists c. split; [now left|exact Ecd]. }
  specialize (G (get_chains hub) ∅).
  change (rfold _ (get_chains hub) ∅) with (rfold step (get_chains hub) ∅).
  destruct (rfold step (get_chains hub) ∅) as [chains|e]; [|exact G].
  destruct G as [Hall Hlk]. split; [exact Hall|]. intros cid. specialize (Hlk cid).
  destruct (chains !! cid) as [ch|].
  - destruct Hlk as [H|[Hacc _]]; [exact H|]. rewrite lookup_empty in Hacc. discriminate.
  - exact (proj2 Hlk).
Qed.

End Completion.

(** * The further properties on the small database *)

Lemma align_moves_rigidly_witness :
  exists rt,
    get_rot_trans demo_fit (tip_struct 4) "A" (tip_struct 2) "A" 0 0 1 = Ok rt /\
    shape (transform identity3 (V3 1 0 0) (tip_struct 4)) = shape (tip_struct 4) /\
    at_origin (transform identity3 (V3 1 0 0) (tip_struct 4)) = at_origin (tip_struct 4) /\
    get_pdb_residue_count (transform identity3 (V3 1 0 0) (tip_struct 4))
    = get_pdb_residue_count (tip_struct 4) /\
    first_chain_id (transform identity3 (V3 1 0 0) (tip_struct 4))
    = first_chain_id (tip_struct 4) /\
    ca_coords (get_residues (transform identity3 (V3 1 0 0) (tip_struct 4)))
    = (cs <- ca_coords (get_residues (tip_struct 4)) ;;
       Ok (map (shift (fst rt) (snd rt)) cs))%res.
Proof.
  apply (@align_moves_rigidly demo_fit (tip_struct 4) (tip_struct 2) 0 0 1
           (transform identity3 (V3 1 0 0) (tip_struct 4))).
  vm_compute. reflexivity.
Defined.

Lemma get_rot_trans_checks_lengths_witness :
  get_rot_trans demo_fit (tip_struct 2) "A" (tip_struct 4) "A" 1 1 2 = Raise PDBException.
Proof.
  refine (@get_rot_trans_checks_lengths demo_fit (tip_struct 2) "A" (tip_struct 4) "A"
            1 1 2 (tip_chain 2) (tip_chain 4) eq_refl eq_refl _).
  intros r Hr. vm_compute in Hr.
  repeat (destruct Hr as [<-|Hr]; [eexists; reflexivity|]). destruct Hr.
Defined.

Lemma find_tip_scaled_sum_witness :
  exists tip,
    find_tip "c" (tip_struct 12) "A" = Ok (Some tip) /\
    veq (vscale (inject_Z (Z.of_nat 2) - 1) tip) (vsum [V3 11 0 0; V3 12 0 0]).
Proof.
  destruct (@find_tip_scaled_sum "c" (tip_struct 12) "A" (tip_chain 12)
              [V3 11 0 0; V3 12 0 0] eq_refl ltac:(simpl; discriminate)
              (or_intror eq_refl) eq_refl) as [_ H].
  destruct (find_tip "c" (tip_struct 12) "A") as [[tip|]|]; [|discriminate H|destruct H].
  exists tip. split; [reflexivity|exact (proj2 H)].
Defined.

Lemma process_double_failure_records_nothing_witness :
  n_to_c_tx demo_failed = n_to_c_tx demo_init /\ hub_tx demo_failed = hub_tx demo_init /\
  double_pdbs demo_failed = double_pdbs demo_init /\ hubs demo_failed = hubs demo_init /\
  hub_info demo_failed = hub_info demo_init /\ out_written demo_failed = out_written demo_init.
Proof.
  apply (@process_double_failure_records_nothing demo_fit demo_inv demo_files
           "in/doubles/A-B.pdb" demo_init demo_failed AttributeError).
  vm_compute. reflexivity.
Defined.

Lemma failed_run_writes_nothing_witness :
  out_written (snd demo_bad_run) = out_written demo_init.
Proof.
  apply (@failed_run_writes_nothing demo_fit demo_inv demo_norm demo_files
           ["in/singles/bad.pdb"%string] [] [] demo_init (snd demo_bad_run) AssertionError).
  vm_compute. reflexivity.
Defined.

Lemma process_hub_consumes_metadata_witness :
  process_hub demo_fit demo_norm demo_files "in/hubs/H.pdb" demo_s3
  = (Raise KeyError, demo_s3).
Proof.
  assert (Hmove : move_to_origin demo_fit (mkStructure demo_hub_models None) = Ok demo_hub)
    by (vm_compute; reflexivity).
  pose proof (@process_hub_consumes_metadata demo_fit demo_norm demo_files "in/hubs/H.pdb"
                demo_hub_models demo_hub demo_s2 eq_refl Hmove) as H.
  cbv zeta in H.
  assert (E : hub_info demo_s2 !! strip_pdb (basename "in/hubs/H.pdb")
              = Some (Some demo_comp_data)) by (vm_compute; reflexivity).
  rewrite E in H. exact (proj2 H).
Defined.

Lemma process_double_unknown_single_witness :
  exists s',
    process_double demo_fit demo_inv demo_files "in/doubles/A-B.pdb" demo_init
    = (Raise AttributeError, s') /\
    single_pdbs s' !! "A"%string = Some EmptyDict /\
    (forall n, n <> "A"%string -> n <> "B"%string ->
               single_pdbs s' !! n = single_pdbs demo_init !! n) /\
    singles s' = singles demo_init /\ n_to_c_tx s' = n_to_c_tx demo_init /\
    aligned_files s' = aligned_files demo_init.
Proof.
  apply (@process_double_unknown_single demo_fit demo_inv demo_files "in/doubles/A-B.pdb"
           [mkModel [demo_chain "A" 1 4]] "A" "B" demo_init).
  - reflexivity.
  - reflexivity.
  - vm_compute. reflexivity.
  - vm_compute. reflexivity.
Defined.

Lemma completed_double_windows_in_bounds_witness :
  exists raw ca cb cd,
    read_pdb demo_files "in/doubles/A-B.pdb" = Ok raw /\
    get_chain (demo_single "A") "A" = Ok ca /\
    get_chain (demo_single "B") "A" = Ok cb /\
    get_chain raw "A" = Ok cd /\
    let rc_a := Z.of_nat (length (residues ca)) in
    let rc_b := Z.of_nat (length (residues cb)) in
    let fusion_count_a := fusion_count rc_a dbl_fusion_factor in
    let fusion_count_b := fusion_count rc_b dbl_fusion_factor in
    (2 <= rc_a)%Z /\ (1 <= rc_b)%Z /\
    (rc_a + rc_b_half rc_b <= Z.of_nat (length (residues cd)))%Z /\
    window_ok (residues cd) (rc_a_half rc_a - fusion_count_a) fusion_count_a /\
    window_ok (residues ca) (rc_a_half rc_a - fusion_count_a) fusion_count_a /\
    window_ok (residues cb) (rc_b_half rc_b - fusion_count_b) fusion_count_b /\
    window_ok (residues cd) (rc_a + rc_b_half rc_b - fusion_count_b) fusion_count_b.
Proof.
  apply (@completed_double_windows_in_bounds demo_fit demo_inv demo_files
           "in/doubles/A-B.pdb" demo_s1 demo_s2 "A" "B" (demo_single "A") (demo_single "B")).
  - intros ma rt H. discriminate H.
  - vm_compute. reflexivity.
  - vm_compute. reflexivity.
  - vm_compute. reflexivity.
  - vm_compute. reflexivity.
  - vm_compute. reflexivity.
  - vm_compute. reflexivity.
Defined.

Lemma hub_c_edge_composes_witness :
  exists tx pair dbl_id comp_id b_id double rc_a rc_hub rt,
    hub_tx demo_h1 = hub_tx demo_h0 ++ [tx] /\
    single_id demo_h0 "A" comp_id SideC ("B"%string, b_id) = Some dbl_id /\
    n_to_c_tx demo_h0 !! dbl_id = Some pair /\
    double_pdbs demo_h0 !! ("A"%string, "B"%string) = Some double /\
    get_rot_trans demo_fit double "A" demo_hub "X"
      (rc_a - fusion_count rc_a hub_fusion_factor)
      (rc_hub - fusion_count rc_a hub_fusion_factor)
      (fusion_count rc_a hub_fusion_factor) = Ok rt /\
    meq (rot tx) (mmul (transpose (fst rt)) (rot pair)) /\
    veq (tran tx) (vadd (mat_vec (transpose (fst rt)) (tran pair)) (snd rt)).
Proof.
  apply (@hub_c_edge_composes demo_fit demo_hub "H" "X" "A" "B" demo_h0 demo_h1).
  vm_compute. reflexivity.
Defined.

Lemma process_hub_records_plan_witness :
  exists new,
    hub_tx demo_s3 = hub_tx demo_s2 ++ new /\ n_to_c_tx demo_s3 = n_to_c_tx demo_s2 /\
    Forall2 (edge_matches (strip_pdb (basename "in/hubs/H.pdb")))
            (hub_plan (n_to_c_tx demo_s2) demo_comp_data) new.
Proof.
  apply (@process_hub_records_plan demo_fit demo_norm demo_files "in/hubs/H.pdb"
           demo_s2 demo_s3 demo_comp_data).
  - vm_compute. reflexivity.
  - vm_compute. reflexivity.
Defined.

Lemma hub_tip_set_when_owed_witness :
  exists raw hub,
    read_pdb demo_files "in/hubs/H.pdb" = Ok raw /\
    move_to_origin demo_fit raw = Ok hub /\
    tip_set hub (strip_pdb (basename "in/hubs/H.pdb")) "X" SideC demo_s3.
Proof.
  apply (@hub_tip_set_when_owed demo_fit demo_norm demo_files "in/hubs/H.pdb"
           demo_s2 demo_s3 demo_comp_data "X" (mkChainData "A" true false) SideC).
  - vm_compute. reflexivity.
  - vm_compute. reflexivity.
  - left. reflexivity.
  - reflexivity.
  - vm_compute. discriminate.
Defined.

Lemma dumped_edges_join_table_witness :
  exists sg hb pairs hub_edges,
    out_written (snd demo_run)
    = Some [("modules"%string, DModules sg hb);
            ("n_to_c_tx"%string, DTransforms (pairs ++ hub_edges))] /\
    Forall (pair_edge_ok sg) pairs /\
    Forall (hub_edge_ok sg hb) hub_edges.
Proof.
  apply (@dumped_edges_join_table demo_fit demo_inv demo_norm demo_files
           demo_singles demo_doubles demo_hubs "out" demo_info (snd demo_run)).
  vm_compute. reflexivity.
Defined.

Lemma stages_keep_cache_ok_witness :
  cache_ok demo_s1 /\ cache_ok demo_s2 /\ cache_ok demo_s3.
Proof.
  apply (@stages_keep_cache_ok demo_fit demo_inv demo_norm demo_files
           demo_singles demo_doubles demo_hubs demo_init demo_s1 demo_s2 demo_s3).
  - intros name p H. vm_compute in H. discriminate H.
  - vm_compute. reflexivity.
  - vm_compute. reflexivity.
  - vm_compute. reflexivity.
Defined.

Lemma doubles_stage_records_files_witness :
  exists txs,
    n_to_c_tx demo_s2 = n_to_c_tx demo_s1 ++ txs /\
    rmap (fun f => split_double_name (module_name f)) demo_doubles
      = Ok (map edge_names txs) /\
    Forall (pair_edge_cached demo_s2) txs /\
    single_pdbs demo_s2 = single_pdbs demo_s1 /\ hub_tx demo_s2 = hub_tx demo_s1.
Proof.
  apply (@doubles_stage_records_files demo_fit demo_inv demo_files demo_doubles
           demo_s1 demo_s2).
  vm_compute. reflexivity.
Defined.
